(** * Chess against an engine: the game component and the engine hook

    A shallow embedding of [src/components/ChessGame.tsx] (the turn-driven
    game state and its transitions) and of the three copies of the
    [useStockfish] hook with their worker scripts, followed by the
    properties of the game orchestrator and of the engine session.

    React state and refs are modelled by explicit state passing: a
    handler takes the state it reads and returns the state it stores, one
    handler at a time.  The page's timers are a table of armed handles;
    the expiry of a timer and the arrival of a worker message are events,
    and a run is a list of events in the order in which they happen.
    Callbacks handed to the hook are named by numbers, and a handler
    returns the list of callback invocations it performs, in order.
    chess.js is a parameter: a class of rules engines.  Sounds, speech and
    the bot's chat messages are left out. *)

From Stdlib Require Import String Ascii List Bool Arith NArith Lia.
From Stdlib Require Import DecimalString DecimalNat.
Import ListNotations.
Open Scope string_scope.
Open Scope list_scope.

(** ** The rules engine (chess.js), consumed as a black box *)

Module Rules.

Inductive Color := w | b.

(** The argument of [Chess.move]. *)
Record MoveRequest := {
  from : string;
  to : string;
  promotion : option string
}.

(** The fields of a chess.js move object that the component reads. *)
Record Move := {
  san : string;
  mfrom : string;
  mto : string
}.

(** [Chess.move] mutates the instance and returns the move; older
    releases return [null] on an illegal move, newer ones throw. *)
Inductive MoveOutcome (B : Type) :=
| Moved (after : B) (m : Move)
| ReturnedNull
| Threw.
Arguments Moved {B} after m.
Arguments ReturnedNull {B}.
Arguments Threw {B}.

Class RulesEngine := {
  Chess : Type;
  newChess : Chess;                       (* new Chess() *)
  loadFen : string -> Chess;              (* new Chess(fen) *)
  fen : Chess -> string;
  move : Chess -> MoveRequest -> MoveOutcome Chess;
  isCheckmate : Chess -> bool;
  isDraw : Chess -> bool;
  isCheck : Chess -> bool;
  isGameOver : Chess -> bool;
  turn : Chess -> Color
}.

(** The rules engine accepts the request on this board. *)
Definition legal `{RulesEngine} (g : Chess) (r : MoveRequest) : bool :=
  match move g r with
  | Moved _ _ => true
  | _ => false
  end.

End Rules.

(** A rules engine that knows the two plies 1. e4 e5 and nothing else;
    it serves as the concrete engine of the worked runs below. *)
Module OpeningBook.
Import Rules.

Inductive board := Start | AfterE4 | AfterE4E5.

Definition start_fen := "rnbqkbnr/pppppppp/8/8/8/8/PPPPPPPP/RNBQKBNR w KQkq - 0 1".
Definition e4_fen := "rnbqkbnr/pppppppp/8/8/4P3/8/PPPP1PPP/RNBQKBNR b KQkq - 0 1".
Definition e4e5_fen := "rnbqkbnr/pppp1ppp/8/4p3/4P3/8/PPPP1PPP/RNBQKBNR w KQkq - 0 2".

Definition board_fen (g : board) : string :=
  match g with
  | Start => start_fen
  | AfterE4 => e4_fen
  | AfterE4E5 => e4e5_fen
  end.

Definition board_load (f : string) : board :=
  if String.eqb f e4_fen then AfterE4
  else if String.eqb f e4e5_fen then AfterE4E5
  else Start.

Definition board_move (g : board) (r : MoveRequest) : MoveOutcome board :=
  match g with
  | Start =>
      if String.eqb (from r) "e2" && String.eqb (to r) "e4"
      then Moved AfterE4 {| san := "e4"; mfrom := "e2"; mto := "e4" |}
      else Threw
  | AfterE4 =>
      if String.eqb (from r) "e7" && String.eqb (to r) "e5"
      then Moved AfterE4E5 {| san := "e5"; mfrom := "e7"; mto := "e5" |}
      else Threw
  | AfterE4E5 => Threw
  end.

Definition board_turn (g : board) : Color :=
  match g with
  | AfterE4 => b
  | _ => w
  end.

Definition engine : RulesEngine := {|
  Chess := board;
  newChess := Start;
  loadFen := board_load;
  fen := board_fen;
  move := board_move;
  isCheckmate := fun _ => false;
  isDraw := fun _ => false;
  isCheck := fun _ => false;
  isGameOver := fun _ => false;
  turn := board_turn
|}.

End OpeningBook.

(** ** The game component, [src/components/ChessGame.tsx] *)

Module Game.
Import Rules.

Inductive Gender := male | female | unset.     (* 'male' | 'female' | '' *)
Inductive Side := white | black.

Section WithRules.
Context {R : RulesEngine}.

Record GameState := {
  playerName : string;
  playerGender : Gender;
  playerColor : Side;
  gameStarted : bool;
  isFullscreen : bool;
  game : Chess;
  gamePosition : string;
  moveHistory : list string;
  gameStatus : string;
  isPlayerTurn : bool;
  botThinking : bool;
  lastMove : option (string * string);
  botMessage : string;
  showBotMessage : bool;
  selectedSquares : list string;
  soundEnabled : bool;
  speechEnabled : bool;
  moveCount : nat
}.

(** The argument of [useState]: the state of a freshly mounted
    component. *)
Definition initialState : GameState := {|
  playerName := EmptyString;
  playerGender := unset;
  playerColor := white;
  gameStarted := false;
  isFullscreen := false;
  game := newChess;
  gamePosition := fen newChess;
  moveHistory := [];
  gameStatus := "Game in progress";
  isPlayerTurn := true;
  botThinking := false;
  lastMove := None;
  botMessage := EmptyString;
  showBotMessage := false;
  selectedSquares := [];
  soundEnabled := true;
  speechEnabled := true;
  moveCount := 0
|}.

(** [resetGame]: [{...prev, gameStarted: false, playerName: '', ...}];
    the fields it does not list are carried over by the spread. *)
Definition resetGame (prev : GameState) : GameState := {|
  playerName := EmptyString;
  playerGender := unset;
  playerColor := white;
  gameStarted := false;
  isFullscreen := isFullscreen prev;
  game := newChess;
  gamePosition := fen newChess;
  moveHistory := [];
  gameStatus := "Game in progress";
  isPlayerTurn := true;
  botThinking := false;
  lastMove := None;
  botMessage := EmptyString;
  showBotMessage := false;
  selectedSquares := [];
  soundEnabled := soundEnabled prev;
  speechEnabled := speechEnabled prev;
  moveCount := 0
|}.

(** The setup form: the name field and the gender and colour buttons,
    each [{...prev, field: value}]. *)
Definition enterDetails (name : string) (g : Gender) (c : Side)
           (prev : GameState) : GameState := {|
  playerName := name;
  playerGender := g;
  playerColor := c;
  gameStarted := gameStarted prev;
  isFullscreen := isFullscreen prev;
  game := game prev;
  gamePosition := gamePosition prev;
  moveHistory := moveHistory prev;
  gameStatus := gameStatus prev;
  isPlayerTurn := isPlayerTurn prev;
  botThinking := botThinking prev;
  lastMove := lastMove prev;
  botMessage := botMessage prev;
  showBotMessage := showBotMessage prev;
  selectedSquares := selectedSquares prev;
  soundEnabled := soundEnabled prev;
  speechEnabled := speechEnabled prev;
  moveCount := moveCount prev
|}.

(** The characters [String.prototype.trim] strips, the WhiteSpace and
    LineTerminator code points of ECMAScript, each by the bytes of its
    UTF-8 encoding: strings are UTF-8 text. *)
Definition utf8 (bytes : list nat) : string :=
  fold_right (fun n s => String (ascii_of_nat n) s) EmptyString bytes.

Definition whiteSpace : list string :=
  map utf8
    [ [9]; [10]; [11]; [12]; [13]; [32];        (* TAB, LF, VT, FF, CR, SP *)
      [194; 160];                               (* U+00A0 *)
      [225; 154; 128];                          (* U+1680 *)
      [226; 128; 128]; [226; 128; 129];         (* U+2000 .. U+200A *)
      [226; 128; 130]; [226; 128; 131];
      [226; 128; 132]; [226; 128; 133];
      [226; 128; 134]; [226; 128; 135];
      [226; 128; 136]; [226; 128; 137];
      [226; 128; 138];
      [226; 128; 168]; [226; 128; 169];         (* U+2028, U+2029 *)
      [226; 128; 175];                          (* U+202F *)
      [226; 129; 159];                          (* U+205F *)
      [227; 128; 128];                          (* U+3000 *)
      [239; 187; 191] ].                        (* U+FEFF *)

Definition isWhiteSpace (ch : string) : bool :=
  existsb (String.eqb ch) whiteSpace.

(** [name.trim()] is a non-empty string: read from the left, character
    by character, the name holds a character that is not white space.
    A white space character takes one, two or three bytes. *)
Fixpoint trimmedNonEmpty (name : string) : bool :=
  match name with
  | EmptyString => false
  | String c1 r1 =>
      if isWhiteSpace (String c1 EmptyString) then trimmedNonEmpty r1
      else
        match r1 with
        | EmptyString => true
        | String c2 r2 =>
            if isWhiteSpace (String c1 (String c2 EmptyString)) then trimmedNonEmpty r2
            else
              match r2 with
              | EmptyString => true
              | String c3 r3 =>
                  if isWhiteSpace (String c1 (String c2 (String c3 EmptyString)))
                  then trimmedNonEmpty r3
                  else true
              end
        end
  end.

(** The guard of [startGame]: [playerName.trim() && playerGender]. *)
Definition canStart (s : GameState) : bool :=
  trimmedNonEmpty (playerName s)
  && match playerGender s with unset => false | _ => true end.

Definition startGame (prev : GameState) : GameState :=
  if canStart prev
  then {|
    playerName := playerName prev;
    playerGender := playerGender prev;
    playerColor := playerColor prev;
    gameStarted := true;
    isFullscreen := isFullscreen prev;
    game := newChess;
    gamePosition := fen newChess;
    moveHistory := [];
    gameStatus := "Game in progress";
    isPlayerTurn := match playerColor prev with white => true | black => false end;
    botThinking := false;
    lastMove := None;
    botMessage := EmptyString;
    showBotMessage := false;
    selectedSquares := [];
    soundEnabled := soundEnabled prev;
    speechEnabled := speechEnabled prev;
    moveCount := 0
  |}
  else prev.

Definition set_botThinking (v : bool) (prev : GameState) : GameState := {|
  playerName := playerName prev;
  playerGender := playerGender prev;
  playerColor := playerColor prev;
  gameStarted := gameStarted prev;
  isFullscreen := isFullscreen prev;
  game := game prev;
  gamePosition := gamePosition prev;
  moveHistory := moveHistory prev;
  gameStatus := gameStatus prev;
  isPlayerTurn := isPlayerTurn prev;
  botThinking := v;
  lastMove := lastMove prev;
  botMessage := botMessage prev;
  showBotMessage := showBotMessage prev;
  selectedSquares := selectedSquares prev;
  soundEnabled := soundEnabled prev;
  speechEnabled := speechEnabled prev;
  moveCount := moveCount prev
|}.

Definition toggleSound (prev : GameState) : GameState := {|
  playerName := playerName prev;
  playerGender := playerGender prev;
  playerColor := playerColor prev;
  gameStarted := gameStarted prev;
  isFullscreen := isFullscreen prev;
  game := game prev;
  gamePosition := gamePosition prev;
  moveHistory := moveHistory prev;
  gameStatus := gameStatus prev;
  isPlayerTurn := isPlayerTurn prev;
  botThinking := botThinking prev;
  lastMove := lastMove prev;
  botMessage := botMessage prev;
  showBotMessage := showBotMessage prev;
  selectedSquares := selectedSquares prev;
  soundEnabled := negb (soundEnabled prev);
  speechEnabled := speechEnabled prev;
  moveCount := moveCount prev
|}.

(** The status line computed after a move, the same text in [onDrop]
    and in [makeBotMove]. *)
Definition statusOf (g : Chess) : string :=
  if isCheckmate g then
    "Checkmate! " ++ (match turn g with w => "Black" | b => "White" end) ++ " wins!"
  else if isDraw g then "Draw!"
  else if isCheck g then "Check!"
  else "Game in progress".

(** The state stored after a move was applied; [handTo] is the value
    written to [isPlayerTurn], [thinking] the one kept or written to
    [botThinking]. *)
Definition afterMove (prev : GameState) (g : Chess) (m : Move)
           (handTo thinking : bool) : GameState := {|
  playerName := playerName prev;
  playerGender := playerGender prev;
  playerColor := playerColor prev;
  gameStarted := gameStarted prev;
  isFullscreen := isFullscreen prev;
  game := g;
  gamePosition := fen g;
  moveHistory := moveHistory prev ++ [san m];
  gameStatus := statusOf g;
  isPlayerTurn := handTo;
  botThinking := thinking;
  lastMove := Some (mfrom m, mto m);
  botMessage := botMessage prev;
  showBotMessage := showBotMessage prev;
  selectedSquares := [];
  soundEnabled := soundEnabled prev;
  speechEnabled := speechEnabled prev;
  moveCount := moveCount prev + 1
|}.

(** [piece.toLowerCase().includes('q')] *)
Fixpoint includes_q (piece : string) : bool :=
  match piece with
  | EmptyString => false
  | String c rest =>
      Ascii.eqb c "q"%char || Ascii.eqb c "Q"%char || includes_q rest
  end.

Definition dropRequest (sourceSquare targetSquare piece : string) : MoveRequest := {|
  from := sourceSquare;
  to := targetSquare;
  promotion := if includes_q piece then Some "q" else None
|}.

(** What [onDrop] returns and leaves behind: the stored state, the
    boolean handed back to the board, and the position for which a
    bot move is scheduled 200 ms later, if any. *)
Record DropResult := {
  stored : GameState;
  accepted : bool;
  scheduled : option string
}.

Definition refused (s : GameState) : DropResult :=
  {| stored := s; accepted := false; scheduled := None |}.

(** [onDrop]: [return false] before any update when it is not the
    player's turn or the bot is thinking, and when [move] returns [null]
    or throws. *)
Definition onDrop (s : GameState) (sourceSquare targetSquare piece : string)
  : DropResult :=
  if negb (isPlayerTurn s) || botThinking s then refused s
  else
    match move (loadFen (gamePosition s))
               (dropRequest sourceSquare targetSquare piece) with
    | Moved newGame m =>
        {| stored := afterMove s newGame m false (botThinking s);
           accepted := true;
           scheduled := if isGameOver newGame then None else Some (fen newGame) |}
    | ReturnedNull => refused s
    | Threw => refused s
    end.

(** [{from: s.slice(0, 2), to: s.slice(2, 4), promotion: s.slice(4) || undefined}] *)
Definition botRequest (moveString : string) : MoveRequest := {|
  from := substring 0 2 moveString;
  to := substring 2 2 moveString;
  promotion :=
    match substring 4 (String.length moveString - 4) moveString with
    | EmptyString => None
    | p => Some p
    end
|}.

(** [makeBotMove]: the updater passed to [setGameState].  A rejected
    move, whether [move] returns [null] or throws, ends in
    [{...prev, botThinking: false}]. *)
Definition makeBotMove (prev : GameState) (moveString : string) : GameState :=
  match move (loadFen (gamePosition prev)) (botRequest moveString) with
  | Moved newGame m => afterMove prev newGame m true false
  | ReturnedNull => set_botThinking false prev
  | Threw => set_botThinking false prev
  end.

(** The failure callback that [requestBotMove] hands to the hook. *)
Definition onBotMoveFailed (prev : GameState) : GameState :=
  set_botThinking false prev.

(** The first statement of [requestBotMove]. *)
Definition botStartsThinking (prev : GameState) : GameState :=
  set_botThinking true prev.

(** *** The vocabulary of the specification, read off the state *)

Inductive TurnOwner := Human | Engine.

Definition turnOwner (s : GameState) : TurnOwner :=
  if isPlayerTurn s then Human else Engine.

Inductive GamePhase := Setup | InProgress | Ended.

Definition phase (s : GameState) : GamePhase :=
  if negb (gameStarted s) then Setup
  else if isCheckmate (game s) || isDraw (game s) then Ended
  else InProgress.

End WithRules.

Arguments GameState {R}.
Arguments DropResult {R}.

End Game.


(** ** The engine hook, [useStockfish]

    Three copies of the hook exist: [src/hooks/useStockfish.ts], the one
    the game imports, and two siblings that differ in the worker script
    and in the timeouts. *)

Module Hook.

Inductive HookVariant :=
| Shipped      (* src/hooks/useStockfish.ts: Stockfish or the fallback engine *)
| Depth20      (* the sibling copy that searches with "go depth 20" *)
| Wasm.        (* the sibling copy that loads stockfish.wasm.js *)

(** Messages the page posts to the worker: [{command, fen}]. *)
Inductive Command :=
| position (fen : string)
| stop
| newgame.

(** Messages the worker posts to the page: [{type, move, message, depth}]. *)
Inductive Reply :=
| ready
| bestmove (move : string)
| analysis (depth : option nat)
| info (data : string)
| error (message : string).

(** *** The worker script *)

Record Worker := {
  stockfish : bool;          (* stockfish !== null *)
  isEngineReady : bool;
  listening : bool           (* self.onmessage is assigned: the script ran to its end *)
}.

(** What a handler of the worker does, in order. *)
Inductive Output :=
| toEngine (line : string)                     (* stockfish.postMessage(line) *)
| post (m : Reply).                            (* self.postMessage(m) *)

Inductive WorkerAction :=
| now (o : Output)
| later (ms : N) (todo : list Output).         (* setTimeout(() => todo, ms) *)

(** [SimpleChessEngine.getBestMove]: an entry of the table picked by
    [Math.floor(Math.random() * moves.length)], here [pick]. *)
Definition fallbackMoves : list string :=
  ["e2e4"; "e7e5"; "d2d4"; "d7d5"; "g1f3"; "b8c6";
   "f1c4"; "f8c5"; "b1c3"; "g8f6"; "c1f4"; "c8f5";
   "e1g1"; "e8g8"; "d1d2"; "d8d7"; "a2a3"; "a7a6"].

Definition getBestMove (pick : nat) : string :=
  nth pick fallbackMoves EmptyString.

Definition goCommand (v : HookVariant) : string :=
  match v with
  | Shipped => "go movetime 150"
  | Depth20 => "go depth 20"
  | Wasm => "go movetime 150"
  end.

(** The delay of the worker's backup timer. *)
Definition backupTimeout (v : HookVariant) : N :=
  match v with
  | Shipped => 300%N
  | Depth20 => 10000%N
  | Wasm => 300%N
  end.

Definition backupMessage (v : HookVariant) : string :=
  match v with
  | Shipped => "Move timeout"
  | Depth20 => "Search timeout"
  | Wasm => "Move calculation timeout"
  end.

(** The search branch, shared by the three scripts. *)
Definition search (v : HookVariant) (fen : string) : list WorkerAction :=
  [ now (toEngine "stop");
    now (toEngine ("position fen " ++ fen));
    now (toEngine (goCommand v));
    later (backupTimeout v) [ toEngine "stop"; post (error (backupMessage v)) ] ].

(** [self.onmessage] of the worker.  [jitter] is [Math.random() * 100]
    and [pick] the index drawn by the fallback engine. *)
Definition worker_onmessage (v : HookVariant) (wk : Worker) (jitter : N) (pick : nat)
           (c : Command) : list WorkerAction :=
  match v with
  | Shipped =>
      match c with
      | position fen =>
          if stockfish wk && isEngineReady wk then search v fen
          else [ later (100 + jitter)%N [ post (bestmove (getBestMove pick)) ] ]
      | stop => if stockfish wk then [ now (toEngine "stop") ] else []
      | newgame => []
      end
  | Depth20 =>
      if negb (stockfish wk) || negb (isEngineReady wk)
      then [ now (post (error "Engine not ready")) ]
      else match c with
           | position fen => search v fen
           | stop => [ now (toEngine "stop") ]
           | newgame => []
           end
  | Wasm =>
      if negb (stockfish wk) || negb (isEngineReady wk)
      then [ now (post (error "Engine not ready")) ]
      else match c with
           | position fen => search v fen
           | stop => [ now (toEngine "stop") ]
           | newgame => [ now (toEngine "ucinewgame"); now (toEngine "isready") ]
           end
  end.





(** The delays of the timers a handler arms, and the longest of them:
    the time after which the worker has answered whatever the engine
    does. *)
Definition armedDelays (acts : list WorkerAction) : list N :=
  flat_map (fun a => match a with later ms _ => [ms] | _ => [] end) acts.

Definition worstCaseResponse (v : HookVariant) (wk : Worker) (jitter : N) (pick : nat)
           (fen : string) : N :=
  fold_right N.max 0%N (armedDelays (worker_onmessage v wk jitter pick (position fen))).

(** *** The page side of the hook *)

(** A callback handed to [requestMove] is named by a number. *)
Inductive Invocation :=
| onMove (cb : nat) (move : string)
| onError (cb : nat).

Record Hook := {
  workerRef : bool;                    (* workerRef.current !== null *)
  isReady : bool;
  analysisDepth : nat;
  pendingCallbackRef : option nat;
  errorCallbackRef : option nat;
  timeoutRef : option nat;
  timers : list (nat * N);             (* armed timers of the page: handle, delay in ms *)
  nextHandle : nat;                    (* the handle setTimeout returns next *)
  outbox : list Command                (* messages posted to the worker, oldest first *)
}.

(** The hook once its effect has created the worker. *)
Definition mounted : Hook := {|
  workerRef := true;
  isReady := false;
  analysisDepth := 0;
  pendingCallbackRef := None;
  errorCallbackRef := None;
  timeoutRef := None;
  timers := [];
  nextHandle := 0;
  outbox := []
|}.

(** The delay of the timer armed by [requestMove]. *)
Definition requestTimeout (v : HookVariant) : N :=
  match v with
  | Shipped => 500%N
  | Depth20 => 5000%N
  | Wasm => 200%N
  end.

(** [clearTimeout(t)] *)
Definition clearTimeout (t : nat) (ts : list (nat * N)) : list (nat * N) :=
  filter (fun p => negb (Nat.eqb (fst p) t)) ts.

Definition armed (t : nat) (h : Hook) : bool :=
  existsb (fun p => Nat.eqb (fst p) t) (timers h).

(** [requestMove], called through the function of the latest render. *)
Definition requestMove (v : HookVariant) (h : Hook) (fen : string)
           (onMoveCb : nat) (onErrorCb : option nat) : Hook * list Invocation :=
  if negb (workerRef h) || negb (isReady h) then
    (h, match onErrorCb with Some e => [onError e] | None => [] end)
  else
    ({| workerRef := workerRef h;
        isReady := isReady h;
        analysisDepth := analysisDepth h;
        pendingCallbackRef := Some onMoveCb;
        errorCallbackRef := onErrorCb;
        timeoutRef := Some (nextHandle h);
        timers := (nextHandle h, requestTimeout v) :: timers h;
        nextHandle := S (nextHandle h);
        outbox := outbox h ++ [position fen] |},
     []).

(** [requestMove] as a caller holds it.  The shipped hook and the wasm
    copy keep [isReady] in state and build [requestMove] anew when it
    changes ([useCallback(..., [isReady])]): a caller that took
    [requestMove] from an earlier render, as the closure of a
    [setTimeout] does, tests the flag of that render, [ready].  The
    depth-20 copy keeps the flag in a ref and reads it at the call.
    [workerRef.current] is read at the call in every copy.  [requestMove]
    above is the function of the latest render. *)
Definition requestMoveOf (ready : bool) (v : HookVariant) (h : Hook) (fen : string)
           (onMoveCb : nat) (onErrorCb : option nat) : Hook * list Invocation :=
  if negb (workerRef h)
     || negb (match v with Depth20 => isReady h | _ => ready end) then
    (h, match onErrorCb with Some e => [onError e] | None => [] end)
  else
    ({| workerRef := workerRef h;
        isReady := isReady h;
        analysisDepth := analysisDepth h;
        pendingCallbackRef := Some onMoveCb;
        errorCallbackRef := onErrorCb;
        timeoutRef := Some (nextHandle h);
        timers := (nextHandle h, requestTimeout v) :: timers h;
        nextHandle := S (nextHandle h);
        outbox := outbox h ++ [position fen] |},
     []).

(** The closure armed by [requestMove], run when its timer expires. *)
Definition onTimeout (h : Hook) : Hook * list Invocation :=
  ({| workerRef := workerRef h;
      isReady := isReady h;
      analysisDepth := analysisDepth h;
      pendingCallbackRef := None;
      errorCallbackRef := None;
      timeoutRef := timeoutRef h;
      timers := timers h;
      nextHandle := nextHandle h;
      outbox := outbox h |},
   match errorCallbackRef h with Some e => [onError e] | None => [] end).

(** The timer with handle [t] expires: the page drops it from its table
    and runs the closure.  A handle that is not armed does nothing. *)
Definition timerFires (t : nat) (h : Hook) : Hook * list Invocation :=
  if armed t h then
    onTimeout {| workerRef := workerRef h;
                 isReady := isReady h;
                 analysisDepth := analysisDepth h;
                 pendingCallbackRef := pendingCallbackRef h;
                 errorCallbackRef := errorCallbackRef h;
                 timeoutRef := timeoutRef h;
                 timers := clearTimeout t (timers h);
                 nextHandle := nextHandle h;
                 outbox := outbox h |}
  else (h, []).

(** [if (timeoutRef.current) { clearTimeout(timeoutRef.current);
    timeoutRef.current = null; }] *)
Definition dropTimeout (h : Hook) : Hook :=
  match timeoutRef h with
  | Some t =>
      {| workerRef := workerRef h;
         isReady := isReady h;
         analysisDepth := analysisDepth h;
         pendingCallbackRef := pendingCallbackRef h;
         errorCallbackRef := errorCallbackRef h;
         timeoutRef := None;
         timers := clearTimeout t (timers h);
         nextHandle := nextHandle h;
         outbox := outbox h |}
  | None => h
  end.

(** [workerRef.current.onmessage] *)
Definition onmessage (v : HookVariant) (h : Hook) (m : Reply)
  : Hook * list Invocation :=
  match m with
  | ready =>
      ({| workerRef := workerRef h;
          isReady := true;
          analysisDepth := analysisDepth h;
          pendingCallbackRef := pendingCallbackRef h;
          errorCallbackRef := errorCallbackRef h;
          timeoutRef := timeoutRef h;
          timers := timers h;
          nextHandle := nextHandle h;
          outbox := outbox h |}, [])
  | bestmove mv =>
      let h1 := dropTimeout h in
      ({| workerRef := workerRef h1;
          isReady := isReady h1;
          analysisDepth := analysisDepth h1;
          pendingCallbackRef := None;
          errorCallbackRef := errorCallbackRef h1;
          timeoutRef := timeoutRef h1;
          timers := timers h1;
          nextHandle := nextHandle h1;
          outbox := outbox h1 |},
       match pendingCallbackRef h1 with Some k => [onMove k mv] | None => [] end)
  | analysis d =>
      match v with
      | Depth20 => (h, [])
      | _ =>
          ({| workerRef := workerRef h;
              isReady := isReady h;
              analysisDepth := match d with Some n => n | None => 0 end;
              pendingCallbackRef := pendingCallbackRef h;
              errorCallbackRef := errorCallbackRef h;
              timeoutRef := timeoutRef h;
              timers := timers h;
              nextHandle := nextHandle h;
              outbox := outbox h |}, [])
      end
  | info _ => (h, [])
  | error _ =>
      let h1 := dropTimeout h in
      ({| workerRef := workerRef h1;
          isReady := isReady h1;
          analysisDepth := analysisDepth h1;
          pendingCallbackRef := pendingCallbackRef h1;
          errorCallbackRef := None;
          timeoutRef := timeoutRef h1;
          timers := timers h1;
          nextHandle := nextHandle h1;
          outbox := outbox h1 |},
       match errorCallbackRef h1 with Some e => [onError e] | None => [] end)
  end.

(** [workerRef.current.onerror] *)
Definition onerror (h : Hook) : Hook * list Invocation :=
  ({| workerRef := workerRef h;
      isReady := isReady h;
      analysisDepth := analysisDepth h;
      pendingCallbackRef := pendingCallbackRef h;
      errorCallbackRef := None;
      timeoutRef := timeoutRef h;
      timers := timers h;
      nextHandle := nextHandle h;
      outbox := outbox h |},
   match errorCallbackRef h with Some e => [onError e] | None => [] end).

(** [terminate] *)
Definition terminate (h : Hook) : Hook :=
  {| workerRef := false;
     isReady := false;
     analysisDepth := analysisDepth h;
     pendingCallbackRef := pendingCallbackRef h;
     errorCallbackRef := errorCallbackRef h;
     timeoutRef := timeoutRef h;
     timers := timers h;
     nextHandle := nextHandle h;
     outbox := outbox h |}.

(** *** Runs of the hook *)

(** What can happen to a mounted hook. *)
Inductive Event :=
| Request (fen : string) (onMoveCb : nat) (onErrorCb : option nat)
| TimerFires (t : nat)
| Message (m : Reply)
| WorkerError
| Terminate.

Definition step (v : HookVariant) (h : Hook) (e : Event) : Hook * list Invocation :=
  match e with
  | Request fen k oe => requestMove v h fen k oe
  | TimerFires t => timerFires t h
  | Message m => onmessage v h m
  | WorkerError => onerror h
  | Terminate => (terminate h, [])
  end.

(** The state after a run and the callbacks invoked during it, in order. *)
Fixpoint run (v : HookVariant) (h : Hook) (es : list Event) : Hook * list Invocation :=
  match es with
  | [] => (h, [])
  | e :: rest =>
      let (h1, out1) := step v h e in
      let (h2, out2) := run v h1 rest in
      (h2, out1 ++ out2)
  end.

Definition invoked (v : HookVariant) (h : Hook) (es : list Event) : list Invocation :=
  snd (run v h es).

(** How often the callbacks named [k] were invoked. *)
Definition isMove (k : nat) (i : Invocation) : bool :=
  match i with onMove c _ => Nat.eqb c k | onError _ => false end.

Definition isError (k : nat) (i : Invocation) : bool :=
  match i with onError c => Nat.eqb c k | onMove _ _ => false end.

Definition moveCalls (k : nat) (out : list Invocation) : nat :=
  List.length (filter (isMove k) out).

Definition errorCalls (k : nat) (out : list Invocation) : nat :=
  List.length (filter (isError k) out).

(** Whether a slot holds the callback named [k], as a count. *)
Definition holdsMove (k : nat) (h : Hook) : nat :=
  match pendingCallbackRef h with
  | Some c => if Nat.eqb c k then 1 else 0
  | None => 0
  end.

Definition holdsError (k : nat) (h : Hook) : nat :=
  match errorCallbackRef h with
  | Some c => if Nat.eqb c k then 1 else 0
  | None => 0
  end.

(** No further [requestMove] in the run. *)
Definition isRequest (e : Event) : bool :=
  match e with Request _ _ _ => true | _ => false end.

(** The hook after the worker has reported [ready]. *)
Definition readyHook : Hook := fst (onmessage Shipped mounted ready).

(** A worker whose Stockfish instance has answered [readyok]. *)
Definition running : Worker :=
  {| stockfish := true; isEngineReady := true; listening := true |}.

(** A worker that fell back to [SimpleChessEngine]. *)
Definition fallback : Worker :=
  {| stockfish := false; isEngineReady := true; listening := true |}.

(** Messages that carry neither a move nor an error. *)
Definition isProgress (m : Reply) : bool :=
  match m with
  | ready | analysis _ | info _ => true
  | bestmove _ | error _ => false
  end.

(** The events on which the hook reports a failure: a timer of
    [requestMove] expires, the worker posts an error, the worker raises
    an error event. *)
Definition isFailure (e : Event) : bool :=
  match e with
  | TimerFires _ | Message (error _) | WorkerError => true
  | _ => false
  end.

(** Every invocation is one of a failure callback. *)
Definition onlyFailures (out : list Invocation) : bool :=
  forallb (fun i => match i with onError _ => true | onMove _ _ => false end) out.

(** Both callback slots are empty. *)
Definition idle (h : Hook) : Prop :=
  pendingCallbackRef h = None /\ errorCallbackRef h = None.

(** No [requestMove] among the events. *)
Definition requestFree (es : list Event) : bool :=
  forallb (fun e => negb (isRequest e)) es.

(** Neither an error message nor a worker error among the events. *)
Definition errorFree (es : list Event) : bool :=
  forallb (fun e => match e with
                    | Message (error _) | WorkerError | Request _ _ _ => false
                    | _ => true
                    end) es.

End Hook.


(** ** The game wired to the hook

    [ChessGame] calls [useStockfish] of [src/hooks/useStockfish.ts] and
    hands it two closures per request: the move callback runs
    [makeBotMove], the failure callback clears [botThinking]. *)

Module App.
Import Rules.

Section WithRules.
Context {R : RulesEngine}.

Record App := {
  hook : Hook.Hook;
  board : Game.GameState;
  due : list (string * bool);
      (* the bot requests scheduled by setTimeout: the position, and
         isReady in the render whose closure was scheduled *)
  nextCb : nat             (* names the closures of the next requestBotMove *)
}.

Definition fresh : App := {|
  hook := Hook.mounted;
  board := Game.initialState;
  due := [];
  nextCb := 0
|}.

(** The closures handed to [requestMove] applied to the game state. *)
Definition deliver (s : Game.GameState) (i : Hook.Invocation) : Game.GameState :=
  match i with
  | Hook.onMove _ mv => Game.makeBotMove s mv
  | Hook.onError _ => Game.onBotMoveFailed s
  end.

(** [requestBotMove] of the latest render *)
Definition requestBotMove (a : App) (fen : string) : App :=
  let (h, out) :=
    Hook.requestMove Hook.Shipped (hook a) fen (nextCb a) (Some (nextCb a)) in
  {| hook := h;
     board := fold_left deliver out (Game.botStartsThinking (board a));
     due := due a;
     nextCb := S (nextCb a) |}.

(** [requestBotMove] of a render in which [isReady] was [ready]: what
    the closure of a [setTimeout] calls when it comes due. *)
Definition requestBotMoveOf (ready : bool) (a : App) (fen : string) : App :=
  let (h, out) :=
    Hook.requestMoveOf ready Hook.Shipped (hook a) fen (nextCb a) (Some (nextCb a)) in
  {| hook := h;
     board := fold_left deliver out (Game.botStartsThinking (board a));
     due := due a;
     nextCb := S (nextCb a) |}.

Inductive Event :=
| Details (name : string) (g : Game.Gender) (c : Game.Side)
| Start
| Reset
| Drop (sourceSquare targetSquare piece : string)
| RequestDue                       (* the oldest scheduled bot request runs *)
| Engine (e : Hook.Event).         (* timers, worker messages, worker errors *)

Definition step (a : App) (e : Event) : App :=
  match e with
  | Details name g c =>
      {| hook := hook a; board := Game.enterDetails name g c (board a);
         due := due a; nextCb := nextCb a |}
  | Start =>
      {| hook := hook a;
         board := Game.startGame (board a);
         due := if Game.canStart (board a)
                   && match Game.playerColor (board a) with Game.black => true | _ => false end
                then due a ++ [(fen newChess, Hook.isReady (hook a))] else due a;
         nextCb := nextCb a |}
  | Reset =>
      {| hook := hook a; board := Game.resetGame (board a);
         due := due a; nextCb := nextCb a |}
  | Drop src tgt piece =>
      let r := Game.onDrop (board a) src tgt piece in
      {| hook := hook a;
         board := Game.stored r;
         due := match Game.scheduled r with
                | Some f => due a ++ [(f, Hook.isReady (hook a))]
                | None => due a
                end;
         nextCb := nextCb a |}
  | RequestDue =>
      match due a with
      | (f, ready) :: rest =>
          requestBotMoveOf ready {| hook := hook a; board := board a;
                                    due := rest; nextCb := nextCb a |} f
      | [] => a
      end
  | Engine (Hook.Request _ _ _) => a      (* only requestBotMove calls requestMove *)
  | Engine e =>
      let (h, out) := Hook.step Hook.Shipped (hook a) e in
      {| hook := h; board := fold_left deliver out (board a);
         due := due a; nextCb := nextCb a |}
  end.

Definition run (a : App) (es : list Event) : App := fold_left step es a.

End WithRules.

Arguments App {R}.

End App.



(** ** Concrete games

    The positions and runs at which the properties below are evaluated. *)

(** Bare kings: white king g1, black king h7, white to move.  chess.js
    reports a draw by insufficient material and still moves the king. *)
Module BareKings.
Import Rules.

Inductive board := KingG1 | KingG2.

Definition g1_fen := "8/7k/8/8/8/8/8/6K1 w - - 0 2".
Definition g2_fen := "8/7k/8/8/8/8/6K1/8 b - - 1 2".

Definition board_fen (g : board) : string :=
  match g with
  | KingG1 => g1_fen
  | KingG2 => g2_fen
  end.

Definition board_load (f : string) : board :=
  if String.eqb f g2_fen then KingG2 else KingG1.

Definition board_move (g : board) (r : MoveRequest) : MoveOutcome board :=
  match g with
  | KingG1 =>
      if String.eqb (from r) "g1" && String.eqb (to r) "g2"
      then Moved KingG2 {| san := "Kg2"; mfrom := "g1"; mto := "g2" |}
      else Threw
  | KingG2 => Threw
  end.

Definition engine : RulesEngine := {|
  Chess := board;
  newChess := KingG1;
  loadFen := board_load;
  fen := board_fen;
  move := board_move;
  isCheckmate := fun _ => false;
  isDraw := fun _ => true;
  isCheck := fun _ => false;
  isGameOver := fun _ => true;
  turn := fun g => match g with KingG1 => w | KingG2 => b end
|}.

End BareKings.

Module Scenario.
Import Rules.
Import Game.

(** The player enters her details and starts as white; the worker
    reports ready. *)
Definition seated : App.App (R := OpeningBook.engine) :=
  App.run App.fresh
    [ App.Details "Ann" female white; App.Start;
      App.Engine (Hook.Message Hook.ready) ].

(** She plays e2-e4 and, 200 ms later, the bot request is posted. *)
Definition awaiting : App.App (R := OpeningBook.engine) :=
  App.run seated [ App.Drop "e2" "e4" "wP"; App.RequestDue ].

(** The game after the engine's last capture left bare kings: a started
    game, the status line of a draw, the human to move. *)
Definition drawn : GameState (R := BareKings.engine) := {|
  playerName := "Ann";
  playerGender := female;
  playerColor := white;
  gameStarted := true;
  isFullscreen := false;
  game := (BareKings.KingG1 : @Chess BareKings.engine);
  gamePosition := BareKings.g1_fen;
  moveHistory := ["Rh7"; "Kxh7"];
  gameStatus := "Draw!";
  isPlayerTurn := true;
  botThinking := false;
  lastMove := Some ("g8", "h7");
  botMessage := EmptyString;
  showBotMessage := false;
  selectedSquares := [];
  soundEnabled := true;
  speechEnabled := true;
  moveCount := 2
|}.

End Scenario.


(** ** The worker script: the lines of the engine

    [stockfish.onmessage] of the worker turns the lines Stockfish prints
    into the messages of the page. *)

Module Uci.
Import Hook.

(** [s.startsWith(p)] *)
Fixpoint startsWith (p s : string) : bool :=
  match p with
  | EmptyString => true
  | String a p' =>
      match s with
      | EmptyString => false
      | String c s' => Ascii.eqb a c && startsWith p' s'
      end
  end.

(** [s.includes(needle)] *)
Fixpoint includes (needle s : string) : bool :=
  startsWith needle s
  || match s with
     | EmptyString => false
     | String _ rest => includes needle rest
     end.

(** [s.split(' ')] *)
Fixpoint split (s : string) : list string :=
  match s with
  | EmptyString => [EmptyString]
  | String c rest =>
      if Ascii.eqb c " "%char then EmptyString :: split rest
      else match split rest with
           | part :: parts => String c part :: parts
           | [] => [String c EmptyString]
           end
  end.

Definition isDigit (c : ascii) : bool :=
  match c with
  | "0"%char | "1"%char | "2"%char | "3"%char | "4"%char
  | "5"%char | "6"%char | "7"%char | "8"%char | "9"%char => true
  | _ => false
  end.

(** The longest run of digits at the head of [s]: what [\d+] takes. *)
Fixpoint takeDigits (s : string) : string :=
  match s with
  | EmptyString => EmptyString
  | String c rest => if isDigit c then String c (takeDigits rest) else EmptyString
  end.

Fixpoint skip (n : nat) (s : string) : string :=
  match n, s with
  | S n', String _ rest => skip n' rest
  | _, _ => s
  end.

(** [line.match(/depth (\d+)/)]: the digits of the leftmost place where
    the pattern matches, if there is one. *)
Fixpoint matchDepth (s : string) : option string :=
  match s with
  | EmptyString => None
  | String _ rest =>
      if startsWith "depth " s then
        match takeDigits (skip 6 s) with
        | EmptyString => matchDepth rest
        | digits => Some digits
        end
      else matchDepth rest
  end.

(** [parseInt] of a run of digits.  JavaScript numbers are doubles: the
    value is exact up to 2^53, the range the statements below keep to. *)
Definition maxSafeInteger : N := 9007199254740992.

Definition parseInt (digits : string) : nat :=
  match NilEmpty.uint_of_string digits with
  | Some d => Nat.of_uint d
  | None => 0
  end.

Definition noValidMove : Output := post (error "No valid move found").

(** [stockfish.onmessage]: the worker after the line and what it posts.
    The copy that loads stockfish.wasm.js adds score, nodes and nps to
    its analysis message; the page reads the depth only. *)
Definition stockfish_onmessage (v : HookVariant) (wk : Worker) (line : string)
  : Worker * list Output :=
  if includes "readyok" line then
    ({| stockfish := stockfish wk; isEngineReady := true; listening := listening wk |},
     [ post ready ])
  else if startsWith "bestmove" line then
    (wk,
     match nth_error (split line) 1 with
     | Some mv =>
         match mv with
         | EmptyString => [ noValidMove ]
         | _ => if String.eqb mv "(none)" then [ noValidMove ] else [ post (bestmove mv) ]
         end
     | None => [ noValidMove ]
     end)
  else
    (wk,
     match v with
     | Depth20 => if includes "info" line then [ post (info line) ] else []
     | _ =>
         if includes "info depth" line then
           match matchDepth line with
           | Some digits => [ post (analysis (Some (parseInt digits))) ]
           | None => []
           end
         else []
     end).

(** The messages among the outputs, in order. *)
Definition replies (outs : list Output) : list Reply :=
  flat_map (fun o => match o with post m => [m] | toEngine _ => [] end) outs.

(** A line of the engine seen from the page: the worker's messages for
    it, handled by the page one after the other. *)
Definition relay (v : HookVariant) (wk : Worker) (h : Hook.Hook) (line : string)
  : Hook.Hook * list Invocation :=
  run v h (map Message (replies (snd (stockfish_onmessage v wk line)))).


(** No space in the string. *)
Fixpoint spaceFree (s : string) : bool :=
  match s with
  | EmptyString => true
  | String c rest => negb (Ascii.eqb c " "%char) && spaceFree rest
  end.

End Uci.


(** ** The wrapper class [StockfishWorker]

    The stand-alone worker wrapper: it fetches the engine, queues the
    messages posted meanwhile and falls back to a stub engine when the
    engine cannot be loaded. *)

Module Wrapper.

Inductive EngineKind :=
| WasmEngine          (* new Worker(workerUrl) *)
| FallbackEngine.     (* the object built by createFallbackEngine *)

Record StockfishWorker := {
  wasmSupported : bool;
  engine : option EngineKind;
  messageQueue : list string;
  isReady : bool;
  received : list string;      (* arguments of engine.postMessage, oldest first *)
  replyTimers : list string;   (* messages for which the fallback armed its 1000 ms reply *)
  terminated : bool            (* engine.terminate() was called *)
}.

(** [engine.postMessage(message)] *)
Definition enginePost (k : EngineKind) (message : string) (st : StockfishWorker)
  : StockfishWorker :=
  {| wasmSupported := wasmSupported st;
     engine := engine st;
     messageQueue := messageQueue st;
     isReady := isReady st;
     received := received st ++ [message];
     replyTimers :=
       match k with
       | FallbackEngine =>
           if Uci.startsWith "position" message
           then replyTimers st ++ [message] else replyTimers st
       | WasmEngine => replyTimers st
       end;
     terminated := terminated st |}.

(** [createFallbackEngine] *)
Definition createFallbackEngine (st : StockfishWorker) : StockfishWorker :=
  {| wasmSupported := wasmSupported st;
     engine := Some FallbackEngine;
     messageQueue := messageQueue st;
     isReady := true;
     received := received st;
     replyTimers := replyTimers st;
     terminated := terminated st |}.

(** The constructor with the part of [initEngine] that runs before the
    first [await]. *)
Definition construct (wasm : bool) : StockfishWorker :=
  let st := {| wasmSupported := wasm; engine := None; messageQueue := [];
               isReady := false; received := []; replyTimers := [];
               terminated := false |} in
  if wasm then st else createFallbackEngine st.

(** [initEngine] resumes with the engine code: the worker is created,
    ['uci'] is posted, and the queue is flushed and emptied. *)
Definition fetched (st : StockfishWorker) : StockfishWorker :=
  let st1 := {| wasmSupported := wasmSupported st;
                engine := Some WasmEngine;
                messageQueue := messageQueue st;
                isReady := isReady st;
                received := received st;
                replyTimers := replyTimers st;
                terminated := terminated st |} in
  let st2 := enginePost WasmEngine "uci" st1 in
  let st3 := {| wasmSupported := wasmSupported st2;
                engine := engine st2;
                messageQueue := messageQueue st2;
                isReady := true;
                received := received st2;
                replyTimers := replyTimers st2;
                terminated := terminated st2 |} in
  let st4 := fold_left (fun s msg => enginePost WasmEngine msg s) (messageQueue st3) st3 in
  {| wasmSupported := wasmSupported st4;
     engine := engine st4;
     messageQueue := [];
     isReady := isReady st4;
     received := received st4;
     replyTimers := replyTimers st4;
     terminated := terminated st4 |}.

(** [postMessage] *)
Definition postMessage (message : string) (st : StockfishWorker) : StockfishWorker :=
  match isReady st, engine st with
  | true, Some k => enginePost k message st
  | _, _ =>
      {| wasmSupported := wasmSupported st;
         engine := engine st;
         messageQueue := messageQueue st ++ [message];
         isReady := isReady st;
         received := received st;
         replyTimers := replyTimers st;
         terminated := terminated st |}
  end.

(** [terminate]: the fallback object has no [terminate]. *)
Definition terminate (st : StockfishWorker) : StockfishWorker :=
  match engine st with
  | Some WasmEngine =>
      {| wasmSupported := wasmSupported st;
         engine := engine st;
         messageQueue := messageQueue st;
         isReady := isReady st;
         received := received st;
         replyTimers := replyTimers st;
         terminated := true |}
  | _ => st
  end.

Inductive Event :=
| Post (message : string)
| Fetched          (* the fetch of the engine code succeeds *)
| FetchFailed      (* it throws: the catch builds the fallback engine *)
| Terminate.

Definition step (st : StockfishWorker) (e : Event) : StockfishWorker :=
  match e with
  | Post m => postMessage m st
  | Fetched => fetched st
  | FetchFailed => createFallbackEngine st
  | Terminate => terminate st
  end.

Definition run (st : StockfishWorker) (es : list Event) : StockfishWorker :=
  fold_left step es st.

(** [calculateFallbackMove]: the entry drawn by [Math.random]. *)
Definition fallbackTable : list string := ["e2e4"; "g1f3"; "f1c4"; "d2d4"; "b1c3"].

(** The line the fallback hands to [onmessage] when a reply timer
    expires. *)
Definition fallbackReply (pick : nat) : string :=
  "bestmove " ++ nth pick fallbackTable EmptyString.

End Wrapper.


(** ** Input on the board: clicks and drags *)

Module Click.
Import Rules.
Import Game.

Section WithRules.
Context {R : RulesEngine}.

(** Two more operations of chess.js: [game.get(square)], reduced to the
    colour of the piece, and [game.moves({square, verbose: true})],
    reduced to the target squares. *)
Variable get : Chess -> string -> option Color.
Variable targets : Chess -> string -> list string.

Definition set_selectedSquares (sel : list string) (prev : GameState) : GameState := {|
  playerName := playerName prev;
  playerGender := playerGender prev;
  playerColor := playerColor prev;
  gameStarted := gameStarted prev;
  isFullscreen := isFullscreen prev;
  game := game prev;
  gamePosition := gamePosition prev;
  moveHistory := moveHistory prev;
  gameStatus := gameStatus prev;
  isPlayerTurn := isPlayerTurn prev;
  botThinking := botThinking prev;
  lastMove := lastMove prev;
  botMessage := botMessage prev;
  showBotMessage := showBotMessage prev;
  selectedSquares := sel;
  soundEnabled := soundEnabled prev;
  speechEnabled := speechEnabled prev;
  moveCount := moveCount prev
|}.

(** The colour of the player's pieces. *)
Definition sideColor (c : Side) : Color :=
  match c with
  | white => w
  | black => b
  end.

Definition ownPiece (s : GameState) (c : Color) : bool :=
  match playerColor s, c with
  | white, w => true
  | black, b => true
  | _, _ => false
  end.

(** The second branch of [onSquareClick]: a click on a square that does
    not hold a piece of the player. *)
Definition clickElsewhere (s : GameState) (square : string)
  : GameState * option string :=
  match selectedSquares s with
  | [] => (s, None)
  | sourceSquare :: _ =>
      if existsb (String.eqb square) (selectedSquares s)
      then (stored (onDrop s sourceSquare square EmptyString),
            scheduled (onDrop s sourceSquare square EmptyString))
      else (set_selectedSquares [] s, None)
  end.

(** [onSquareClick]: the stored state and the position for which a bot
    move is scheduled, if any. *)
Definition onSquareClick (s : GameState) (square : string)
  : GameState * option string :=
  if negb (isPlayerTurn s) || botThinking s then (s, None)
  else
    match get (loadFen (gamePosition s)) square with
    | Some c =>
        if ownPiece s c
        then (set_selectedSquares (square :: targets (loadFen (gamePosition s)) square) s,
              None)
        else clickElsewhere s square
    | None => clickElsewhere s square
    end.

(** [onPieceDragBegin]; [piece.search(/^w/) !== -1] is a test of the
    first character. *)
Definition onPieceDragBegin (s : GameState) (piece sourceSquare : string) : bool :=
  isPlayerTurn s && negb (botThinking s)
  && match playerColor s with
     | white => Uci.startsWith "w" piece
     | black => Uci.startsWith "b" piece
     end.

(** [toggleFullscreen] and the state update of [toggleSpeech]. *)
Definition toggleFullscreen (prev : GameState) : GameState := {|
  playerName := playerName prev;
  playerGender := playerGender prev;
  playerColor := playerColor prev;
  gameStarted := gameStarted prev;
  isFullscreen := negb (isFullscreen prev);
  game := game prev;
  gamePosition := gamePosition prev;
  moveHistory := moveHistory prev;
  gameStatus := gameStatus prev;
  isPlayerTurn := isPlayerTurn prev;
  botThinking := botThinking prev;
  lastMove := lastMove prev;
  botMessage := botMessage prev;
  showBotMessage := showBotMessage prev;
  selectedSquares := selectedSquares prev;
  soundEnabled := soundEnabled prev;
  speechEnabled := speechEnabled prev;
  moveCount := moveCount prev
|}.

Definition toggleSpeech (prev : GameState) : GameState := {|
  playerName := playerName prev;
  playerGender := playerGender prev;
  playerColor := playerColor prev;
  gameStarted := gameStarted prev;
  isFullscreen := isFullscreen prev;
  game := game prev;
  gamePosition := gamePosition prev;
  moveHistory := moveHistory prev;
  gameStatus := gameStatus prev;
  isPlayerTurn := isPlayerTurn prev;
  botThinking := botThinking prev;
  lastMove := lastMove prev;
  botMessage := botMessage prev;
  showBotMessage := showBotMessage prev;
  selectedSquares := selectedSquares prev;
  soundEnabled := soundEnabled prev;
  speechEnabled := negb (speechEnabled prev);
  moveCount := moveCount prev
|}.

(** *** Facts about a state that the runs below keep *)

(** The stored FEN is the FEN of the stored board, the move counter
    counts the move list, and a last move is recorded exactly when a move
    was made. *)
Definition coherent (s : GameState) : Prop :=
  gamePosition s = fen (game s)
  /\ moveCount s = List.length (moveHistory s)
  /\ (lastMove s = None <-> moveHistory s = []).

(** The turn flag says the side to move is the player's. *)
Definition turnConsistent (s : GameState) : Prop :=
  isPlayerTurn s = true <-> turn (game s) = sideColor (playerColor s).

Definition opposite (c : Color) : Color :=
  match c with
  | w => b
  | b => w
  end.

(** What a rules engine of chess does: a move passes the turn, a board
    rebuilt from its FEN has the same side to move, and white begins. *)
Definition turnLaws : Prop :=
  (forall g r g' m, move g r = Moved g' m -> turn g' = opposite (turn g))
  /\ (forall g, turn (loadFen (fen g)) = turn g)
  /\ turn newChess = w.

End WithRules.

End Click.


(** ** Shapes of runs and of states *)

Module Traces.

(** The book-keeping of the hook: the page has posted positions only,
    one per handle given out; every armed timer has a handle given out
    before, the delay of the variant, and a handle of its own; and the
    handle in [timeoutRef] was given out before. *)
Definition isPosition (c : Hook.Command) : bool :=
  match c with
  | Hook.position _ => true
  | _ => false
  end.

Definition wellFormed (v : Hook.HookVariant) (h : Hook.Hook) : Prop :=
  forallb isPosition (Hook.outbox h) = true
  /\ List.length (Hook.outbox h) = Hook.nextHandle h
  /\ Forall (fun p => fst p < Hook.nextHandle h /\ snd p = Hook.requestTimeout v)
            (Hook.timers h)
  /\ NoDup (map fst (Hook.timers h))
  /\ (forall t, Hook.timeoutRef h = Some t -> t < Hook.nextHandle h).

(** The state of a hook that has accepted no request. *)
Definition untouched (h : Hook.Hook) : Prop :=
  Hook.isReady h = false
  /\ Hook.pendingCallbackRef h = None /\ Hook.errorCallbackRef h = None
  /\ Hook.timeoutRef h = None /\ Hook.timers h = [] /\ Hook.outbox h = [].

(** The worker has not reported ready during the run. *)
Definition noReady (es : list Hook.Event) : bool :=
  forallb (fun e => match e with
                    | Hook.Message Hook.ready => false
                    | _ => true
                    end) es.

(** The failure callbacks of the requests of a run, in order. *)
Definition refusals (es : list Hook.Event) : list Hook.Invocation :=
  flat_map (fun e => match e with
                     | Hook.Request _ _ (Some c) => [Hook.onError c]
                     | _ => []
                     end) es.

(** The events of a game under way: drops, scheduled bot requests coming
    due, and what the hook receives; no new game, no restart. *)
Definition isPlay (e : App.Event) : bool :=
  match e with
  | App.Drop _ _ _ | App.RequestDue | App.Engine _ => true
  | _ => false
  end.

(** A name made of white space characters only: what [trim] reduces to
    the empty string. *)
Inductive blank : string -> Prop :=
| blank_empty : blank EmptyString
| blank_more (ws rest : string) :
    In ws Game.whiteSpace -> blank rest -> blank (ws ++ rest).

End Traces.


(** ** More concrete games *)

Module Scenario2.
Import Rules.
Import Game.

(** The worker has reported ready, the player starts as black and the
    request for the engine's first move has been posted. *)
Definition engineOpens : App.App (R := OpeningBook.engine) :=
  App.run App.fresh
    [ App.Engine (Hook.Message Hook.ready);
      App.Details "Ann" female black; App.Start; App.RequestDue ].

(** The player starts as black before the worker has reported ready: the
    request for the engine's first move comes due after the report. *)
Definition startedEarly : App.App (R := OpeningBook.engine) :=
  App.run App.fresh
    [ App.Details "Ann" female black; App.Start;
      App.Engine (Hook.Message Hook.ready); App.RequestDue ].

(** After 1. e4 the request for the engine's answer timed out. *)
Definition timedOut : App.App (R := OpeningBook.engine) :=
  App.run Scenario.awaiting [ App.Engine (Hook.TimerFires 0) ].

(** The board of the opening book seen square by square, as far as the
    runs below look at it: the pawn on e2 and its two moves. *)
Definition bookGet (g : OpeningBook.board) (square : string) : option Color :=
  match g with
  | OpeningBook.Start => if String.eqb square "e2" then Some w else None
  | _ => None
  end.

Definition bookTargets (g : OpeningBook.board) (square : string) : list string :=
  match g with
  | OpeningBook.Start => if String.eqb square "e2" then ["e3"; "e4"] else []
  | _ => []
  end.

(** The player has clicked the pawn on e2. *)
Definition pawnSelected : GameState (R := OpeningBook.engine) :=
  fst (Click.onSquareClick (R := OpeningBook.engine) bookGet bookTargets
         (App.board Scenario.seated) "e2").

(** Two requests in a row on a ready hook. *)
Definition twoRequests : Hook.Hook :=
  fst (Hook.run Hook.Shipped Hook.readyHook
         [ Hook.Request OpeningBook.e4_fen 1 (Some 1);
           Hook.Request OpeningBook.e4e5_fen 2 (Some 2) ]).

End Scenario2.


(** * Properties of the game component *)

Import Rules.
Import Game.

Section GameProperties.
Context {R : RulesEngine}.

Lemma legal_Moved (g : Chess) (r : MoveRequest) :
  legal g r = true -> exists g' m, move g r = Moved g' m.
Proof.
  unfold legal. destruct (move g r) as [g' m| |]; try discriminate.
  intros _. now exists g', m.
Qed.

Lemma onDrop_refused_cases (s : GameState) (src tgt piece : string) :
  isPlayerTurn s = false \/ botThinking s = true
  \/ legal (loadFen (gamePosition s)) (dropRequest src tgt piece) = false ->
  onDrop s src tgt piece = refused s.
Proof.
  unfold onDrop, legal.
  destruct (isPlayerTurn s), (botThinking s); simpl; auto;
    destruct (move _ _); auto;
    intros [H | [H | H]]; discriminate.
Qed.

Lemma onDrop_accepted_cases (s : GameState) (src tgt piece : string) :
  accepted (onDrop s src tgt piece) = true ->
  isPlayerTurn s = true /\ botThinking s = false
  /\ exists g m,
       move (loadFen (gamePosition s)) (dropRequest src tgt piece) = Moved g m
       /\ stored (onDrop s src tgt piece) = afterMove s g m false false.
Proof.
  unfold onDrop.
  destruct (isPlayerTurn s), (botThinking s) eqn:Eb; simpl; try discriminate.
  destruct (move _ _) as [g m| |] eqn:Em; simpl; try discriminate.
  intros _. repeat split. now exists g, m.
Qed.

Lemma makeBotMove_illegal (s : GameState) (mv : string) :
  legal (loadFen (gamePosition s)) (botRequest mv) = false ->
  makeBotMove s mv = onBotMoveFailed s.
Proof.
  unfold makeBotMove, legal, onBotMoveFailed.
  destruct (move _ _); auto; discriminate.
Qed.

Lemma makeBotMove_legal (s : GameState) (mv : string) :
  legal (loadFen (gamePosition s)) (botRequest mv) = true ->
  exists g m, move (loadFen (gamePosition s)) (botRequest mv) = Moved g m
              /\ makeBotMove s mv = afterMove s g m true false.
Proof.
  intros H. destruct (legal_Moved _ _ H) as (g & m & E).
  exists g, m. split; auto. unfold makeBotMove. now rewrite E.
Qed.

(** C5 (amended).  [onDrop] stores the state it found, returns [false]
    and schedules no bot request when it is not the player's turn, when
    the bot is thinking, or when the rules engine does not accept the
    move; whenever the stored state differs from the one found, it was
    the player's turn, the bot was idle and the rules engine accepted the
    move.  The game phase is not consulted. *)
Theorem onDrop_changes_only_on_legal_move_in_turn
        (s : GameState) (src tgt piece : string) :
  (isPlayerTurn s = false \/ botThinking s = true
   \/ legal (loadFen (gamePosition s)) (dropRequest src tgt piece) = false ->
   onDrop s src tgt piece = refused s)
  /\ (stored (onDrop s src tgt piece) <> s ->
      isPlayerTurn s = true /\ botThinking s = false
      /\ legal (loadFen (gamePosition s)) (dropRequest src tgt piece) = true
      /\ accepted (onDrop s src tgt piece) = true).
Proof.
  split.
  - apply onDrop_refused_cases.
  - intros Hne.
    destruct (isPlayerTurn s) eqn:Et;
      [ destruct (botThinking s) eqn:Eb;
        [ | destruct (legal (loadFen (gamePosition s)) (dropRequest src tgt piece)) eqn:El ] | ].
    + exfalso. apply Hne. rewrite onDrop_refused_cases; auto.
    + repeat split. unfold onDrop. rewrite Et, Eb. simpl.
      destruct (legal_Moved _ _ El) as (g & m & E). now rewrite E.
    + exfalso. apply Hne. rewrite onDrop_refused_cases; auto.
    + exfalso. apply Hne. rewrite onDrop_refused_cases; auto.
Qed.

(** C7 (amended).  A drop that is accepted is made on the human's turn
    and hands the turn to the engine; a drop that is refused changes
    nothing; an engine move that the rules engine accepts leaves the turn
    with the human, which is a change of the turn owner when the move
    arrives on the engine's turn; one it rejects leaves turn and position
    as they were; the failure callback leaves the turn as it was. *)
Theorem turn_alternates_on_applied_moves_only
        (s : GameState) (src tgt piece mv : string) :
  (accepted (onDrop s src tgt piece) = true ->
   turnOwner s = Human /\ turnOwner (stored (onDrop s src tgt piece)) = Engine)
  /\ (accepted (onDrop s src tgt piece) = false ->
      stored (onDrop s src tgt piece) = s)
  /\ (legal (loadFen (gamePosition s)) (botRequest mv) = true ->
      turnOwner (makeBotMove s mv) = Human
      /\ (turnOwner s = Engine -> turnOwner (makeBotMove s mv) <> turnOwner s))
  /\ (legal (loadFen (gamePosition s)) (botRequest mv) = false ->
      turnOwner (makeBotMove s mv) = turnOwner s
      /\ gamePosition (makeBotMove s mv) = gamePosition s)
  /\ turnOwner (onBotMoveFailed s) = turnOwner s.
Proof.
  repeat split.
  - apply onDrop_accepted_cases in H. unfold turnOwner. now destruct H as [-> _].
  - apply onDrop_accepted_cases in H.
    destruct H as (_ & _ & g & m & _ & ->). reflexivity.
  - intros Ha. unfold onDrop in *.
    destruct (negb (isPlayerTurn s) || botThinking s); auto.
    destruct (move _ _); auto. discriminate.
  - destruct (makeBotMove_legal _ _ H) as (g & m & _ & ->). reflexivity.
  - intros He. destruct (makeBotMove_legal _ _ H) as (g & m & _ & ->).
    rewrite He. discriminate.
  - now rewrite makeBotMove_illegal.
  - now rewrite makeBotMove_illegal.
Qed.

(** C8 (amended).  [resetGame] gives every field the value it has in a
    freshly mounted component, except [isFullscreen], [soundEnabled] and
    [speechEnabled], which keep the values they had; from a state whose
    three preferences are the initial ones the result is the initial
    state. *)
Theorem resetGame_restores_all_but_preferences (s : GameState) :
  playerName (resetGame s) = playerName initialState
  /\ playerGender (resetGame s) = playerGender initialState
  /\ playerColor (resetGame s) = playerColor initialState
  /\ gameStarted (resetGame s) = gameStarted initialState
  /\ game (resetGame s) = game initialState
  /\ gamePosition (resetGame s) = gamePosition initialState
  /\ moveHistory (resetGame s) = moveHistory initialState
  /\ gameStatus (resetGame s) = gameStatus initialState
  /\ isPlayerTurn (resetGame s) = isPlayerTurn initialState
  /\ botThinking (resetGame s) = botThinking initialState
  /\ lastMove (resetGame s) = lastMove initialState
  /\ botMessage (resetGame s) = botMessage initialState
  /\ showBotMessage (resetGame s) = showBotMessage initialState
  /\ selectedSquares (resetGame s) = selectedSquares initialState
  /\ moveCount (resetGame s) = moveCount initialState
  /\ isFullscreen (resetGame s) = isFullscreen s
  /\ soundEnabled (resetGame s) = soundEnabled s
  /\ speechEnabled (resetGame s) = speechEnabled s
  /\ (isFullscreen s = false -> soundEnabled s = true -> speechEnabled s = true ->
      resetGame s = initialState)
  /\ resetGame (resetGame s) = resetGame s.
Proof.
  repeat split; try reflexivity.
  intros Hf Hs Hp. unfold resetGame, initialState. now rewrite Hf, Hs, Hp.
Qed.

End GameProperties.


(** * Properties of the engine hook *)

Section HookProperties.
Variable v : Hook.HookVariant.

Lemma run_cons (h : Hook.Hook) (e : Hook.Event) (es : list Hook.Event) :
  Hook.run v h (e :: es) =
  (fst (Hook.run v (fst (Hook.step v h e)) es),
   snd (Hook.step v h e) ++ snd (Hook.run v (fst (Hook.step v h e)) es)).
Proof.
  simpl. destruct (Hook.step v h e) as [h1 o1]. simpl.
  destruct (Hook.run v h1 es) as [h2 o2]. reflexivity.
Qed.

Lemma invoked_cons (h : Hook.Hook) (e : Hook.Event) (es : list Hook.Event) :
  Hook.invoked v h (e :: es) =
  snd (Hook.step v h e) ++ Hook.invoked v (fst (Hook.step v h e)) es.
Proof. unfold Hook.invoked. now rewrite run_cons. Qed.

Lemma dropTimeout_slots (h : Hook.Hook) :
  Hook.pendingCallbackRef (Hook.dropTimeout h) = Hook.pendingCallbackRef h
  /\ Hook.errorCallbackRef (Hook.dropTimeout h) = Hook.errorCallbackRef h
  /\ Hook.workerRef (Hook.dropTimeout h) = Hook.workerRef h
  /\ Hook.isReady (Hook.dropTimeout h) = Hook.isReady h
  /\ Hook.outbox (Hook.dropTimeout h) = Hook.outbox h.
Proof. unfold Hook.dropTimeout. destruct (Hook.timeoutRef h); now repeat split. Qed.

(** With both slots empty, nothing but [requestMove] invokes a callback
    or fills a slot. *)
Lemma step_idle (h : Hook.Hook) (e : Hook.Event) :
  Hook.idle h -> Hook.isRequest e = false ->
  snd (Hook.step v h e) = [] /\ Hook.idle (fst (Hook.step v h e)).
Proof.
  intros [Hp He] Hr. destruct e as [f k oe|t|m| |]; simpl in *; try discriminate.
  - unfold Hook.timerFires. destruct (Hook.armed t h); simpl.
    + rewrite He. now repeat split.
    + now repeat split.
  - destruct (dropTimeout_slots h) as (Dp & De & _).
    destruct m; simpl; try (now repeat split).
    + rewrite Dp, Hp, De. now repeat split.
    + destruct v; simpl; now repeat split.
    + rewrite De, He, Dp. now repeat split.
  - rewrite He. now repeat split.
  - now repeat split.
Qed.

Lemma run_idle (es : list Hook.Event) :
  forall h, Hook.idle h -> Hook.requestFree es = true ->
            Hook.invoked v h es = [] /\ Hook.idle (fst (Hook.run v h es)).
Proof.
  induction es as [|e es IH]; intros h Hi Hf.
  - now split.
  - unfold Hook.requestFree in Hf. simpl in Hf. apply andb_prop in Hf as [He Hes].
    apply negb_true_iff in He.
    destruct (step_idle h e Hi He) as [Ho Hi1].
    destruct (IH _ Hi1 Hes) as [Ho2 Hi2].
    rewrite invoked_cons, run_cons, Ho, Ho2. now split.
Qed.

(** A progress message invokes nothing and leaves the request as it is. *)
Lemma progress_keeps_request (h : Hook.Hook) (m : Hook.Reply) :
  Hook.isProgress m = true ->
  snd (Hook.onmessage v h m) = []
  /\ Hook.pendingCallbackRef (fst (Hook.onmessage v h m)) = Hook.pendingCallbackRef h
  /\ Hook.errorCallbackRef (fst (Hook.onmessage v h m)) = Hook.errorCallbackRef h
  /\ Hook.timeoutRef (fst (Hook.onmessage v h m)) = Hook.timeoutRef h
  /\ Hook.timers (fst (Hook.onmessage v h m)) = Hook.timers h.
Proof.
  destruct m; simpl; try discriminate; intros _; try (now repeat split).
  destruct v; simpl; now repeat split.
Qed.

Lemma run_progress (ps : list Hook.Reply) (rest : list Hook.Event) :
  forallb Hook.isProgress ps = true ->
  forall h, exists h',
    Hook.pendingCallbackRef h' = Hook.pendingCallbackRef h
    /\ Hook.errorCallbackRef h' = Hook.errorCallbackRef h
    /\ Hook.timeoutRef h' = Hook.timeoutRef h
    /\ Hook.timers h' = Hook.timers h
    /\ Hook.run v h (map Hook.Message ps ++ rest) = Hook.run v h' rest.
Proof.
  induction ps as [|m ps IH]; intros Hp h.
  - exists h. now repeat split.
  - simpl in Hp. apply andb_prop in Hp as [Hm Hps].
    destruct (progress_keeps_request h m Hm) as (Ho & E1 & E2 & E3 & E4).
    destruct (IH Hps (fst (Hook.onmessage v h m))) as (h' & F1 & F2 & F3 & F4 & F5).
    exists h'. rewrite F1, F2, F3, F4, E1, E2, E3, E4. repeat split.
    simpl map. rewrite <- app_comm_cons, run_cons. simpl Hook.step.
    rewrite Ho, F5. now destruct (Hook.run v h' rest).
Qed.

Lemma timerFires_armed (h : Hook.Hook) (t : nat) :
  Hook.armed t h = true ->
  snd (Hook.timerFires t h)
  = match Hook.errorCallbackRef h with Some e => [Hook.onError e] | None => [] end
  /\ Hook.idle (fst (Hook.timerFires t h)).
Proof.
  intros Ha. unfold Hook.timerFires. rewrite Ha. simpl. now repeat split.
Qed.

Lemma armed_head (t : nat) (d : N) (h : Hook.Hook) (ts : list (nat * N)) :
  Hook.timers h = (t, d) :: ts -> Hook.armed t h = true.
Proof. unfold Hook.armed. intros ->. simpl. now rewrite Nat.eqb_refl. Qed.

(** A request on a ready session followed by progress messages only
    until its timer expires, then by anything but a new request. *)
Lemma timeout_run (h : Hook.Hook) (fen : string) (k : nat) (oe : option nat)
      (ps : list Hook.Reply) (es : list Hook.Event) :
  Hook.workerRef h = true -> Hook.isReady h = true ->
  forallb Hook.isProgress ps = true ->
  Hook.requestFree es = true ->
  Hook.invoked v h
    (Hook.Request fen k oe
       :: map Hook.Message ps ++ Hook.TimerFires (Hook.nextHandle h) :: es)
  = match oe with Some e => [Hook.onError e] | None => [] end
  /\ Hook.idle (fst (Hook.run v h
                  (Hook.Request fen k oe
                     :: map Hook.Message ps ++ Hook.TimerFires (Hook.nextHandle h) :: es))).
Proof.
  intros Hw Hr Hps Hes.
  set (h1 := fst (Hook.requestMove v h fen k oe)).
  assert (E1 : Hook.step v h (Hook.Request fen k oe) = (h1, [])).
  { unfold h1. simpl. unfold Hook.requestMove. now rewrite Hw, Hr. }
  assert (T1 : Hook.timers h1 = (Hook.nextHandle h, Hook.requestTimeout v) :: Hook.timers h).
  { unfold h1, Hook.requestMove. now rewrite Hw, Hr. }
  assert (C1 : Hook.errorCallbackRef h1 = oe).
  { unfold h1, Hook.requestMove. now rewrite Hw, Hr. }
  unfold Hook.invoked.
  rewrite run_cons, E1. simpl fst. simpl snd. simpl app.
  destruct (run_progress ps (Hook.TimerFires (Hook.nextHandle h) :: es) Hps h1)
    as (h' & _ & F2 & _ & F4 & ->).
  rewrite run_cons. simpl Hook.step.
  destruct (timerFires_armed h' (Hook.nextHandle h)) as [Ho Hi].
  { eapply armed_head. rewrite F4. exact T1. }
  rewrite Ho, F2, C1.
  destruct (run_idle es _ Hi Hes) as [Hq Hi2]. unfold Hook.invoked in Hq.
  simpl fst. simpl snd. rewrite Hq. split; [now rewrite app_nil_r | exact Hi2].
Qed.

(** C3 (amended).  A request made with a failure callback on a ready
    session, followed by progress messages only until its timer expires:
    the timer invokes the failure callback, and whatever arrives
    afterwards, as long as no new request is made (late moves, errors,
    other timers, worker errors), invokes nothing; so the failure
    callback is invoked exactly once and the move callback never, and
    both callback slots end up empty. *)
Theorem timeout_fails_once_and_late_results_are_dropped
        (h : Hook.Hook) (fen : string) (k e : nat)
        (ps : list Hook.Reply) (es : list Hook.Event) :
  Hook.workerRef h = true -> Hook.isReady h = true ->
  forallb Hook.isProgress ps = true ->
  Hook.requestFree es = true ->
  Hook.invoked v h
    (Hook.Request fen k (Some e)
       :: map Hook.Message ps ++ Hook.TimerFires (Hook.nextHandle h) :: es)
  = [Hook.onError e]
  /\ Hook.idle (fst (Hook.run v h
                  (Hook.Request fen k (Some e)
                     :: map Hook.Message ps ++ Hook.TimerFires (Hook.nextHandle h) :: es))).
Proof. intros. now apply (timeout_run h fen k (Some e)). Qed.

(** A request made without a failure callback fails silently: on a
    session that is not ready nothing is invoked and nothing is stored;
    on a ready one, when only progress messages arrive before the timer
    expires, neither the timer nor anything that follows, short of a new
    request, invokes a callback. *)
Theorem omitted_onError_fails_silently
        (h : Hook.Hook) (fen : string) (k : nat)
        (ps : list Hook.Reply) (es : list Hook.Event) :
  (Hook.workerRef h = false \/ Hook.isReady h = false ->
   Hook.requestMove v h fen k None = (h, []))
  /\ (Hook.workerRef h = true -> Hook.isReady h = true ->
      forallb Hook.isProgress ps = true ->
      Hook.requestFree es = true ->
      Hook.invoked v h
        (Hook.Request fen k None
           :: map Hook.Message ps ++ Hook.TimerFires (Hook.nextHandle h) :: es)
      = []).
Proof.
  split.
  - unfold Hook.requestMove. intros [-> | ->]; simpl; auto.
    now rewrite orb_true_r.
  - intros Hw Hr Hps Hes. now apply (timeout_run h fen k None).
Qed.

(** After a move was delivered on a session with no other timer armed,
    further moves, progress messages and timer events invoke nothing. *)
Lemma step_answered (h : Hook.Hook) (e : Hook.Event) :
  Hook.pendingCallbackRef h = None -> Hook.timers h = [] ->
  Hook.errorFree [e] = true ->
  snd (Hook.step v h e) = []
  /\ Hook.pendingCallbackRef (fst (Hook.step v h e)) = None
  /\ Hook.timers (fst (Hook.step v h e)) = [].
Proof.
  intros Hp Ht He. destruct e as [f k oe|t|m| |]; simpl in *; try discriminate.
  - unfold Hook.timerFires, Hook.armed. rewrite Ht. simpl. now repeat split.
  - destruct m; simpl in *; try discriminate; try (now repeat split).
    + unfold Hook.dropTimeout. destruct (Hook.timeoutRef h); simpl;
        rewrite ?Hp, ?Ht; now repeat split.
    + destruct v; simpl; now repeat split.
  - now repeat split.
Qed.

Lemma run_answered (es : list Hook.Event) :
  forall h, Hook.pendingCallbackRef h = None -> Hook.timers h = [] ->
            Hook.errorFree es = true ->
            Hook.invoked v h es = [].
Proof.
  induction es as [|e es IH]; intros h Hp Ht Hf.
  - reflexivity.
  - unfold Hook.errorFree in Hf. simpl in Hf. apply andb_prop in Hf as [He Hes].
    destruct (step_answered h e Hp Ht) as (Ho & Hp1 & Ht1).
    { unfold Hook.errorFree. simpl. now rewrite He. }
    rewrite invoked_cons, Ho, (IH _ Hp1 Ht1 Hes). reflexivity.
Qed.

(** A request on a ready session with no timer armed, answered by a
    move before its timer expires: the move callback is invoked once
    with the first move, and further moves (a unit that answers twice),
    progress messages and timer events invoke nothing. *)
Lemma answered_run
        (h : Hook.Hook) (fen mv : string) (k e : nat)
        (ps : list Hook.Reply) (es : list Hook.Event) :
  Hook.workerRef h = true -> Hook.isReady h = true -> Hook.timers h = [] ->
  forallb Hook.isProgress ps = true ->
  Hook.errorFree es = true ->
  Hook.invoked v h
    (Hook.Request fen k (Some e)
       :: map Hook.Message ps ++ Hook.Message (Hook.bestmove mv) :: es)
  = [Hook.onMove k mv].
Proof.
  intros Hw Hr Ht Hps Hes.
  set (h1 := fst (Hook.requestMove v h fen k (Some e))).
  assert (E1 : Hook.step v h (Hook.Request fen k (Some e)) = (h1, [])).
  { unfold h1. simpl. unfold Hook.requestMove. now rewrite Hw, Hr. }
  assert (T1 : Hook.timers h1 = [(Hook.nextHandle h, Hook.requestTimeout v)]).
  { unfold h1, Hook.requestMove. rewrite Hw, Hr. simpl. now rewrite Ht. }
  assert (R1 : Hook.timeoutRef h1 = Some (Hook.nextHandle h)).
  { unfold h1, Hook.requestMove. now rewrite Hw, Hr. }
  assert (P1 : Hook.pendingCallbackRef h1 = Some k).
  { unfold h1, Hook.requestMove. now rewrite Hw, Hr. }
  unfold Hook.invoked.
  rewrite run_cons, E1. simpl fst. simpl snd. simpl app.
  destruct (run_progress ps (Hook.Message (Hook.bestmove mv) :: es) Hps h1)
    as (h' & F1 & _ & F3 & F4 & ->).
  rewrite run_cons. simpl Hook.step.
  assert (D : Hook.timers (Hook.dropTimeout h') = []
              /\ Hook.pendingCallbackRef (Hook.dropTimeout h') = Some k).
  { unfold Hook.dropTimeout. rewrite F3, R1. simpl. rewrite F4, T1, F1, P1.
    simpl. now rewrite Nat.eqb_refl. }
  destruct D as [D1 D2].
  unfold Hook.onmessage. simpl fst. simpl snd. rewrite D2.
  match goal with |- context [Hook.run v ?hh es] =>
    pose proof (run_answered es hh eq_refl D1 Hes) as Hq end.
  unfold Hook.invoked in Hq. simpl snd. now rewrite Hq.
Qed.

(** [requestMove] leaves every timer that was armed before the call
    armed, and posts nothing but the new position to the worker. *)
Lemma requestMove_keeps_timers (h : Hook.Hook) (fen : string) (k : nat)
      (oe : option nat) (t : nat) :
  Hook.armed t h = true ->
  Hook.armed t (fst (Hook.requestMove v h fen k oe)) = true.
Proof.
  intros Ha. unfold Hook.requestMove.
  destruct (negb (Hook.workerRef h) || negb (Hook.isReady h)); simpl; auto.
  unfold Hook.armed in *. simpl. rewrite Ha. apply orb_true_r.
Qed.

Lemma requestMove_posts_position (h : Hook.Hook) (fen : string) (k : nat)
      (oe : option nat) :
  Hook.workerRef h = true -> Hook.isReady h = true ->
  Hook.outbox (fst (Hook.requestMove v h fen k oe)) = Hook.outbox h ++ [Hook.position fen].
Proof. intros Hw Hr. unfold Hook.requestMove. now rewrite Hw, Hr. Qed.

(** The events on which the hook reports a failure invoke failure
    callbacks only. *)
Lemma failure_invokes_onError_only (h : Hook.Hook) (e : Hook.Event) :
  Hook.isFailure e = true ->
  Hook.onlyFailures (snd (Hook.step v h e)) = true.
Proof.
  destruct e as [f k oe|t|[ |mv|d|i|msg]| |]; simpl; try discriminate; intros _.
  - unfold Hook.timerFires. destruct (Hook.armed t h); simpl; auto.
    destruct (Hook.errorCallbackRef h); auto.
  - destruct (Hook.errorCallbackRef (Hook.dropTimeout h)); auto.
  - destruct (Hook.errorCallbackRef h); auto.
Qed.

(** [requestMove] itself invokes at most the failure callback. *)
Lemma requestMove_onlyFailures (h : Hook.Hook) (fen : string) (k : nat)
      (oe : option nat) :
  Hook.onlyFailures (snd (Hook.requestMove v h fen k oe)) = true.
Proof.
  unfold Hook.requestMove.
  destruct (negb (Hook.workerRef h) || negb (Hook.isReady h)); simpl; auto.
  destruct oe; auto.
Qed.

(** *** Counting the callbacks of one request *)

Lemma moveCalls_app (k : nat) (o1 o2 : list Hook.Invocation) :
  Hook.moveCalls k (o1 ++ o2) = Hook.moveCalls k o1 + Hook.moveCalls k o2.
Proof. unfold Hook.moveCalls. now rewrite filter_app, length_app. Qed.

Lemma errorCalls_app (k : nat) (o1 o2 : list Hook.Invocation) :
  Hook.errorCalls k (o1 ++ o2) = Hook.errorCalls k o1 + Hook.errorCalls k o2.
Proof. unfold Hook.errorCalls. now rewrite filter_app, length_app. Qed.

Ltac count_calls :=
  unfold Hook.moveCalls, Hook.errorCalls, Hook.holdsMove, Hook.holdsError; simpl;
  repeat match goal with
         | H : _ (Hook.dropTimeout _) = _ |- _ => rewrite H
         end;
  repeat match goal with
         | |- context [match ?x with _ => _ end] => destruct x; simpl
         end;
  try lia.

(** A step that is not a request invokes the move callback [k] at most
    as often as the slot holds it, and never refills the slot. *)
Lemma step_moveCalls (k : nat) (h : Hook.Hook) (e : Hook.Event) :
  Hook.isRequest e = false ->
  Hook.moveCalls k (snd (Hook.step v h e))
  + Hook.holdsMove k (fst (Hook.step v h e)) <= Hook.holdsMove k h.
Proof.
  intros Hr. destruct e as [f c oe|t|m| |]; simpl in *; try discriminate.
  - unfold Hook.timerFires. destruct (Hook.armed t h); count_calls.
  - destruct (dropTimeout_slots h) as (Dp & De & _).
    destruct m; simpl; count_calls.
  - count_calls.
  - count_calls.
Qed.

Lemma step_errorCalls (k : nat) (h : Hook.Hook) (e : Hook.Event) :
  Hook.isRequest e = false ->
  Hook.errorCalls k (snd (Hook.step v h e))
  + Hook.holdsError k (fst (Hook.step v h e)) <= Hook.holdsError k h.
Proof.
  intros Hr. destruct e as [f c oe|t|m| |]; simpl in *; try discriminate.
  - unfold Hook.timerFires. destruct (Hook.armed t h); count_calls.
  - destruct (dropTimeout_slots h) as (Dp & De & _).
    destruct m; simpl; count_calls.
  - count_calls.
  - count_calls.
Qed.

Lemma run_moveCalls (k : nat) (es : list Hook.Event) :
  forall h, Hook.requestFree es = true ->
            Hook.moveCalls k (Hook.invoked v h es) <= Hook.holdsMove k h.
Proof.
  induction es as [|e es IH]; intros h Hf.
  - unfold Hook.invoked, Hook.moveCalls. simpl. lia.
  - unfold Hook.requestFree in Hf. simpl in Hf. apply andb_prop in Hf as [He Hes].
    apply negb_true_iff in He.
    rewrite invoked_cons, moveCalls_app.
    pose proof (step_moveCalls k h e He).
    pose proof (IH (fst (Hook.step v h e)) Hes). lia.
Qed.

Lemma run_errorCalls (k : nat) (es : list Hook.Event) :
  forall h, Hook.requestFree es = true ->
            Hook.errorCalls k (Hook.invoked v h es) <= Hook.holdsError k h.
Proof.
  induction es as [|e es IH]; intros h Hf.
  - unfold Hook.invoked, Hook.errorCalls. simpl. lia.
  - unfold Hook.requestFree in Hf. simpl in Hf. apply andb_prop in Hf as [He Hes].
    apply negb_true_iff in He.
    rewrite invoked_cons, errorCalls_app.
    pose proof (step_errorCalls k h e He).
    pose proof (IH (fst (Hook.step v h e)) Hes). lia.
Qed.

(** While a request is pending with its timer armed, a step either
    invokes one of its callbacks or leaves it pending and armed. *)
Lemma step_pending (k e t : nat) (h : Hook.Hook) (ev : Hook.Event) :
  Hook.pendingCallbackRef h = Some k -> Hook.errorCallbackRef h = Some e ->
  Hook.armed t h = true -> Hook.isRequest ev = false ->
  1 <= Hook.moveCalls k (snd (Hook.step v h ev))
       + Hook.errorCalls e (snd (Hook.step v h ev))
  \/ (ev <> Hook.TimerFires t
      /\ Hook.pendingCallbackRef (fst (Hook.step v h ev)) = Some k
      /\ Hook.errorCallbackRef (fst (Hook.step v h ev)) = Some e
      /\ Hook.armed t (fst (Hook.step v h ev)) = true).
Proof.
  intros Hp He Ha Hr.
  destruct ev as [f c oe|t'|m| |]; simpl in *; try discriminate.
  - unfold Hook.timerFires. destruct (Hook.armed t' h) eqn:Ea'; simpl.
    + left. rewrite He. unfold Hook.errorCalls. simpl. rewrite Nat.eqb_refl. simpl. lia.
    + right. repeat split; auto. intros E. inversion E. subst. congruence.
  - destruct (dropTimeout_slots h) as (Dp & De & _).
    destruct m; simpl.
    + right. repeat split; auto. discriminate.
    + left. rewrite Dp, Hp. unfold Hook.moveCalls. simpl. rewrite Nat.eqb_refl. simpl. lia.
    + right. destruct v; simpl; repeat split; auto; discriminate.
    + right. repeat split; auto. discriminate.
    + left. rewrite De, He. unfold Hook.errorCalls. simpl. rewrite Nat.eqb_refl. simpl. lia.
  - left. rewrite He. unfold Hook.errorCalls. simpl. rewrite Nat.eqb_refl. simpl. lia.
  - right. repeat split; auto. discriminate.
Qed.

Lemma run_pending (k e t : nat) (es : list Hook.Event) :
  forall h,
    Hook.pendingCallbackRef h = Some k -> Hook.errorCallbackRef h = Some e ->
    Hook.armed t h = true -> Hook.requestFree es = true ->
    In (Hook.TimerFires t) es ->
    1 <= Hook.moveCalls k (Hook.invoked v h es) + Hook.errorCalls e (Hook.invoked v h es).
Proof.
  induction es as [|ev es IH]; intros h Hp He Ha Hf Hin.
  - destruct Hin.
  - unfold Hook.requestFree in Hf. simpl in Hf. apply andb_prop in Hf as [Hev Hes].
    apply negb_true_iff in Hev.
    rewrite invoked_cons, moveCalls_app, errorCalls_app.
    destruct (step_pending k e t h ev Hp He Ha Hev) as [H1 | (Hne & Hp1 & He1 & Ha1)].
    + lia.
    + destruct Hin as [E | Hin]; [congruence |].
      pose proof (IH _ Hp1 He1 Ha1 Hes Hin). lia.
Qed.

(** A request on a ready session that no later request supersedes,
    whatever the worker and the timers do. *)
Lemma unsuperseded_run
        (h : Hook.Hook) (fen : string) (k e : nat) (es : list Hook.Event) :
  Hook.workerRef h = true -> Hook.isReady h = true ->
  Hook.requestFree es = true ->
  Hook.moveCalls k (Hook.invoked v h (Hook.Request fen k (Some e) :: es)) <= 1
  /\ Hook.errorCalls e (Hook.invoked v h (Hook.Request fen k (Some e) :: es)) <= 1
  /\ (In (Hook.TimerFires (Hook.nextHandle h)) es ->
      1 <= Hook.moveCalls k (Hook.invoked v h (Hook.Request fen k (Some e) :: es))
           + Hook.errorCalls e (Hook.invoked v h (Hook.Request fen k (Some e) :: es))).
Proof.
  intros Hw Hr Hes.
  set (h1 := fst (Hook.requestMove v h fen k (Some e))).
  assert (E1 : Hook.step v h (Hook.Request fen k (Some e)) = (h1, [])).
  { unfold h1. simpl. unfold Hook.requestMove. now rewrite Hw, Hr. }
  assert (P1 : Hook.pendingCallbackRef h1 = Some k).
  { unfold h1, Hook.requestMove. now rewrite Hw, Hr. }
  assert (C1 : Hook.errorCallbackRef h1 = Some e).
  { unfold h1, Hook.requestMove. now rewrite Hw, Hr. }
  assert (A1 : Hook.armed (Hook.nextHandle h) h1 = true).
  { unfold h1, Hook.requestMove, Hook.armed. rewrite Hw, Hr. simpl.
    now rewrite Nat.eqb_refl. }
  rewrite invoked_cons, E1. simpl fst. simpl snd. simpl app.
  repeat split.
  - pose proof (run_moveCalls k es h1 Hes) as Hm.
    unfold Hook.holdsMove in Hm. rewrite P1, Nat.eqb_refl in Hm. exact Hm.
  - pose proof (run_errorCalls e es h1 Hes) as Hm.
    unfold Hook.holdsError in Hm. rewrite C1, Nat.eqb_refl in Hm. exact Hm.
  - intros Hin. now apply (run_pending k e (Hook.nextHandle h) es h1).
Qed.

(** C1 (amended).  A request made with both callbacks on a ready
    session and not superseded by a later request, whatever the worker
    and the timers do afterwards: each of its callbacks is invoked at
    most once, and once its timer has expired at least one of them has
    been invoked.  When only progress messages arrive before the timer
    expires (the unit never responds, or responds after the deadline),
    the failure callback alone is invoked, once; when a move arrives
    first, on a session with no other timer armed, and no error follows
    (the unit responds once or twice), the move callback alone is
    invoked, once. *)
Theorem request_is_answered_unless_superseded
        (h : Hook.Hook) (fen mv : string) (k e : nat)
        (ps : list Hook.Reply) (es : list Hook.Event) :
  Hook.workerRef h = true -> Hook.isReady h = true ->
  Hook.requestFree es = true ->
  (Hook.moveCalls k (Hook.invoked v h (Hook.Request fen k (Some e) :: es)) <= 1
   /\ Hook.errorCalls e (Hook.invoked v h (Hook.Request fen k (Some e) :: es)) <= 1
   /\ (In (Hook.TimerFires (Hook.nextHandle h)) es ->
       1 <= Hook.moveCalls k (Hook.invoked v h (Hook.Request fen k (Some e) :: es))
            + Hook.errorCalls e (Hook.invoked v h (Hook.Request fen k (Some e) :: es))))
  /\ (forallb Hook.isProgress ps = true ->
      Hook.invoked v h
        (Hook.Request fen k (Some e)
           :: map Hook.Message ps ++ Hook.TimerFires (Hook.nextHandle h) :: es)
      = [Hook.onError e])
  /\ (forallb Hook.isProgress ps = true ->
      Hook.timers h = [] -> Hook.errorFree es = true ->
      Hook.invoked v h
        (Hook.Request fen k (Some e)
           :: map Hook.Message ps ++ Hook.Message (Hook.bestmove mv) :: es)
      = [Hook.onMove k mv]).
Proof.
  intros Hw Hr Hes. split; [| split].
  - now apply unsuperseded_run.
  - intros Hps. now apply (timeout_run h fen k (Some e)).
  - intros Hps Ht Hef. now apply answered_run.
Qed.

(** C2 (amended).  [requestMove] on a ready session, whether or not a
    request is pending: it invokes nothing; the single slot then holds
    the new callbacks and the handle of the new, armed timer; the page
    has posted the new position and nothing else; as long as no further
    request is made, no callback other than the new ones is invoked,
    whatever arrives; and a worker that runs Stockfish tells the engine
    to stop before anything else when the position reaches it. *)
Theorem requestMove_replaces_the_pending_request
        (h : Hook.Hook) (fen : string) (k : nat) (oe : option nat) :
  Hook.workerRef h = true -> Hook.isReady h = true ->
  snd (Hook.requestMove v h fen k oe) = []
  /\ Hook.pendingCallbackRef (fst (Hook.requestMove v h fen k oe)) = Some k
  /\ Hook.errorCallbackRef (fst (Hook.requestMove v h fen k oe)) = oe
  /\ Hook.timeoutRef (fst (Hook.requestMove v h fen k oe)) = Some (Hook.nextHandle h)
  /\ Hook.armed (Hook.nextHandle h) (fst (Hook.requestMove v h fen k oe)) = true
  /\ Hook.outbox (fst (Hook.requestMove v h fen k oe))
     = Hook.outbox h ++ [Hook.position fen]
  /\ (forall (es : list Hook.Event) (k' : nat),
         Hook.requestFree es = true -> k' <> k ->
         Hook.moveCalls k'
           (Hook.invoked v (fst (Hook.requestMove v h fen k oe)) es) = 0)
  /\ (forall (es : list Hook.Event) (e' : nat),
         Hook.requestFree es = true -> oe <> Some e' ->
         Hook.errorCalls e'
           (Hook.invoked v (fst (Hook.requestMove v h fen k oe)) es) = 0)
  /\ (forall (jitter : N) (pick : nat),
         hd_error (Hook.worker_onmessage v Hook.running jitter pick (Hook.position fen))
         = Some (Hook.now (Hook.toEngine "stop"))).
Proof.
  intros Hw Hr.
  assert (E : Hook.requestMove v h fen k oe
              = ({| Hook.workerRef := Hook.workerRef h;
                    Hook.isReady := Hook.isReady h;
                    Hook.analysisDepth := Hook.analysisDepth h;
                    Hook.pendingCallbackRef := Some k;
                    Hook.errorCallbackRef := oe;
                    Hook.timeoutRef := Some (Hook.nextHandle h);
                    Hook.timers := (Hook.nextHandle h, Hook.requestTimeout v)
                                     :: Hook.timers h;
                    Hook.nextHandle := S (Hook.nextHandle h);
                    Hook.outbox := Hook.outbox h ++ [Hook.position fen] |}, [])).
  { unfold Hook.requestMove. now rewrite Hw, Hr. }
  rewrite E. simpl fst. simpl snd.
  repeat split.
  - unfold Hook.armed. simpl. now rewrite Nat.eqb_refl.
  - intros es k' Hes Hk.
    match goal with |- Hook.moveCalls _ (Hook.invoked _ ?hh _) = _ =>
      pose proof (run_moveCalls k' es hh Hes) as Hm end.
    unfold Hook.holdsMove in Hm. simpl in Hm.
    destruct (Nat.eqb_spec k k') as [Ek|_]; [congruence | lia].
  - intros es e' Hes He.
    match goal with |- Hook.errorCalls _ (Hook.invoked _ ?hh _) = _ =>
      pose proof (run_errorCalls e' es hh Hes) as Hm end.
    unfold Hook.holdsError in Hm. simpl in Hm.
    destruct oe as [c|]; [| lia].
    destruct (Nat.eqb_spec c e') as [Ec|_]; [congruence | lia].
  - intros jitter pick. destruct v; reflexivity.
Qed.

End HookProperties.


(** * Properties of the game wired to the hook *)

Section AppProperties.
Context {R : RulesEngine}.

(** Failure callbacks, however many, touch [botThinking] only. *)
Lemma deliver_failures (out : list Hook.Invocation) :
  Hook.onlyFailures out = true ->
  forall s : GameState,
    gamePosition (fold_left App.deliver out s) = gamePosition s
    /\ game (fold_left App.deliver out s) = game s
    /\ moveHistory (fold_left App.deliver out s) = moveHistory s
    /\ isPlayerTurn (fold_left App.deliver out s) = isPlayerTurn s.
Proof.
  induction out as [|i out IH]; intros Ho s.
  - now repeat split.
  - simpl in Ho. apply andb_prop in Ho as [Hi Hout].
    destruct i as [k mv|k]; try discriminate.
    simpl. destruct (IH Hout (onBotMoveFailed s)) as (-> & -> & -> & ->).
    now repeat split.
Qed.

Lemma failure_keeps_session (h : Hook.Hook) (e : Hook.Event) :
  Hook.isFailure e = true ->
  Hook.workerRef (fst (Hook.step Hook.Shipped h e)) = Hook.workerRef h
  /\ Hook.isReady (fst (Hook.step Hook.Shipped h e)) = Hook.isReady h
  /\ Hook.outbox (fst (Hook.step Hook.Shipped h e)) = Hook.outbox h.
Proof.
  destruct e as [f k oe|t|[ |mv|d|i|msg]| |]; simpl; try discriminate; intros _.
  - unfold Hook.timerFires. destruct (Hook.armed t h); now repeat split.
  - destruct (dropTimeout_slots h) as (_ & _ & -> & -> & ->). now repeat split.
  - now repeat split.
Qed.

Lemma step_failure (a : App.App) (e : Hook.Event) :
  Hook.isFailure e = true ->
  App.step a (App.Engine e)
  = {| App.hook := fst (Hook.step Hook.Shipped (App.hook a) e);
       App.board := fold_left App.deliver
                              (snd (Hook.step Hook.Shipped (App.hook a) e)) (App.board a);
       App.due := App.due a;
       App.nextCb := App.nextCb a |}.
Proof.
  destruct e as [f k oe|t|m| |]; try discriminate; intros _;
    unfold App.step; now destruct (Hook.step _ _ _).
Qed.

(** C6.  When the hook reports a failure (a request timer expires, the
    worker posts an error, the worker raises an error event), whatever
    failure callbacks run leave the position, the board, the move list
    and the turn as they were; so does a bot request refused because the
    session is not ready; and on a session that is ready, a bot request
    made again for the position then stored posts the position that was
    stored before the failure. *)
Theorem engine_failure_keeps_position_and_turn
        (a : App.App) (e : Hook.Event) (fen : string) :
  Hook.isFailure e = true ->
  gamePosition (App.board (App.step a (App.Engine e))) = gamePosition (App.board a)
  /\ game (App.board (App.step a (App.Engine e))) = game (App.board a)
  /\ moveHistory (App.board (App.step a (App.Engine e))) = moveHistory (App.board a)
  /\ isPlayerTurn (App.board (App.step a (App.Engine e))) = isPlayerTurn (App.board a)
  /\ turnOwner (App.board (App.step a (App.Engine e))) = turnOwner (App.board a)
  /\ gamePosition (onBotMoveFailed (App.board a)) = gamePosition (App.board a)
  /\ turnOwner (onBotMoveFailed (App.board a)) = turnOwner (App.board a)
  /\ gamePosition (App.board (App.requestBotMove a fen)) = gamePosition (App.board a)
  /\ turnOwner (App.board (App.requestBotMove a fen)) = turnOwner (App.board a)
  /\ (Hook.workerRef (App.hook a) = true -> Hook.isReady (App.hook a) = true ->
      Hook.outbox
        (App.hook (App.requestBotMove (App.step a (App.Engine e))
                     (gamePosition (App.board (App.step a (App.Engine e))))))
      = Hook.outbox (App.hook a) ++ [Hook.position (gamePosition (App.board a))]).
Proof.
  intros He. rewrite (step_failure a e He). simpl App.board. simpl App.hook.
  pose proof (failure_invokes_onError_only Hook.Shipped (App.hook a) e He) as Ho.
  destruct (deliver_failures _ Ho (App.board a)) as (Ep & Eg & Eh & Et).
  destruct (failure_keeps_session (App.hook a) e He) as (Ew & Er & Eo).
  assert (Rq : gamePosition (App.board (App.requestBotMove a fen))
               = gamePosition (App.board a)
               /\ isPlayerTurn (App.board (App.requestBotMove a fen))
                  = isPlayerTurn (App.board a)).
  { unfold App.requestBotMove.
    pose proof (requestMove_onlyFailures Hook.Shipped (App.hook a) fen
                  (App.nextCb a) (Some (App.nextCb a))) as Hq.
    destruct (Hook.requestMove _ _ _ _ _) as [h1 o1]. simpl in *.
    destruct (deliver_failures _ Hq (botStartsThinking (App.board a)))
      as (-> & _ & _ & ->). now split. }
  destruct Rq as [Rp Rt].
  repeat split; auto.
  - unfold turnOwner. now rewrite Et.
  - unfold turnOwner. now rewrite Rt.
  - intros Hw Hr. unfold App.requestBotMove. simpl App.hook.
    rewrite Ep. rewrite <- Ew in Hw. rewrite <- Er in Hr.
    pose proof (requestMove_posts_position Hook.Shipped _
                  (gamePosition (App.board a)) (App.nextCb a)
                  (Some (App.nextCb a)) Hw Hr) as Hpost.
    destruct (Hook.requestMove _ _ _ _ _) as [h1 o1]. simpl in *.
    now rewrite Hpost, Eo.
Qed.

(** C4 (amended).  A move returned by the engine that the rules engine
    does not accept is handled as an ordinary failure: the game stores
    what the failure callback stores ([botThinking] cleared; position,
    board, move list and turn as before), and the session is left as it
    is: the worker is kept, the readiness flag is kept, and nothing is
    posted to the worker. *)
Theorem illegal_engine_move_is_handled_as_failure
        (a : App.App) (mv : string) (k : nat) :
  legal (loadFen (gamePosition (App.board a))) (botRequest mv) = false ->
  Hook.pendingCallbackRef (App.hook a) = Some k ->
  App.board (App.step a (App.Engine (Hook.Message (Hook.bestmove mv))))
  = onBotMoveFailed (App.board a)
  /\ gamePosition (App.board (App.step a (App.Engine (Hook.Message (Hook.bestmove mv)))))
     = gamePosition (App.board a)
  /\ moveHistory (App.board (App.step a (App.Engine (Hook.Message (Hook.bestmove mv)))))
     = moveHistory (App.board a)
  /\ isPlayerTurn (App.board (App.step a (App.Engine (Hook.Message (Hook.bestmove mv)))))
     = isPlayerTurn (App.board a)
  /\ Hook.workerRef (App.hook (App.step a (App.Engine (Hook.Message (Hook.bestmove mv)))))
     = Hook.workerRef (App.hook a)
  /\ Hook.isReady (App.hook (App.step a (App.Engine (Hook.Message (Hook.bestmove mv)))))
     = Hook.isReady (App.hook a)
  /\ Hook.outbox (App.hook (App.step a (App.Engine (Hook.Message (Hook.bestmove mv)))))
     = Hook.outbox (App.hook a).
Proof.
  intros Hl Hp.
  destruct (dropTimeout_slots (App.hook a)) as (Dp & _ & Dw & Dr & Do).
  unfold App.step, Hook.step, Hook.onmessage. simpl App.board. simpl App.hook.
  rewrite Dp, Hp, Dw, Dr, Do. simpl.
  rewrite (makeBotMove_illegal _ _ Hl). now repeat split.
Qed.

End AppProperties.


(** * Runs of the hook and of the game *)

(** C1, refuted as stated.  The shipped worker, running Stockfish, arms
    on every search a backup timer that posts an error 300 ms later and
    never cancels it.  A request answered by a move and then reached by
    that error has both of its callbacks invoked; and a request
    superseded by a second one has neither invoked, while the second has
    both. *)
Lemma callbacks_fire_twice_or_never :
  Hook.worker_onmessage Hook.Shipped Hook.running 0 0 (Hook.position OpeningBook.e4_fen)
  = [ Hook.now (Hook.toEngine "stop");
      Hook.now (Hook.toEngine ("position fen " ++ OpeningBook.e4_fen));
      Hook.now (Hook.toEngine "go movetime 150");
      Hook.later 300 [ Hook.toEngine "stop"; Hook.post (Hook.error "Move timeout") ] ]
  /\ Hook.invoked Hook.Shipped Hook.readyHook
       [ Hook.Request OpeningBook.e4_fen 1 (Some 1);
         Hook.Message (Hook.bestmove "e7e5");
         Hook.Message (Hook.error "Move timeout") ]
     = [ Hook.onMove 1 "e7e5"; Hook.onError 1 ]
  /\ Hook.invoked Hook.Shipped Hook.readyHook
       [ Hook.Request OpeningBook.e4_fen 1 (Some 1);
         Hook.Request OpeningBook.e4e5_fen 2 (Some 2);
         Hook.Message (Hook.bestmove "e7e5");
         Hook.TimerFires 0; Hook.TimerFires 1 ]
     = [ Hook.onMove 2 "e7e5"; Hook.onError 2 ].
Proof. repeat split. Qed.

(** C2, refuted as stated.  Two requests in a row on a ready session:
    the single slot holds the callbacks and the timer handle of the
    second, the page has posted the two positions and no stop, and the
    timer of the first request is still armed; when it expires it
    invokes the failure callback of the second request. *)
Lemma second_request_leaves_first_timer_armed :
  Hook.pendingCallbackRef
    (fst (Hook.run Hook.Shipped Hook.readyHook
            [ Hook.Request OpeningBook.e4_fen 1 (Some 1); Hook.Request OpeningBook.e4e5_fen 2 (Some 2) ]))
  = Some 2
  /\ Hook.timeoutRef
       (fst (Hook.run Hook.Shipped Hook.readyHook
               [ Hook.Request OpeningBook.e4_fen 1 (Some 1); Hook.Request OpeningBook.e4e5_fen 2 (Some 2) ]))
     = Some 1
  /\ Hook.timers
       (fst (Hook.run Hook.Shipped Hook.readyHook
               [ Hook.Request OpeningBook.e4_fen 1 (Some 1); Hook.Request OpeningBook.e4e5_fen 2 (Some 2) ]))
     = [ (1, 500%N); (0, 500%N) ]
  /\ Hook.outbox
       (fst (Hook.run Hook.Shipped Hook.readyHook
               [ Hook.Request OpeningBook.e4_fen 1 (Some 1); Hook.Request OpeningBook.e4e5_fen 2 (Some 2) ]))
     = [ Hook.position OpeningBook.e4_fen; Hook.position OpeningBook.e4e5_fen ]
  /\ Hook.invoked Hook.Shipped Hook.readyHook
       [ Hook.Request OpeningBook.e4_fen 1 (Some 1); Hook.Request OpeningBook.e4e5_fen 2 (Some 2);
         Hook.TimerFires 0 ]
     = [ Hook.onError 2 ].
Proof. repeat split. Qed.

(** C3, refuted as stated.  A move that arrives after its request was
    superseded, or after its request timed out and another was made, is
    not dropped: it is handed to the move callback of the later
    request. *)
Lemma late_move_reaches_the_next_request :
  Hook.invoked Hook.Shipped Hook.readyHook
    [ Hook.Request OpeningBook.e4_fen 1 (Some 1);
      Hook.Request OpeningBook.e4e5_fen 2 (Some 2);
      Hook.Message (Hook.bestmove "e7e5") ]
  = [ Hook.onMove 2 "e7e5" ]
  /\ Hook.invoked Hook.Shipped Hook.readyHook
       [ Hook.Request OpeningBook.e4_fen 1 (Some 1);
         Hook.TimerFires 0;
         Hook.Request OpeningBook.e4e5_fen 2 (Some 2);
         Hook.Message (Hook.bestmove "e7e5") ]
     = [ Hook.onError 1; Hook.onMove 2 "e7e5" ].
Proof. split; reflexivity. Qed.

(** C10.  A request made without a failure callback and reached by an
    error of the worker: the error invokes nothing and cancels the
    request's timer, and the move that arrives afterwards is still handed
    to the move callback.  In the second run the error is the backup
    error of an earlier, answered search. *)
Theorem move_callback_fires_after_silent_error :
  Hook.invoked Hook.Shipped Hook.readyHook
    [ Hook.Request OpeningBook.e4_fen 1 None;
      Hook.Message (Hook.error "Move timeout") ]
  = []
  /\ Hook.invoked Hook.Shipped Hook.readyHook
       [ Hook.Request OpeningBook.e4_fen 1 None;
         Hook.Message (Hook.error "Move timeout");
         Hook.Message (Hook.bestmove "e7e5") ]
     = [ Hook.onMove 1 "e7e5" ]
  /\ Hook.invoked Hook.Shipped Hook.readyHook
       [ Hook.Request OpeningBook.e4_fen 1 None;
         Hook.WorkerError;
         Hook.Message (Hook.bestmove "e7e5") ]
     = [ Hook.onMove 1 "e7e5" ]
  /\ Hook.invoked Hook.Shipped Hook.readyHook
       [ Hook.Request OpeningBook.e4_fen 1 (Some 1);
         Hook.Message (Hook.bestmove "e7e5");
         Hook.Request OpeningBook.e4e5_fen 2 None;
         Hook.Message (Hook.error "Move timeout");
         Hook.Message (Hook.bestmove "g1f3") ]
     = [ Hook.onMove 1 "e7e5"; Hook.onMove 2 "g1f3" ].
Proof. repeat split. Qed.

(** C9.  The timer armed by [requestMove] against the longest timer the
    worker arms for a search: 500 ms against 300 ms in the shipped hook,
    but 5000 ms against 10000 ms in the depth-20 copy and 200 ms against
    300 ms in the WASM copy, where the session gives up before the
    worker's own backup timeout. *)
Theorem request_timeout_against_backup_timeout
        (jitter : N) (pick : nat) (fen : string) (k : nat) (oe : option nat) :
  Hook.timers (fst (Hook.requestMove Hook.Shipped Hook.readyHook fen k oe)) = [ (0, 500%N) ]
  /\ Hook.timers (fst (Hook.requestMove Hook.Depth20 Hook.readyHook fen k oe)) = [ (0, 5000%N) ]
  /\ Hook.timers (fst (Hook.requestMove Hook.Wasm Hook.readyHook fen k oe)) = [ (0, 200%N) ]
  /\ Hook.worstCaseResponse Hook.Shipped Hook.running jitter pick fen = 300%N
  /\ Hook.worstCaseResponse Hook.Depth20 Hook.running jitter pick fen = 10000%N
  /\ Hook.worstCaseResponse Hook.Wasm Hook.running jitter pick fen = 300%N
  /\ (Hook.worstCaseResponse Hook.Shipped Hook.running jitter pick fen
      < Hook.requestTimeout Hook.Shipped)%N
  /\ (Hook.requestTimeout Hook.Depth20
      < Hook.worstCaseResponse Hook.Depth20 Hook.running jitter pick fen)%N
  /\ (Hook.requestTimeout Hook.Wasm
      < Hook.worstCaseResponse Hook.Wasm Hook.running jitter pick fen)%N.
Proof. repeat split. Qed.

(** C3 at a concrete run: a depth report, the timer, then two late
    moves and the backup error. *)
Lemma timeout_fails_once_witness :
  Hook.invoked Hook.Shipped Hook.readyHook
    (Hook.Request OpeningBook.e4_fen 1 (Some 1)
       :: map Hook.Message [ Hook.analysis (Some 12) ]
       ++ Hook.TimerFires (Hook.nextHandle Hook.readyHook)
       :: [ Hook.Message (Hook.bestmove "e7e5");
            Hook.Message (Hook.bestmove "e7e5");
            Hook.Message (Hook.error "Move timeout") ])
  = [ Hook.onError 1 ]
  /\ Hook.idle
       (fst (Hook.run Hook.Shipped Hook.readyHook
               (Hook.Request OpeningBook.e4_fen 1 (Some 1)
                  :: map Hook.Message [ Hook.analysis (Some 12) ]
                  ++ Hook.TimerFires (Hook.nextHandle Hook.readyHook)
                  :: [ Hook.Message (Hook.bestmove "e7e5");
                       Hook.Message (Hook.bestmove "e7e5");
                       Hook.Message (Hook.error "Move timeout") ]))).
Proof.
  apply timeout_fails_once_and_late_results_are_dropped; reflexivity.
Defined.

(** C4, refuted as stated.  After 1. e4 the engine answers e2e4, which
    the rules engine rejects.  The game then holds exactly the state it
    holds after an error of the worker, and the session still has its
    worker and is still ready: nothing was torn down and nothing tells
    the two outcomes apart. *)
Lemma illegal_engine_move_looks_like_failure :
  @legal OpeningBook.engine
     (loadFen (gamePosition (App.board Scenario.awaiting))) (botRequest "e2e4") = false
  /\ App.board (App.step Scenario.awaiting
                  (App.Engine (Hook.Message (Hook.bestmove "e2e4"))))
     = App.board (App.step Scenario.awaiting
                    (App.Engine (Hook.Message (Hook.error "Move timeout"))))
  /\ Hook.workerRef
       (App.hook (App.step Scenario.awaiting
                    (App.Engine (Hook.Message (Hook.bestmove "e2e4"))))) = true
  /\ Hook.isReady
       (App.hook (App.step Scenario.awaiting
                    (App.Engine (Hook.Message (Hook.bestmove "e2e4"))))) = true
  /\ Hook.outbox
       (App.hook (App.step Scenario.awaiting
                    (App.Engine (Hook.Message (Hook.bestmove "e2e4")))))
     = Hook.outbox (App.hook Scenario.awaiting).
Proof. repeat split. Qed.

(** C4 at the run above. *)
Lemma illegal_engine_move_witness :
  App.board (App.step Scenario.awaiting
               (App.Engine (Hook.Message (Hook.bestmove "e2e4"))))
  = onBotMoveFailed (App.board Scenario.awaiting)
  /\ gamePosition
       (App.board (App.step Scenario.awaiting
                     (App.Engine (Hook.Message (Hook.bestmove "e2e4")))))
     = OpeningBook.e4_fen.
Proof.
  destruct (@illegal_engine_move_is_handled_as_failure OpeningBook.engine
              Scenario.awaiting "e2e4" 0 eq_refl eq_refl) as (H1 & H2 & _).
  split; [exact H1 | exact H2].
Defined.

(** C5, refuted as stated.  During setup (the game not started) the
    drop e2-e4 is accepted and changes the position; and in a started
    game that has ended in a draw with the human to move, the drop
    g1-g2 is accepted and changes the position. *)
Lemma drop_is_applied_outside_a_game_in_progress :
  (@phase OpeningBook.engine initialState = Setup
   /\ accepted (@onDrop OpeningBook.engine initialState "e2" "e4" "wP") = true
   /\ gamePosition (@initialState OpeningBook.engine) = OpeningBook.start_fen
   /\ gamePosition (stored (@onDrop OpeningBook.engine initialState "e2" "e4" "wP"))
      = OpeningBook.e4_fen)
  /\ (phase Scenario.drawn = Ended
      /\ accepted (onDrop Scenario.drawn "g1" "g2" "wK") = true
      /\ gamePosition Scenario.drawn = BareKings.g1_fen
      /\ gamePosition (stored (onDrop Scenario.drawn "g1" "g2" "wK"))
         = BareKings.g2_fen).
Proof. repeat split. Qed.

(** C5 at two refusals: a drop while the bot is to move, and a drop the
    rules engine rejects. *)
Lemma onDrop_refused_witness :
  @onDrop OpeningBook.engine (App.board Scenario.awaiting) "d2" "d4" "wP"
  = refused (App.board Scenario.awaiting)
  /\ @onDrop OpeningBook.engine (App.board Scenario.seated) "e2" "e5" "wP"
     = refused (App.board Scenario.seated).
Proof.
  split.
  - apply (proj1 (@onDrop_changes_only_on_legal_move_in_turn OpeningBook.engine
                    (App.board Scenario.awaiting) "d2" "d4" "wP")).
    left. reflexivity.
  - apply (proj1 (@onDrop_changes_only_on_legal_move_in_turn OpeningBook.engine
                    (App.board Scenario.seated) "e2" "e5" "wP")).
    right. right. reflexivity.
Defined.

(** C6 at the expiry of the request timer after 1. e4. *)
Lemma engine_failure_witness :
  gamePosition (App.board (App.step Scenario.awaiting (App.Engine (Hook.TimerFires 0))))
  = OpeningBook.e4_fen
  /\ turnOwner (App.board (App.step Scenario.awaiting (App.Engine (Hook.TimerFires 0))))
     = Engine
  /\ Hook.outbox
       (App.hook
          (App.requestBotMove
             (App.step Scenario.awaiting (App.Engine (Hook.TimerFires 0)))
             (gamePosition
                (App.board (App.step Scenario.awaiting (App.Engine (Hook.TimerFires 0)))))))
     = [ Hook.position OpeningBook.e4_fen; Hook.position OpeningBook.e4_fen ].
Proof.
  destruct (@engine_failure_keeps_position_and_turn OpeningBook.engine
              Scenario.awaiting (Hook.TimerFires 0) OpeningBook.e4_fen eq_refl)
    as (H1 & _ & _ & _ & H5 & _ & _ & _ & _ & H8).
  split; [exact H1 | split; [exact H5 | exact (H8 eq_refl eq_refl)]].
Defined.

(** C7 at 1. e4 and the engine's answers e7e5 (accepted) and e2e4
    (rejected). *)
Lemma turn_alternates_witness :
  turnOwner (App.board Scenario.seated) = Human
  /\ turnOwner (stored (@onDrop OpeningBook.engine (App.board Scenario.seated) "e2" "e4" "wP"))
     = Engine
  /\ turnOwner (@makeBotMove OpeningBook.engine (App.board Scenario.awaiting) "e7e5") = Human
  /\ turnOwner (@makeBotMove OpeningBook.engine (App.board Scenario.awaiting) "e2e4") = Engine.
Proof.
  destruct (@turn_alternates_on_applied_moves_only OpeningBook.engine
              (App.board Scenario.seated) "e2" "e4" "wP" "e7e5") as (H1 & _).
  destruct (@turn_alternates_on_applied_moves_only OpeningBook.engine
              (App.board Scenario.awaiting) "e2" "e4" "wP" "e7e5") as (_ & _ & H3 & _).
  destruct (@turn_alternates_on_applied_moves_only OpeningBook.engine
              (App.board Scenario.awaiting) "e2" "e4" "wP" "e2e4") as (_ & _ & _ & H4 & _).
  destruct (H1 eq_refl) as [Ha Hb]. destruct (H3 eq_refl) as [Hc _].
  destruct (H4 eq_refl) as [Hd _].
  split; [exact Ha | split; [exact Hb | split; [exact Hc | exact Hd]]].
Defined.

(** C7, refuted as stated.  The player starts as black and the engine is
    asked for the first move; the player resets the game, which hands
    the turn to the human and cancels nothing; the engine's e2e4 then
    arrives, is legal on the new board and is applied, and the turn, the
    human's before the move, is the human's after it. *)
Lemma engine_move_on_the_humans_turn_keeps_the_turn :
  turnOwner (App.board (App.run Scenario2.engineOpens [ App.Reset ])) = Human
  /\ @legal OpeningBook.engine
       (loadFen (gamePosition (App.board (App.run Scenario2.engineOpens [ App.Reset ]))))
       (botRequest "e2e4") = true
  /\ moveHistory
       (App.board (App.run Scenario2.engineOpens
                     [ App.Reset; App.Engine (Hook.Message (Hook.bestmove "e2e4")) ]))
     = [ "e4" ]
  /\ turnOwner
       (App.board (App.run Scenario2.engineOpens
                     [ App.Reset; App.Engine (Hook.Message (Hook.bestmove "e2e4")) ]))
     = Human.
Proof. repeat split. Qed.

(** C8, refuted as stated.  A player who started a game and switched the
    sound off resets the game: the sound stays off, so the state is not
    the one of a freshly mounted component. *)
Lemma reset_after_muting_is_not_fresh :
  soundEnabled
    (resetGame (toggleSound (App.board Scenario.seated))) = false
  /\ soundEnabled (@initialState OpeningBook.engine) = true
  /\ resetGame (toggleSound (App.board Scenario.seated)) <> initialState.
Proof.
  repeat split. intros H. apply (f_equal soundEnabled) in H. discriminate H.
Qed.

(** C8 at a game under way with the initial preferences. *)
Lemma resetGame_witness :
  resetGame (App.board Scenario.awaiting) = @initialState OpeningBook.engine.
Proof.
  destruct (@resetGame_restores_all_but_preferences OpeningBook.engine
              (App.board Scenario.awaiting)) as (_ & _ & _ & _ & _ & _ & _ & _ & _ & _
              & _ & _ & _ & _ & _ & _ & _ & _ & H & _).
  exact (H eq_refl eq_refl eq_refl).
Defined.

(** The opening of the specification's scenario: the human, white, plays
    e2e4 and the engine answers e7e5; the position is the one the rules
    engine gives after both moves, it is the human's turn and the move
    list holds the two moves. *)
Example e4_e5_scenario :
  gamePosition
    (App.board (App.run Scenario.awaiting
                  [ App.Engine (Hook.Message (Hook.bestmove "e7e5")) ]))
  = OpeningBook.e4e5_fen
  /\ moveHistory
       (App.board (App.run Scenario.awaiting
                     [ App.Engine (Hook.Message (Hook.bestmove "e7e5")) ]))
     = [ "e4"; "e5" ]
  /\ turnOwner
       (App.board (App.run Scenario.awaiting
                     [ App.Engine (Hook.Message (Hook.bestmove "e7e5")) ]))
     = Human.
Proof. repeat split. Qed.

(** A request without failure callback that times out, then receives
    its move late. *)
Lemma omitted_onError_witness :
  Hook.invoked Hook.Shipped Hook.readyHook
    (Hook.Request OpeningBook.e4_fen 1 None
       :: map Hook.Message [ Hook.analysis (Some 12) ]
       ++ Hook.TimerFires (Hook.nextHandle Hook.readyHook)
       :: [ Hook.Message (Hook.bestmove "e7e5") ])
  = [].
Proof.
  apply (proj2 (omitted_onError_fails_silently Hook.Shipped Hook.readyHook
                  OpeningBook.e4_fen 1 [ Hook.analysis (Some 12) ]
                  [ Hook.Message (Hook.bestmove "e7e5") ])); reflexivity.
Defined.

(** C1 at a request answered by a move and then reached by the backup
    error and by its own, cancelled, timer. *)
Lemma request_is_answered_witness :
  Hook.moveCalls 1
    (Hook.invoked Hook.Shipped Hook.readyHook
       (Hook.Request OpeningBook.e4_fen 1 (Some 1)
          :: [ Hook.Message (Hook.bestmove "e7e5");
               Hook.Message (Hook.error "Move timeout");
               Hook.TimerFires 0 ])) <= 1
  /\ Hook.errorCalls 1
       (Hook.invoked Hook.Shipped Hook.readyHook
          (Hook.Request OpeningBook.e4_fen 1 (Some 1)
             :: [ Hook.Message (Hook.bestmove "e7e5");
                  Hook.Message (Hook.error "Move timeout");
                  Hook.TimerFires 0 ])) <= 1
  /\ 1 <= Hook.moveCalls 1
            (Hook.invoked Hook.Shipped Hook.readyHook
               (Hook.Request OpeningBook.e4_fen 1 (Some 1)
                  :: [ Hook.Message (Hook.bestmove "e7e5");
                       Hook.Message (Hook.error "Move timeout");
                       Hook.TimerFires 0 ]))
          + Hook.errorCalls 1
              (Hook.invoked Hook.Shipped Hook.readyHook
                 (Hook.Request OpeningBook.e4_fen 1 (Some 1)
                    :: [ Hook.Message (Hook.bestmove "e7e5");
                         Hook.Message (Hook.error "Move timeout");
                         Hook.TimerFires 0 ])).
Proof.
  destruct (request_is_answered_unless_superseded Hook.Shipped Hook.readyHook
              OpeningBook.e4_fen "e7e5" 1 1 []
              [ Hook.Message (Hook.bestmove "e7e5");
                Hook.Message (Hook.error "Move timeout");
                Hook.TimerFires 0 ] eq_refl eq_refl eq_refl)
    as ((H1 & H2 & H3) & _).
  split; [exact H1 | split; [exact H2 | apply H3; simpl; auto]].
Defined.

(** C2 at a second request made while the first is pending. *)
Lemma requestMove_replaces_witness :
  Hook.pendingCallbackRef
    (fst (Hook.requestMove Hook.Shipped
            (fst (Hook.requestMove Hook.Shipped Hook.readyHook
                    OpeningBook.e4_fen 1 (Some 1)))
            OpeningBook.e4e5_fen 2 (Some 2)))
  = Some 2
  /\ Hook.outbox
       (fst (Hook.requestMove Hook.Shipped
               (fst (Hook.requestMove Hook.Shipped Hook.readyHook
                       OpeningBook.e4_fen 1 (Some 1)))
               OpeningBook.e4e5_fen 2 (Some 2)))
     = [ Hook.position OpeningBook.e4_fen; Hook.position OpeningBook.e4e5_fen ].
Proof.
  destruct (requestMove_replaces_the_pending_request Hook.Shipped
              (fst (Hook.requestMove Hook.Shipped Hook.readyHook
                      OpeningBook.e4_fen 1 (Some 1)))
              OpeningBook.e4e5_fen 2 (Some 2) eq_refl eq_refl)
    as (_ & H2 & _ & _ & _ & H6 & _).
  split; [exact H2 | exact H6].
Defined.


(** * Further properties of the game *)

Section GameInvariants.
Context {R : RulesEngine}.

Lemma coherent_afterMove (s : GameState) (g : Chess) (m : Move) (t k : bool) :
  Click.coherent s -> Click.coherent (afterMove s g m t k).
Proof.
  intros (_ & Hc & _). repeat split; simpl.
  - rewrite length_app, Hc. reflexivity.
  - discriminate.
  - intros H. destruct (moveHistory s); discriminate.
Qed.

Lemma coherent_set_botThinking (s : GameState) (v : bool) :
  Click.coherent s -> Click.coherent (set_botThinking v s).
Proof. intros H. exact H. Qed.

Lemma coherent_makeBotMove (s : GameState) (mv : string) :
  Click.coherent s -> Click.coherent (makeBotMove s mv).
Proof.
  intros H. unfold makeBotMove. destruct (move _ _).
  - now apply coherent_afterMove.
  - now apply coherent_set_botThinking.
  - now apply coherent_set_botThinking.
Qed.

Lemma coherent_onDrop (s : GameState) (src tgt piece : string) :
  Click.coherent s -> Click.coherent (stored (onDrop s src tgt piece)).
Proof.
  intros H. unfold onDrop.
  destruct (negb (isPlayerTurn s) || botThinking s); [exact H|].
  destruct (move _ _); simpl; auto. now apply coherent_afterMove.
Qed.

Lemma coherent_fresh_board (s : GameState) :
  Click.coherent initialState /\ Click.coherent (resetGame s).
Proof. split; repeat split; auto. Qed.

Lemma coherent_startGame (s : GameState) :
  Click.coherent s -> Click.coherent (startGame s).
Proof.
  intros H. unfold startGame. destruct (canStart s); [|exact H].
  repeat split; auto.
Qed.

Lemma coherent_deliver (out : list Hook.Invocation) :
  forall s : GameState,
    Click.coherent s -> Click.coherent (fold_left App.deliver out s).
Proof.
  induction out as [|i out IH]; intros s H; [exact H|].
  simpl. apply IH. destruct i; simpl.
  - now apply coherent_makeBotMove.
  - now apply coherent_set_botThinking.
Qed.

Lemma coherent_step (a : App.App) (e : App.Event) :
  Click.coherent (App.board a) -> Click.coherent (App.board (App.step a e)).
Proof.
  intros H. destruct e as [name g c| | |src tgt piece| |e]; simpl.
  - exact H.
  - now apply coherent_startGame.
  - apply coherent_fresh_board.
  - now apply coherent_onDrop.
  - destruct (App.due a) as [|[f ready] rest]; [exact H|].
    unfold App.requestBotMoveOf. simpl.
    destruct (Hook.requestMoveOf _ _ _ _ _ _) as [h out]. simpl.
    apply coherent_deliver. now apply coherent_set_botThinking.
  - destruct e as [f k oe|t|m| |]; try exact H;
      match goal with
      | |- context [Hook.step ?v ?h ?ev] => destruct (Hook.step v h ev) as [h1 out]
      | |- context [Hook.timerFires ?t ?h] => destruct (Hook.timerFires t h) as [h1 out]
      | |- context [Hook.onmessage ?v ?h ?m] => destruct (Hook.onmessage v h m) as [h1 out]
      | |- context [Hook.onerror ?h] => destruct (Hook.onerror h) as [h1 out]
      | _ => idtac
      end; simpl; try (now apply coherent_deliver); exact H.
Qed.

(** In every state the game reaches from a freshly mounted component,
    whatever the player, the timers and the worker do, the stored FEN is
    the FEN of the stored board, the move counter is the length of the
    move list, and a last move is recorded exactly when the move list is
    not empty. *)
Theorem reachable_board_is_coherent (es : list App.Event) :
  Click.coherent (App.board (App.run App.fresh es)).
Proof.
  unfold App.run.
  assert (G : forall a, Click.coherent (App.board a) ->
                        Click.coherent (App.board (fold_left App.step es a))).
  { induction es as [|e es IH]; intros a H; [exact H|].
    simpl. apply IH. now apply coherent_step. }
  apply G. apply (coherent_fresh_board initialState).
Qed.

Lemma opposite_differs (c : Color) : Click.opposite c <> c.
Proof. destruct c; discriminate. Qed.

Lemma opposite_of_other (c d : Color) : c <> d -> Click.opposite c = d.
Proof. destruct c, d; simpl; congruence. Qed.

Lemma onDrop_stored_cases (s : GameState) (src tgt piece : string) :
  stored (onDrop s src tgt piece) = s
  \/ (isPlayerTurn s = true
      /\ exists g m,
           move (loadFen (gamePosition s)) (dropRequest src tgt piece) = Moved g m
           /\ stored (onDrop s src tgt piece) = afterMove s g m false false).
Proof.
  unfold onDrop. destruct (isPlayerTurn s); simpl; auto.
  destruct (botThinking s); simpl; auto.
  destruct (move _ _) as [g m| |]; simpl; auto.
  right. split; auto. now exists g, m.
Qed.

Lemma makeBotMove_cases (s : GameState) (mv : string) :
  makeBotMove s mv = set_botThinking false s
  \/ exists g m,
       move (loadFen (gamePosition s)) (botRequest mv) = Moved g m
       /\ makeBotMove s mv = afterMove s g m true false.
Proof.
  unfold makeBotMove. destruct (move _ _) as [g m| |]; auto.
  right. now exists g, m.
Qed.

(** With a rules engine in which a move passes the turn, on a state
    whose FEN is the FEN of its board and whose turn flag agrees with
    the side to move: the flag still agrees after a drop, accepted or
    not, after an engine move delivered on the engine's turn, accepted
    or not, after the failure callback, after [startGame] and after
    [resetGame]. *)
Theorem turn_flag_follows_side_to_move
        (s : GameState) (src tgt piece mv : string) :
  Click.turnLaws ->
  gamePosition s = fen (game s) ->
  Click.turnConsistent s ->
  Click.turnConsistent (stored (onDrop s src tgt piece))
  /\ (isPlayerTurn s = false -> Click.turnConsistent (makeBotMove s mv))
  /\ Click.turnConsistent (onBotMoveFailed s)
  /\ (canStart s = true -> Click.turnConsistent (startGame s))
  /\ Click.turnConsistent (resetGame s).
Proof.
  intros (L1 & L2 & L3) Hf Hc.
  assert (Ht : turn (loadFen (gamePosition s)) = turn (game s)).
  { now rewrite Hf, L2. }
  split; [|split; [|split; [|split]]].
  - destruct (onDrop_stored_cases s src tgt piece) as [-> | (Et & g & m & Em & ->)];
      [exact Hc|].
    unfold Click.turnConsistent. simpl.
    split; [discriminate|]. intros H.
    apply L1 in Em. rewrite Ht in Em.
    destruct Hc as [Hc _]. rewrite (Hc Et) in Em. rewrite Em in H.
    now apply opposite_differs in H.
  - intros Et.
    destruct (makeBotMove_cases s mv) as [-> | (g & m & Em & ->)]; [exact Hc|].
    unfold Click.turnConsistent. simpl.
    split; [|reflexivity]. intros _.
    apply L1 in Em. rewrite Ht in Em. rewrite Em.
    apply opposite_of_other. intros E. destruct Hc as [_ Hc].
    rewrite (Hc E) in Et. discriminate Et.
  - exact Hc.
  - intros Hs. unfold startGame. rewrite Hs.
    unfold Click.turnConsistent. simpl. rewrite L3.
    destruct (playerColor s); simpl; split; auto; discriminate.
  - unfold Click.turnConsistent. simpl. now rewrite L3.
Qed.

End GameInvariants.

Section GameAndSession.
Context {R : RulesEngine}.

(** With no move callback recorded, no event of the hook but a request
    invokes a move callback or records one. *)
Lemma step_without_move_callback (v : Hook.HookVariant) (h : Hook.Hook) (e : Hook.Event) :
  Hook.pendingCallbackRef h = None -> Hook.isRequest e = false ->
  Hook.onlyFailures (snd (Hook.step v h e)) = true
  /\ Hook.pendingCallbackRef (fst (Hook.step v h e)) = None.
Proof.
  intros Hp Hr. destruct e as [f k oe|t|m| |]; simpl in *; try discriminate.
  - unfold Hook.timerFires. destruct (Hook.armed t h); simpl; auto.
    destruct (Hook.errorCallbackRef h); auto.
  - destruct (dropTimeout_slots h) as (Dp & De & _).
    destruct m; simpl; auto.
    + rewrite Dp, Hp. auto.
    + destruct v; simpl; auto.
    + rewrite Dp. destruct (Hook.errorCallbackRef (Hook.dropTimeout h)); auto.
  - destruct (Hook.errorCallbackRef h); auto.
  - auto.
Qed.

Lemma step_engine_event (a : App.App) (e : Hook.Event) :
  Hook.isRequest e = false ->
  App.step a (App.Engine e)
  = {| App.hook := fst (Hook.step Hook.Shipped (App.hook a) e);
       App.board := fold_left App.deliver
                              (snd (Hook.step Hook.Shipped (App.hook a) e)) (App.board a);
       App.due := App.due a;
       App.nextCb := App.nextCb a |}.
Proof.
  destruct e as [f k oe|t|m| |]; try discriminate; intros _;
    unfold App.step; now destruct (Hook.step _ _ _).
Qed.

Lemma play_step_when_waiting (a : App.App) (e : App.Event) :
  isPlayerTurn (App.board a) = false ->
  Hook.pendingCallbackRef (App.hook a) = None ->
  App.due a = [] ->
  Traces.isPlay e = true ->
  isPlayerTurn (App.board (App.step a e)) = false
  /\ Hook.pendingCallbackRef (App.hook (App.step a e)) = None
  /\ App.due (App.step a e) = []
  /\ gamePosition (App.board (App.step a e)) = gamePosition (App.board a)
  /\ game (App.board (App.step a e)) = game (App.board a)
  /\ moveHistory (App.board (App.step a e)) = moveHistory (App.board a).
Proof.
  intros Ht Hp Hd He. destruct e as [name g c| | |src tgt piece| |e]; try discriminate.
  - simpl. rewrite (onDrop_refused_cases (App.board a) src tgt piece) by auto.
    simpl. now repeat split.
  - simpl. rewrite Hd. now repeat split.
  - destruct (Hook.isRequest e) eqn:Er.
    + destruct e; try discriminate. simpl. now repeat split.
    + rewrite (step_engine_event a e Er). simpl.
      destruct (step_without_move_callback Hook.Shipped (App.hook a) e Hp Er) as [Ho Hp1].
      destruct (deliver_failures _ Ho (App.board a)) as (-> & -> & -> & ->).
      now repeat split.
Qed.

(** Once the engine's turn has ended without a move (the request timed
    out or failed, so that no move callback is recorded and no request
    is scheduled), nothing that can happen in the game under way moves
    it on: drops are refused, late moves of the engine are dropped, and
    position, board, move list and turn stay as they are.  Only a new
    game leaves this state. *)
Theorem failed_engine_turn_blocks_the_game (a : App.App) (es : list App.Event) :
  isPlayerTurn (App.board a) = false ->
  Hook.pendingCallbackRef (App.hook a) = None ->
  App.due a = [] ->
  forallb Traces.isPlay es = true ->
  gamePosition (App.board (App.run a es)) = gamePosition (App.board a)
  /\ game (App.board (App.run a es)) = game (App.board a)
  /\ moveHistory (App.board (App.run a es)) = moveHistory (App.board a)
  /\ isPlayerTurn (App.board (App.run a es)) = false.
Proof.
  revert a. unfold App.run.
  induction es as [|e es IH]; intros a Ht Hp Hd Hes.
  - now repeat split.
  - simpl in Hes. apply andb_prop in Hes as [He Hes].
    destruct (play_step_when_waiting a e Ht Hp Hd He) as (Ht1 & Hp1 & Hd1 & E1 & E2 & E3).
    simpl. destruct (IH _ Ht1 Hp1 Hd1 Hes) as (-> & -> & -> & ->).
    now repeat split.
Qed.

(** [resetGame] does not cancel the request that is pending: a move the
    engine returns after the reset is played, if it is legal in the
    initial position, on the new board, although no game was started. *)
Theorem move_after_reset_is_played_on_the_new_board
        (a : App.App) (k : nat) (mv : string) (g : Chess) (m : Move) :
  Hook.pendingCallbackRef (App.hook a) = Some k ->
  move (loadFen (fen newChess)) (botRequest mv) = Moved g m ->
  App.board (App.run a [ App.Reset; App.Engine (Hook.Message (Hook.bestmove mv)) ])
  = afterMove (resetGame (App.board a)) g m true false
  /\ gameStarted
       (App.board (App.run a [ App.Reset; App.Engine (Hook.Message (Hook.bestmove mv)) ]))
     = false
  /\ moveHistory
       (App.board (App.run a [ App.Reset; App.Engine (Hook.Message (Hook.bestmove mv)) ]))
     = [ san m ].
Proof.
  intros Hp Hm.
  destruct (dropTimeout_slots (App.hook a)) as (Dp & _).
  unfold App.run. simpl. rewrite Dp, Hp. simpl.
  unfold makeBotMove. simpl. rewrite Hm. now repeat split.
Qed.

(** An accepted drop and the request it schedules, on a ready session
    with nothing else scheduled: when the game is not over after the
    move, the engine is asked for exactly the position now stored, the
    bot is marked as thinking and the callbacks of the request are
    recorded; when the move ends the game, nothing is scheduled and the
    session is left alone. *)
Theorem accepted_drop_asks_for_the_new_position
        (a : App.App) (src tgt piece : string) :
  accepted (onDrop (App.board a) src tgt piece) = true ->
  App.due a = [] ->
  Hook.workerRef (App.hook a) = true -> Hook.isReady (App.hook a) = true ->
  (isGameOver (game (App.board (App.run a [ App.Drop src tgt piece; App.RequestDue ])))
   = false ->
   Hook.outbox (App.hook (App.run a [ App.Drop src tgt piece; App.RequestDue ]))
   = Hook.outbox (App.hook a)
       ++ [ Hook.position
              (gamePosition
                 (App.board (App.run a [ App.Drop src tgt piece; App.RequestDue ]))) ]
   /\ botThinking (App.board (App.run a [ App.Drop src tgt piece; App.RequestDue ]))
      = true
   /\ Hook.pendingCallbackRef
        (App.hook (App.run a [ App.Drop src tgt piece; App.RequestDue ]))
      = Some (App.nextCb a))
  /\ (isGameOver (game (App.board (App.run a [ App.Drop src tgt piece; App.RequestDue ])))
      = true ->
      App.hook (App.run a [ App.Drop src tgt piece; App.RequestDue ]) = App.hook a
      /\ App.due (App.run a [ App.Drop src tgt piece; App.RequestDue ]) = []
      /\ botThinking (App.board (App.run a [ App.Drop src tgt piece; App.RequestDue ]))
         = false).
Proof.
  intros Ha Hd Hw Hr.
  destruct (onDrop_accepted_cases _ _ _ _ Ha) as (Et & Eb & g & m & Em & Es).
  assert (Esch : scheduled (onDrop (App.board a) src tgt piece)
                 = if isGameOver g then None else Some (fen g)).
  { unfold onDrop. rewrite Et, Eb. simpl. now rewrite Em. }
  unfold App.run. cbn [fold_left App.step]. cbn [App.due App.hook App.board App.nextCb].
  rewrite Esch, Es, Hd.
  destruct (isGameOver g) eqn:Eg; cbn [app].
  - split; [intros H; simpl in H; congruence|]. intros _. now repeat split.
  - split; [|intros H; simpl in H; unfold App.requestBotMoveOf in H;
              cbn [App.hook App.board App.due App.nextCb] in H;
              unfold Hook.requestMoveOf in H; rewrite Hw, Hr in H; simpl in H; congruence].
    intros _. unfold App.requestBotMoveOf.
    cbn [App.hook App.board App.due App.nextCb].
    unfold Hook.requestMoveOf. rewrite Hw, Hr. simpl. now repeat split.
Qed.

Lemma requestMoveOf_latest
      (v : Hook.HookVariant) (h : Hook.Hook) (f : string) (k : nat) (oe : option nat) :
  Hook.requestMoveOf (Hook.isReady h) v h f k oe = Hook.requestMove v h f k oe.
Proof. now destruct v. Qed.

Lemma requestBotMoveOf_latest (a : App.App) (f : string) :
  App.requestBotMoveOf (Hook.isReady (App.hook a)) a f = App.requestBotMove a f.
Proof.
  unfold App.requestBotMoveOf, App.requestBotMove. now rewrite requestMoveOf_latest.
Qed.

(** The request for the engine's first move is scheduled by the render
    in which the game was started, and tests the readiness flag of that
    render.  When the player starts as black before the worker has
    reported ready, the request is refused when it comes due although
    the hook is ready by then: nothing is posted to the worker, no
    callback is recorded, and the game is left started, on the engine's
    turn, with the bot not thinking. *)
Theorem request_scheduled_before_ready_is_refused (a : App.App) :
  Hook.isReady (App.hook a) = false ->
  canStart (App.board a) = true -> playerColor (App.board a) = black ->
  App.due a = [] ->
  Hook.isReady
    (App.hook (App.run a [ App.Start; App.Engine (Hook.Message Hook.ready);
                           App.RequestDue ])) = true
  /\ Hook.outbox
       (App.hook (App.run a [ App.Start; App.Engine (Hook.Message Hook.ready);
                              App.RequestDue ]))
     = Hook.outbox (App.hook a)
  /\ Hook.pendingCallbackRef
       (App.hook (App.run a [ App.Start; App.Engine (Hook.Message Hook.ready);
                              App.RequestDue ]))
     = Hook.pendingCallbackRef (App.hook a)
  /\ App.due (App.run a [ App.Start; App.Engine (Hook.Message Hook.ready);
                          App.RequestDue ]) = []
  /\ gameStarted
       (App.board (App.run a [ App.Start; App.Engine (Hook.Message Hook.ready);
                               App.RequestDue ])) = true
  /\ isPlayerTurn
       (App.board (App.run a [ App.Start; App.Engine (Hook.Message Hook.ready);
                               App.RequestDue ])) = false
  /\ botThinking
       (App.board (App.run a [ App.Start; App.Engine (Hook.Message Hook.ready);
                               App.RequestDue ])) = false.
Proof.
  intros Hr Hc Hb Hd.
  unfold App.run. cbn [fold_left App.step Hook.step Hook.onmessage].
  cbn [App.due App.hook App.board App.nextCb].
  rewrite Hc, Hb, Hd, Hr. cbn [andb app fold_left].
  unfold App.requestBotMoveOf, Hook.requestMoveOf.
  cbn [App.due App.hook App.board App.nextCb]. rewrite orb_true_r.
  cbn [fold_left App.deliver App.hook App.board App.due].
  unfold startGame. rewrite Hc. rewrite Hb. now repeat split.
Qed.

Lemma isWhiteSpace_In (ch : string) :
  isWhiteSpace ch = true -> In ch whiteSpace.
Proof.
  unfold isWhiteSpace. intros H. apply existsb_exists in H as (x & Hx & E).
  apply String.eqb_eq in E. now subst.
Qed.

(** A white space character at the head of a name is skipped. *)
Lemma trimmedNonEmpty_skips (ws rest : string) :
  In ws whiteSpace -> trimmedNonEmpty (ws ++ rest) = trimmedNonEmpty rest.
Proof.
  intros H. unfold whiteSpace in H. cbn [map In] in H.
  repeat (destruct H as [<- | H]; [reflexivity|]). destruct H.
Qed.

Lemma trimmedNonEmpty_scan (n : nat) :
  forall name, String.length name <= n ->
               trimmedNonEmpty name = false -> Traces.blank name.
Proof.
  induction n as [|n IH]; intros name Hl H.
  - destruct name; [constructor | simpl in Hl; lia].
  - destruct name as [|c1 r1]; [constructor|].
    cbn [trimmedNonEmpty] in H. cbn [String.length] in Hl.
    destruct (isWhiteSpace (String c1 EmptyString)) eqn:E1.
    { apply (Traces.blank_more (String c1 EmptyString) r1).
      - now apply isWhiteSpace_In.
      - apply IH; [lia | exact H]. }
    destruct r1 as [|c2 r2]; [discriminate|]. cbn [String.length] in Hl.
    destruct (isWhiteSpace (String c1 (String c2 EmptyString))) eqn:E2.
    { apply (Traces.blank_more (String c1 (String c2 EmptyString)) r2).
      - now apply isWhiteSpace_In.
      - apply IH; [lia | exact H]. }
    destruct r2 as [|c3 r3]; [discriminate|]. cbn [String.length] in Hl.
    destruct (isWhiteSpace (String c1 (String c2 (String c3 EmptyString)))) eqn:E3;
      [|discriminate].
    apply (Traces.blank_more (String c1 (String c2 (String c3 EmptyString))) r3).
    + now apply isWhiteSpace_In.
    + apply IH; [lia | exact H].
Qed.

(** [trim] gives the empty string exactly for a name made of white
    space characters. *)
Lemma trimmedNonEmpty_blank (name : string) :
  trimmedNonEmpty name = false <-> Traces.blank name.
Proof.
  split.
  - apply (trimmedNonEmpty_scan (String.length name)). lia.
  - induction 1 as [|ws rest Hin _ IH]; [reflexivity|].
    now rewrite trimmedNonEmpty_skips.
Qed.

(** [startGame] starts nothing when the name is blank (empty, or made
    only of the white space characters [trim] strips, the ASCII ones
    and those beyond ASCII alike) or no gender was chosen; otherwise it
    sets up the initial position with an empty move list, keeps name,
    gender, colour and preferences, and gives the first turn to the
    player exactly when the player is white. *)
Theorem startGame_needs_a_name_and_a_gender
        (s : GameState) (name : string) (g : Gender) (c : Side) :
  (Traces.blank name ->
   startGame (enterDetails name g c s) = enterDetails name g c s)
  /\ startGame (enterDetails name unset c s) = enterDetails name unset c s
  /\ (~ Traces.blank name -> g <> unset ->
      gameStarted (startGame (enterDetails name g c s)) = true
      /\ gamePosition (startGame (enterDetails name g c s)) = fen newChess
      /\ game (startGame (enterDetails name g c s)) = newChess
      /\ moveHistory (startGame (enterDetails name g c s)) = []
      /\ botThinking (startGame (enterDetails name g c s)) = false
      /\ playerName (startGame (enterDetails name g c s)) = name
      /\ playerGender (startGame (enterDetails name g c s)) = g
      /\ playerColor (startGame (enterDetails name g c s)) = c
      /\ soundEnabled (startGame (enterDetails name g c s)) = soundEnabled s
      /\ speechEnabled (startGame (enterDetails name g c s)) = speechEnabled s
      /\ isFullscreen (startGame (enterDetails name g c s)) = isFullscreen s
      /\ (isPlayerTurn (startGame (enterDetails name g c s)) = true <-> c = white)).
Proof.
  split; [|split].
  - intros Hb. apply trimmedNonEmpty_blank in Hb.
    unfold startGame, canStart. simpl. now rewrite Hb.
  - unfold startGame, canStart. simpl. now rewrite andb_false_r.
  - intros Hb Hg.
    assert (Ht : trimmedNonEmpty name = true).
    { destruct (trimmedNonEmpty name) eqn:E; [reflexivity|].
      exfalso. apply Hb. now apply trimmedNonEmpty_blank. }
    unfold startGame, canStart. simpl. rewrite Ht. simpl.
    destruct g; try congruence; simpl; repeat split; auto;
      destruct c; simpl; auto; discriminate.
Qed.

Lemma substring_all (p : string) : substring 0 (String.length p) p = p.
Proof. induction p as [|c p IH]; simpl; auto. now rewrite IH. Qed.

(** [makeBotMove] reads a move of the engine, two squares of two
    characters followed by an optional promotion piece, back into its
    parts: the promotion is absent exactly when nothing follows the
    squares. *)
Theorem botRequest_reads_uci_move (f t p : string) :
  String.length f = 2 -> String.length t = 2 ->
  botRequest (f ++ t ++ p)
  = {| from := f; to := t;
       promotion := match p with EmptyString => None | _ => Some p end |}.
Proof.
  intros Hf Ht.
  destruct f as [|a [|b [|? ?]]]; try discriminate.
  destruct t as [|c [|d [|? ?]]]; try discriminate.
  unfold botRequest. simpl. rewrite Nat.sub_0_r, substring_all.
  destruct p; reflexivity.
Qed.

(** *** Clicks and drags *)

Variable get : Chess -> string -> option Color.
Variable targets : Chess -> string -> list string.

(** While it is not the player's turn, or while the bot is thinking,
    the board takes no input: no drag begins, a drop is refused and
    changes nothing, and a click changes nothing, not even the
    selection. *)
Theorem engine_turn_blocks_all_input (s : GameState) (piece src tgt : string) :
  isPlayerTurn s = false \/ botThinking s = true ->
  Click.onPieceDragBegin s piece src = false
  /\ onDrop s src tgt piece = refused s
  /\ Click.onSquareClick get targets s tgt = (s, None).
Proof.
  intros H. split; [|split].
  - unfold Click.onPieceDragBegin.
    destruct H as [-> | ->]; simpl; auto. now rewrite andb_false_r.
  - apply onDrop_refused_cases. tauto.
  - unfold Click.onSquareClick. destruct H as [-> | ->]; simpl; auto.
    now rewrite orb_true_r.
Qed.

Lemma clickElsewhere_cases (s : GameState) (square : string) :
  gamePosition (fst (Click.clickElsewhere s square)) <> gamePosition s ->
  exists source rest g m,
    selectedSquares s = source :: rest
    /\ existsb (String.eqb square) (selectedSquares s) = true
    /\ isPlayerTurn s = true
    /\ move (loadFen (gamePosition s))
            {| from := source; to := square; promotion := None |} = Moved g m
    /\ fst (Click.clickElsewhere s square) = afterMove s g m false false.
Proof.
  unfold Click.clickElsewhere.
  destruct (selectedSquares s) as [|source rest] eqn:Es; simpl; [congruence|].
  destruct (String.eqb square source || existsb (String.eqb square) rest) eqn:Ein;
    simpl; [|congruence].
  intros Hne.
  destruct (onDrop_stored_cases s source square EmptyString)
    as [E | (Et & g & m & Em & E)]; [rewrite E in Hne; congruence|].
  exists source, rest, g, m. repeat split; auto.
Qed.

(** A click changes the position only as a drop would: there is a
    selection, the square clicked is one of the selected squares, it is
    the player's turn, and the rules engine accepts the move from the
    first selected square to the square clicked, which never carries a
    promotion; the move is then stored as after a drop, the selection
    cleared and the turn handed to the engine. *)
Theorem click_moves_through_the_drop_gate (s : GameState) (square : string) :
  gamePosition (fst (Click.onSquareClick get targets s square)) <> gamePosition s ->
  exists source rest g m,
    selectedSquares s = source :: rest
    /\ existsb (String.eqb square) (selectedSquares s) = true
    /\ isPlayerTurn s = true /\ botThinking s = false
    /\ move (loadFen (gamePosition s))
            {| from := source; to := square; promotion := None |} = Moved g m
    /\ fst (Click.onSquareClick get targets s square) = afterMove s g m false false
    /\ selectedSquares (fst (Click.onSquareClick get targets s square)) = []
    /\ isPlayerTurn (fst (Click.onSquareClick get targets s square)) = false.
Proof.
  unfold Click.onSquareClick.
  destruct (negb (isPlayerTurn s) || botThinking s) eqn:Eg; simpl; [congruence|].
  apply orb_false_iff in Eg as [Et Eb]. apply negb_false_iff in Et.
  assert (K : gamePosition (fst (Click.clickElsewhere s square)) <> gamePosition s ->
              exists source rest g m,
                selectedSquares s = source :: rest
                /\ existsb (String.eqb square) (selectedSquares s) = true
                /\ isPlayerTurn s = true /\ botThinking s = false
                /\ move (loadFen (gamePosition s))
                        {| from := source; to := square; promotion := None |} = Moved g m
                /\ fst (Click.clickElsewhere s square) = afterMove s g m false false
                /\ selectedSquares (fst (Click.clickElsewhere s square)) = []
                /\ isPlayerTurn (fst (Click.clickElsewhere s square)) = false).
  { intros Hne.
    destruct (clickElsewhere_cases s square Hne) as (source & rest & g & m & H1 & H2 & H3 & H4 & H5).
    exists source, rest, g, m. rewrite H5. now repeat split. }
  destruct (get _ _) as [c|]; [destruct (Click.ownPiece s c)|]; simpl; auto.
  congruence.
Qed.

End GameAndSession.


(** * Further properties of the engine hook *)

Section HookInvariants.
Variable v : Hook.HookVariant.

(** Clearing a timer removes entries of the table and adds none. *)
Lemma clearTimeout_sub (t : nat) (ts : list (nat * N)) (e : nat * N) :
  In e (Hook.clearTimeout t ts) -> In e ts.
Proof.
  unfold Hook.clearTimeout. intros Hin. apply filter_In in Hin. tauto.
Qed.

Lemma clearTimeout_distinct (t : nat) (ts : list (nat * N)) :
  NoDup (map fst ts) -> NoDup (map fst (Hook.clearTimeout t ts)).
Proof.
  unfold Hook.clearTimeout.
  induction ts as [|e ts IH]; intros D; [exact D|].
  cbn [map] in D. apply NoDup_cons_iff in D as [Hfresh D].
  cbn [filter]. destruct (negb (Nat.eqb (fst e) t)); [|auto].
  cbn [map]. apply NoDup_cons; [|auto].
  intros Hin. apply Hfresh.
  apply in_map_iff in Hin as (e' & Ee & He').
  apply in_map_iff. exists e'. split; [exact Ee|].
  now apply (clearTimeout_sub t).
Qed.

Lemma clearTimeout_keeps (P : nat * N -> Prop) (t : nat) (ts : list (nat * N)) :
  Forall P ts -> Forall P (Hook.clearTimeout t ts).
Proof.
  rewrite !Forall_forall. intros H e He. apply H. now apply (clearTimeout_sub t).
Qed.

(** A handler that posts nothing, gives out no handle, clears timers at
    most and keeps or empties [timeoutRef] keeps the book-keeping. *)
Lemma wellFormed_shrink (h h' : Hook.Hook) :
  Traces.wellFormed v h ->
  Hook.outbox h' = Hook.outbox h ->
  Hook.nextHandle h' = Hook.nextHandle h ->
  (Hook.timers h' = Hook.timers h
   \/ exists t, Hook.timers h' = Hook.clearTimeout t (Hook.timers h)) ->
  (Hook.timeoutRef h' = Hook.timeoutRef h \/ Hook.timeoutRef h' = None) ->
  Traces.wellFormed v h'.
Proof.
  intros (W1 & W2 & W3 & W4 & W5) Eo En Et Er.
  unfold Traces.wellFormed. rewrite Eo, En. repeat split; auto.
  - destruct Et as [-> | (t & ->)]; auto. now apply clearTimeout_keeps.
  - destruct Et as [-> | (t & ->)]; auto. now apply clearTimeout_distinct.
  - intros t Ht. destruct Er as [Er | Er]; rewrite Er in Ht; [auto | discriminate].
Qed.

Lemma wellFormed_dropTimeout (h : Hook.Hook) :
  Traces.wellFormed v h -> Traces.wellFormed v (Hook.dropTimeout h).
Proof.
  intros W. unfold Hook.dropTimeout. destruct (Hook.timeoutRef h) as [t|] eqn:E; auto.
  apply (wellFormed_shrink h); simpl; auto. right. now exists t.
Qed.

Lemma analysis_keeps (h : Hook.Hook) (d : option nat) :
  Hook.outbox (fst (Hook.onmessage v h (Hook.analysis d))) = Hook.outbox h
  /\ Hook.nextHandle (fst (Hook.onmessage v h (Hook.analysis d))) = Hook.nextHandle h
  /\ Hook.timers (fst (Hook.onmessage v h (Hook.analysis d))) = Hook.timers h
  /\ Hook.timeoutRef (fst (Hook.onmessage v h (Hook.analysis d))) = Hook.timeoutRef h.
Proof. simpl. destruct v; simpl; now repeat split. Qed.

Lemma wellFormed_step (h : Hook.Hook) (e : Hook.Event) :
  Traces.wellFormed v h -> Traces.wellFormed v (fst (Hook.step v h e)).
Proof.
  intros W. destruct e as [f k oe|t|m| |]; simpl.
  - unfold Hook.requestMove.
    destruct (negb (Hook.workerRef h) || negb (Hook.isReady h)); simpl; auto.
    destruct W as (W1 & W2 & W3 & W4 & W5). repeat split; simpl.
    + rewrite forallb_app, W1. reflexivity.
    + rewrite length_app, W2. simpl. lia.
    + constructor; simpl; [split; [lia | reflexivity]|].
      eapply Forall_impl; [|exact W3]. simpl. intros p [Hp1 Hp2]. split; [lia | auto].
    + constructor; auto. intros Hin. apply in_map_iff in Hin as (p & Ep & Hp).
      rewrite Forall_forall in W3. apply W3 in Hp. lia.
    + intros t Ht. inversion Ht. lia.
  - unfold Hook.timerFires. destruct (Hook.armed t h); simpl; auto.
    apply (wellFormed_shrink h); simpl; auto. right. now exists t.
  - pose proof (wellFormed_dropTimeout h W) as Wd.
    destruct m as [ |mv|depth|data|msg];
      [ apply (wellFormed_shrink h); simpl; auto
      | apply (wellFormed_shrink (Hook.dropTimeout h)); simpl; auto
      | destruct (analysis_keeps h depth) as (A1 & A2 & A3 & A4);
        apply (wellFormed_shrink h); auto
      | exact W
      | apply (wellFormed_shrink (Hook.dropTimeout h)); simpl; auto ].
  - apply (wellFormed_shrink h); simpl; auto.
  - apply (wellFormed_shrink h); simpl; auto.
Qed.

(** Whatever happens to a mounted hook, the page has posted positions
    only (never a stop), exactly one for each timer handle given out;
    every armed timer has the delay of the hook and a handle given out
    before, no two armed timers share a handle, and [timeoutRef] holds a
    handle given out before. *)
Theorem mounted_hook_stays_wellFormed (es : list Hook.Event) :
  Traces.wellFormed v (fst (Hook.run v Hook.mounted es)).
Proof.
  assert (G : forall h, Traces.wellFormed v h ->
                        Traces.wellFormed v (fst (Hook.run v h es))).
  { induction es as [|e es IH]; intros h W; [exact W|].
    rewrite run_cons. simpl fst. apply IH. now apply wellFormed_step. }
  apply G. repeat split; simpl; auto; try constructor. discriminate.
Qed.

Lemma untouched_step (h : Hook.Hook) (e : Hook.Event) :
  Traces.untouched h -> Traces.noReady [e] = true ->
  snd (Hook.step v h e) = Traces.refusals [e]
  /\ Traces.untouched (fst (Hook.step v h e)).
Proof.
  intros (U1 & U2 & U3 & U4 & U5 & U6) He.
  destruct e as [f k oe|t|m| |]; simpl in *.
  - unfold Hook.requestMove. rewrite U1, orb_true_r. simpl.
    split; [destruct oe; reflexivity | now repeat split].
  - unfold Hook.timerFires, Hook.armed. rewrite U5. simpl. now repeat split.
  - assert (D : Hook.dropTimeout h = h) by (unfold Hook.dropTimeout; now rewrite U4).
    destruct m; simpl in *; try discriminate; rewrite ?D, ?U2, ?U3;
      try (now repeat split).
    destruct v; simpl; now repeat split.
  - rewrite U3. now repeat split.
  - now repeat split.
Qed.

Lemma refusals_cons (e : Hook.Event) (es : list Hook.Event) :
  Traces.refusals (e :: es) = Traces.refusals [e] ++ Traces.refusals es.
Proof. unfold Traces.refusals. simpl. now rewrite app_nil_r. Qed.

(** Until the worker reports ready, every request is refused on the
    spot: its failure callback, if it has one, is invoked at once, in
    the order of the requests, and nothing else is ever invoked; no
    position is posted and no timer armed.  Requests are not queued. *)
Theorem requests_before_ready_are_refused (es : list Hook.Event) :
  Traces.noReady es = true ->
  Hook.invoked v Hook.mounted es = Traces.refusals es
  /\ Hook.outbox (fst (Hook.run v Hook.mounted es)) = []
  /\ Hook.timers (fst (Hook.run v Hook.mounted es)) = []
  /\ Hook.isReady (fst (Hook.run v Hook.mounted es)) = false.
Proof.
  assert (G : forall h, Traces.untouched h -> Traces.noReady es = true ->
                        Hook.invoked v h es = Traces.refusals es
                        /\ Traces.untouched (fst (Hook.run v h es))).
  { induction es as [|e es IH]; intros h U Hn; [now split|].
    unfold Traces.noReady in Hn. simpl in Hn. apply andb_prop in Hn as [He Hes].
    destruct (untouched_step h e U) as [Ho U1].
    { unfold Traces.noReady. simpl. now rewrite He. }
    destruct (IH _ U1 Hes) as [Ho2 U2].
    rewrite invoked_cons, run_cons, refusals_cons, Ho, Ho2. now split. }
  intros Hn. destruct (G Hook.mounted) as (Ho & U1 & _ & _ & _ & U5 & U6); auto.
  { now repeat split. }
Qed.

Lemma terminated_step (h : Hook.Hook) (e : Hook.Event) :
  Hook.workerRef h = false ->
  Hook.workerRef (fst (Hook.step v h e)) = false
  /\ Hook.outbox (fst (Hook.step v h e)) = Hook.outbox h
  /\ Hook.nextHandle (fst (Hook.step v h e)) = Hook.nextHandle h
  /\ incl (Hook.timers (fst (Hook.step v h e))) (Hook.timers h)
  /\ (forall fen k c, e = Hook.Request fen k (Some c) ->
                      snd (Hook.step v h e) = [Hook.onError c]).
Proof.
  intros Hw.
  assert (I : forall t, incl (Hook.clearTimeout t (Hook.timers h)) (Hook.timers h)).
  { intros t x Hx. apply filter_In in Hx. tauto. }
  destruct e as [f k oe|t|m| |]; simpl.
  - unfold Hook.requestMove. rewrite Hw. simpl.
    repeat split; auto using incl_refl. intros fen k' c E. now inversion E.
  - unfold Hook.timerFires. destruct (Hook.armed t h); simpl;
      repeat split; auto using incl_refl; discriminate.
  - assert (D : Hook.workerRef (Hook.dropTimeout h) = false
                /\ Hook.outbox (Hook.dropTimeout h) = Hook.outbox h
                /\ Hook.nextHandle (Hook.dropTimeout h) = Hook.nextHandle h
                /\ incl (Hook.timers (Hook.dropTimeout h)) (Hook.timers h)).
    { unfold Hook.dropTimeout. destruct (Hook.timeoutRef h); simpl;
        repeat split; auto using incl_refl. }
    destruct D as (D1 & D2 & D3 & D4).
    destruct m; simpl; repeat split; auto using incl_refl; try discriminate.
    all: destruct v; simpl; auto using incl_refl.
  - repeat split; auto using incl_refl. discriminate.
  - repeat split; auto using incl_refl. discriminate.
Qed.

(** [terminate] is final: whatever follows, the worker reference stays
    empty, no position is posted and no timer armed any more, and every
    later request with a failure callback has it invoked on the spot.
    Timers armed before still expire. *)
Theorem terminate_is_final (h : Hook.Hook) (es : list Hook.Event) :
  Hook.workerRef (fst (Hook.run v (Hook.terminate h) es)) = false
  /\ Hook.outbox (fst (Hook.run v (Hook.terminate h) es)) = Hook.outbox h
  /\ Hook.nextHandle (fst (Hook.run v (Hook.terminate h) es)) = Hook.nextHandle h
  /\ incl (Hook.timers (fst (Hook.run v (Hook.terminate h) es))) (Hook.timers h)
  /\ (forall fen k c,
         In (Hook.Request fen k (Some c)) es ->
         In (Hook.onError c) (Hook.invoked v (Hook.terminate h) es)).
Proof.
  assert (G : forall h0, Hook.workerRef h0 = false ->
                Hook.workerRef (fst (Hook.run v h0 es)) = false
                /\ Hook.outbox (fst (Hook.run v h0 es)) = Hook.outbox h0
                /\ Hook.nextHandle (fst (Hook.run v h0 es)) = Hook.nextHandle h0
                /\ incl (Hook.timers (fst (Hook.run v h0 es))) (Hook.timers h0)
                /\ (forall fen k c,
                       In (Hook.Request fen k (Some c)) es ->
                       In (Hook.onError c) (Hook.invoked v h0 es))).
  { induction es as [|e es IH]; intros h0 Hw.
    - repeat split; auto using incl_refl; try (intros ? ? ? []).
    - destruct (terminated_step h0 e Hw) as (S1 & S2 & S3 & S4 & S5).
      destruct (IH _ S1) as (R1 & R2 & R3 & R4 & R5).
      rewrite run_cons. simpl fst.
      rewrite R2, R3, S2, S3. repeat split; auto.
      + eapply incl_tran; eauto.
      + intros fen k c Hin. rewrite invoked_cons. apply in_or_app.
        destruct Hin as [E | Hin].
        * left. rewrite (S5 fen k c E). now left.
        * right. now apply (R5 fen k c). }
  apply (G (Hook.terminate h)). reflexivity.
Qed.

Lemma armed_clear_other (t t' : nat) (ts : list (nat * N)) :
  t <> t' ->
  existsb (fun p => Nat.eqb (fst p) t) (Hook.clearTimeout t' ts)
  = existsb (fun p => Nat.eqb (fst p) t) ts.
Proof.
  intros Hne. induction ts as [|p ts IH]; simpl; auto.
  destruct (Nat.eqb_spec (fst p) t') as [E|E]; simpl.
  - rewrite IH. destruct (Nat.eqb_spec (fst p) t); [congruence | reflexivity].
  - now rewrite IH.
Qed.

Lemma other_timer_step (h : Hook.Hook) (e : Hook.Event) (t : nat) :
  Hook.armed t h = true -> Hook.timeoutRef h <> Some t -> t < Hook.nextHandle h ->
  e <> Hook.TimerFires t ->
  Hook.armed t (fst (Hook.step v h e)) = true
  /\ Hook.timeoutRef (fst (Hook.step v h e)) <> Some t
  /\ t < Hook.nextHandle (fst (Hook.step v h e)).
Proof.
  intros Ha Hr Hn He.
  assert (D : Hook.armed t (Hook.dropTimeout h) = true
              /\ Hook.timeoutRef (Hook.dropTimeout h) <> Some t
              /\ t < Hook.nextHandle (Hook.dropTimeout h)).
  { unfold Hook.dropTimeout. destruct (Hook.timeoutRef h) as [t'|] eqn:E.
    - unfold Hook.armed in *. simpl.
      split; [rewrite armed_clear_other; [exact Ha | congruence]
             | split; [discriminate | exact Hn]].
    - split; [exact Ha | split; [rewrite E; discriminate | exact Hn]]. }
  destruct D as (D1 & D2 & D3).
  destruct e as [f k oe|t'|m| |]; simpl.
  - unfold Hook.requestMove.
    destruct (negb (Hook.workerRef h) || negb (Hook.isReady h)); simpl; auto.
    unfold Hook.armed in *. simpl. rewrite Ha, orb_true_r.
    repeat split; [|lia]. intros E. inversion E. lia.
  - unfold Hook.timerFires. destruct (Hook.armed t' h); simpl; auto.
    unfold Hook.armed in *. simpl.
    rewrite armed_clear_other by congruence. auto.
  - destruct m; simpl; auto. destruct v; simpl; auto.
  - auto.
  - auto.
Qed.

(** The timer of a request that was superseded (armed, but no longer
    the one in [timeoutRef]) is never cleared: whatever happens, new
    requests included, it stays armed until it expires. *)
Theorem superseded_timer_stays_armed (h : Hook.Hook) (t : nat) (es : list Hook.Event) :
  Hook.armed t h = true -> Hook.timeoutRef h <> Some t -> t < Hook.nextHandle h ->
  ~ In (Hook.TimerFires t) es ->
  Hook.armed t (fst (Hook.run v h es)) = true.
Proof.
  revert h. induction es as [|e es IH]; intros h Ha Hr Hn Hin; [exact Ha|].
  rewrite run_cons. simpl fst.
  destruct (other_timer_step h e t Ha Hr Hn) as (A1 & A2 & A3).
  { intros E. apply Hin. now left. }
  apply IH; auto. intros H. apply Hin. now right.
Qed.


End HookInvariants.


(** * The lines of the engine *)

Section Lines.
Variable v : Hook.HookVariant.

Lemma split_nonempty (s : string) : Uci.split s <> [].
Proof.
  induction s as [|c s IH]; cbn [Uci.split]; [discriminate|].
  destruct (Ascii.eqb c " "); [discriminate|].
  destruct (Uci.split s); [congruence | discriminate].
Qed.

Lemma split_spaceFree (s : string) :
  Forall (fun part => Uci.spaceFree part = true) (Uci.split s).
Proof.
  induction s as [|c s IH]; cbn [Uci.split].
  - constructor; auto.
  - destruct (Ascii.eqb c " ") eqn:Ec.
    + constructor; auto.
    + destruct (Uci.split s) as [|part parts] eqn:Es.
      * constructor; auto. cbn [Uci.spaceFree]. now rewrite Ec.
      * inversion IH; subst. constructor; auto. cbn [Uci.spaceFree]. now rewrite Ec.
Qed.

(** The first part of a split is the text before the first space. *)
Lemma split_head (mv tail : string) :
  Uci.spaceFree mv = true ->
  tail = EmptyString \/ Uci.startsWith " " tail = true ->
  exists parts, Uci.split (mv ++ tail) = mv :: parts.
Proof.
  intros Hs Ht. induction mv as [|c mv IH].
  - destruct Ht as [-> | Ht]; [now exists []|].
    destruct tail as [|c tail]; [discriminate|].
    cbn [Uci.startsWith] in Ht.
    apply andb_prop in Ht as [Ht _]. apply Ascii.eqb_eq in Ht. subst c.
    now exists (Uci.split tail).
  - cbn [Uci.spaceFree] in Hs.
    apply andb_prop in Hs as [Hc Hs]. apply negb_true_iff in Hc.
    cbn [append Uci.split]. rewrite Hc.
    destruct (IH Hs) as (parts & ->). now exists parts.
Qed.

(** The worker answers every "bestmove" line: with the move, which is
    then not empty, holds no space and is not "(none)", or else with the
    error "No valid move found".  The page never receives an absent
    move. *)
Theorem bestmove_line_is_answered (wk : Hook.Worker) (line : string) :
  Uci.includes "readyok" line = false ->
  Uci.startsWith "bestmove" line = true ->
  fst (Uci.stockfish_onmessage v wk line) = wk
  /\ ((exists mv, snd (Uci.stockfish_onmessage v wk line) = [ Hook.post (Hook.bestmove mv) ]
                  /\ mv <> EmptyString /\ mv <> "(none)"
                  /\ Uci.spaceFree mv = true)
      \/ snd (Uci.stockfish_onmessage v wk line) = [ Uci.noValidMove ]).
Proof.
  intros Hr Hb. unfold Uci.stockfish_onmessage. rewrite Hr, Hb. cbn [fst snd].
  split; [reflexivity|].
  destruct (nth_error (Uci.split line) 1) as [mv|] eqn:En; [|now right].
  destruct mv as [|c mv]; [now right|].
  destruct (String.eqb (String c mv) "(none)") eqn:Ee; [now right|].
  left. exists (String c mv). repeat split; try discriminate.
  - now apply String.eqb_neq.
  - apply nth_error_In in En.
    pose proof (split_spaceFree line) as Hf. rewrite Forall_forall in Hf. now apply Hf.
Qed.

Lemma bestmove_line_parsed (wk : Hook.Worker) (mv tail : string) :
  mv <> EmptyString -> mv <> "(none)" -> Uci.spaceFree mv = true ->
  tail = EmptyString \/ Uci.startsWith " " tail = true ->
  Uci.includes "readyok" ("bestmove " ++ mv ++ tail) = false ->
  snd (Uci.stockfish_onmessage v wk ("bestmove " ++ mv ++ tail))
  = [ Hook.post (Hook.bestmove mv) ].
Proof.
  intros Hne Hnone Hs Ht Hr. unfold Uci.stockfish_onmessage. rewrite Hr.
  destruct (split_head mv tail Hs Ht) as (parts & Ep).
  change (Uci.startsWith "bestmove" ("bestmove " ++ mv ++ tail)%string) with true.
  cbn iota.
  assert (E : Uci.split ("bestmove " ++ mv ++ tail) = "bestmove" :: mv :: parts).
  { change ("bestmove " ++ mv ++ tail)%string
      with (String "b" (String "e" (String "s" (String "t" (String "m"
             (String "o" (String "v" (String "e" (String " " (mv ++ tail)))))))))).
    cbn [Uci.split Ascii.eqb Bool.eqb]. rewrite Ep. reflexivity. }
  rewrite E. simpl.
  destruct mv as [|c mv]; [congruence|].
  apply String.eqb_neq in Hnone. now rewrite Hnone.
Qed.

(** Round trip of a move through the engine's line: the line
    "bestmove mv", alone or followed by a space and anything (a ponder
    move), is answered with the move itself. *)
Theorem bestmove_line_round_trip (wk : Hook.Worker) (mv tail : string) :
  mv <> EmptyString -> mv <> "(none)" -> Uci.spaceFree mv = true ->
  tail = EmptyString \/ Uci.startsWith " " tail = true ->
  Uci.includes "readyok" ("bestmove " ++ mv ++ tail) = false ->
  fst (Uci.stockfish_onmessage v wk ("bestmove " ++ mv ++ tail)) = wk
  /\ snd (Uci.stockfish_onmessage v wk ("bestmove " ++ mv ++ tail))
     = [ Hook.post (Hook.bestmove mv) ].
Proof.
  intros Hne Hnone Hs Ht Hr. split.
  - unfold Uci.stockfish_onmessage. rewrite Hr.
    change (Uci.startsWith "bestmove" ("bestmove " ++ mv ++ tail)%string) with true.
    reflexivity.
  - now apply bestmove_line_parsed.
Qed.

Lemma digits_of_uint (d : Decimal.uint) (tail : string) :
  tail = EmptyString
  \/ (exists c rest, tail = String c rest /\ Uci.isDigit c = false) ->
  Uci.takeDigits (NilEmpty.string_of_uint d ++ tail) = NilEmpty.string_of_uint d.
Proof.
  intros Ht. induction d; simpl; try (now rewrite IHd).
  destruct Ht as [-> | (c & rest & -> & Hc)]; simpl; auto. now rewrite Hc.
Qed.

Lemma to_uint_digits_nonempty (n : nat) :
  NilEmpty.string_of_uint (Nat.to_uint n) <> EmptyString.
Proof.
  intros H.
  assert (E : Nat.to_uint n = Decimal.Nil).
  { destruct (Nat.to_uint n); simpl in H; try discriminate. reflexivity. }
  pose proof (DecimalNat.Unsigned.to_of (Nat.to_uint n)) as T.
  rewrite DecimalNat.Unsigned.of_to in T. rewrite T in E.
  now apply DecimalFacts.unorm_nonnil in E.
Qed.

(** Round trip of a search depth through the engine's line: the line
    "info depth n", with n in decimal (an integer [parseInt] reads
    exactly, at most 2^53) and nothing more or anything that does not
    begin with a digit after it, makes the worker of the shipped hook
    and of the copy that loads stockfish.wasm.js post the analysis
    message with depth n. *)
Theorem depth_line_round_trip (wk : Hook.Worker) (n : nat) (tail : string) :
  v <> Hook.Depth20 ->
  (N.of_nat n <= Uci.maxSafeInteger)%N ->
  tail = EmptyString
  \/ (exists c rest, tail = String c rest /\ Uci.isDigit c = false) ->
  Uci.includes "readyok"
    ("info depth " ++ NilEmpty.string_of_uint (Nat.to_uint n) ++ tail) = false ->
  snd (Uci.stockfish_onmessage v wk
         ("info depth " ++ NilEmpty.string_of_uint (Nat.to_uint n) ++ tail))
  = [ Hook.post (Hook.analysis (Some n)) ].
Proof.
  intros Hv _ Ht Hr. unfold Uci.stockfish_onmessage. rewrite Hr.
  set (digits := NilEmpty.string_of_uint (Nat.to_uint n)).
  change ("info depth " ++ digits ++ tail)%string
    with (String "i" (String "n" (String "f" (String "o" (String " "
           (String "d" (String "e" (String "p" (String "t" (String "h"
           (String " " (digits ++ tail)))))))))))).
  cbn [Uci.startsWith Uci.includes Uci.matchDepth Uci.skip Ascii.eqb Bool.eqb
       andb orb snd].
  assert (Ed : Uci.takeDigits (digits ++ tail) = digits)
    by (apply digits_of_uint; exact Ht).
  rewrite Ed.
  pose proof (to_uint_digits_nonempty n) as Hne. fold digits in Hne.
  assert (Ep : Uci.parseInt digits = n).
  { unfold Uci.parseInt, digits. rewrite NilEmpty.usu.
    apply DecimalNat.Unsigned.of_to. }
  destruct v; try congruence; destruct digits; try congruence; now rewrite <- Ep.
Qed.

(** A line of the engine seen from the page.  While a request is
    pending, the line "bestmove mv" (alone or followed by a ponder move)
    makes the page invoke the move callback of the request with mv, and
    nothing else; the line "bestmove (none)" of a position without legal
    move makes it invoke the failure callback of the request, if there is
    one, and nothing else. *)
Theorem bestmove_line_reaches_the_callback
        (wk : Hook.Worker) (h : Hook.Hook) (k : nat) (mv tail : string) :
  Hook.pendingCallbackRef h = Some k ->
  mv <> EmptyString -> mv <> "(none)" -> Uci.spaceFree mv = true ->
  tail = EmptyString \/ Uci.startsWith " " tail = true ->
  Uci.includes "readyok" ("bestmove " ++ mv ++ tail) = false ->
  snd (Uci.relay v wk h ("bestmove " ++ mv ++ tail)) = [ Hook.onMove k mv ]
  /\ snd (Uci.relay v wk h "bestmove (none)")
     = match Hook.errorCallbackRef h with
       | Some e => [ Hook.onError e ]
       | None => []
       end.
Proof.
  intros Hp Hne Hnone Hs Ht Hr.
  destruct (dropTimeout_slots h) as (Dp & De & _).
  split.
  - unfold Uci.relay.
    rewrite (bestmove_line_parsed wk mv tail Hne Hnone Hs Ht Hr).
    simpl. rewrite Dp, Hp. reflexivity.
  - unfold Uci.relay. simpl. rewrite De.
    destruct (Hook.errorCallbackRef h); reflexivity.
Qed.

End Lines.


(** * The wrapper class *)

(** The messages that make the fallback engine arm a reply. *)
Lemma fallback_posts (ms : list string) :
  forall st,
    Wrapper.isReady st = true -> Wrapper.engine st = Some Wrapper.FallbackEngine ->
    Wrapper.received (Wrapper.run st (map Wrapper.Post ms)) = Wrapper.received st ++ ms
    /\ Wrapper.replyTimers (Wrapper.run st (map Wrapper.Post ms))
       = Wrapper.replyTimers st ++ filter (Uci.startsWith "position") ms
    /\ Wrapper.messageQueue (Wrapper.run st (map Wrapper.Post ms)) = Wrapper.messageQueue st.
Proof.
  unfold Wrapper.run.
  induction ms as [|m ms IH]; intros st Hr He;
    cbn [map fold_left filter Wrapper.step].
  - now rewrite !app_nil_r.
  - unfold Wrapper.postMessage at 1 2 3. rewrite Hr, He.
    destruct (IH (Wrapper.enginePost Wrapper.FallbackEngine m st) Hr He) as (-> & -> & ->).
    cbn [Wrapper.enginePost Wrapper.received Wrapper.replyTimers Wrapper.messageQueue].
    split; [|split]; auto.
    + now rewrite <- app_assoc.
    + destruct (Uci.startsWith "position" m); auto. now rewrite <- app_assoc.
Qed.

Lemma wasm_posts (ms : list string) :
  forall st,
    Wrapper.isReady st = true -> Wrapper.engine st = Some Wrapper.WasmEngine ->
    Wrapper.received (Wrapper.run st (map Wrapper.Post ms)) = Wrapper.received st ++ ms
    /\ Wrapper.replyTimers (Wrapper.run st (map Wrapper.Post ms)) = Wrapper.replyTimers st
    /\ Wrapper.messageQueue (Wrapper.run st (map Wrapper.Post ms)) = Wrapper.messageQueue st.
Proof.
  unfold Wrapper.run.
  induction ms as [|m ms IH]; intros st Hr He;
    cbn [map fold_left filter Wrapper.step].
  - now rewrite !app_nil_r.
  - unfold Wrapper.postMessage at 1 2 3. rewrite Hr, He.
    destruct (IH (Wrapper.enginePost Wrapper.WasmEngine m st) Hr He) as (-> & -> & ->).
    cbn [Wrapper.enginePost Wrapper.received Wrapper.replyTimers Wrapper.messageQueue].
    split; [|split]; auto. now rewrite <- app_assoc.
Qed.

Lemma queued_posts (ms : list string) :
  forall st,
    Wrapper.isReady st = false ->
    Wrapper.received (Wrapper.run st (map Wrapper.Post ms)) = Wrapper.received st
    /\ Wrapper.replyTimers (Wrapper.run st (map Wrapper.Post ms)) = Wrapper.replyTimers st
    /\ Wrapper.messageQueue (Wrapper.run st (map Wrapper.Post ms))
       = Wrapper.messageQueue st ++ ms
    /\ Wrapper.isReady (Wrapper.run st (map Wrapper.Post ms)) = false
    /\ Wrapper.engine (Wrapper.run st (map Wrapper.Post ms)) = Wrapper.engine st.
Proof.
  unfold Wrapper.run.
  induction ms as [|m ms IH]; intros st Hr;
    cbn [map fold_left filter Wrapper.step].
  - now rewrite !app_nil_r.
  - unfold Wrapper.postMessage at 1 2 3 4 5. rewrite Hr.
    match goal with |- context [fold_left Wrapper.step _ ?s] =>
      destruct (IH s eq_refl) as (-> & -> & -> & -> & ->) end.
    cbn [Wrapper.received Wrapper.replyTimers Wrapper.messageQueue Wrapper.engine].
    repeat split; auto. now rewrite <- app_assoc.
Qed.

Lemma flush_queue (q : list string) :
  forall st,
    Wrapper.received
      (fold_left (fun s msg => Wrapper.enginePost Wrapper.WasmEngine msg s) q st)
    = Wrapper.received st ++ q
    /\ Wrapper.replyTimers
         (fold_left (fun s msg => Wrapper.enginePost Wrapper.WasmEngine msg s) q st)
       = Wrapper.replyTimers st
    /\ Wrapper.isReady
         (fold_left (fun s msg => Wrapper.enginePost Wrapper.WasmEngine msg s) q st)
       = Wrapper.isReady st
    /\ Wrapper.engine
         (fold_left (fun s msg => Wrapper.enginePost Wrapper.WasmEngine msg s) q st)
       = Wrapper.engine st.
Proof.
  induction q as [|m q IH]; intros st; simpl.
  - now rewrite app_nil_r.
  - destruct (IH (Wrapper.enginePost Wrapper.WasmEngine m st)) as (-> & -> & -> & ->).
    cbn [Wrapper.enginePost Wrapper.received Wrapper.replyTimers Wrapper.isReady
         Wrapper.engine].
    repeat split; auto. now rewrite <- app_assoc.
Qed.

Lemma run_app (st : Wrapper.StockfishWorker) (es1 es2 : list Wrapper.Event) :
  Wrapper.run st (es1 ++ es2) = Wrapper.run (Wrapper.run st es1) es2.
Proof. unfold Wrapper.run. apply fold_left_app. Qed.

(** What the engine behind the wrapper receives.  When the engine code
    loads, the engine receives "uci" and then every message ever posted,
    those posted before the load and those posted after it, each once
    and in the order of posting, and the queue is empty.  When the load
    fails, the fallback engine receives the messages posted after the
    failure only: those posted before stay in the queue for ever and are
    never answered.  Without WebAssembly the fallback engine receives
    every message.  The fallback arms a reply for the messages that
    begin with "position" and for no other. *)
Theorem wrapper_delivers_in_order_or_loses_the_queue (before after : list string) :
  (Wrapper.received
     (Wrapper.run (Wrapper.construct true)
        (map Wrapper.Post before ++ Wrapper.Fetched :: map Wrapper.Post after))
   = "uci" :: before ++ after
   /\ Wrapper.messageQueue
        (Wrapper.run (Wrapper.construct true)
           (map Wrapper.Post before ++ Wrapper.Fetched :: map Wrapper.Post after))
      = [])
  /\ (Wrapper.received
        (Wrapper.run (Wrapper.construct true)
           (map Wrapper.Post before ++ Wrapper.FetchFailed :: map Wrapper.Post after))
      = after
      /\ Wrapper.messageQueue
           (Wrapper.run (Wrapper.construct true)
              (map Wrapper.Post before ++ Wrapper.FetchFailed :: map Wrapper.Post after))
         = before
      /\ Wrapper.replyTimers
           (Wrapper.run (Wrapper.construct true)
              (map Wrapper.Post before ++ Wrapper.FetchFailed :: map Wrapper.Post after))
         = filter (Uci.startsWith "position") after)
  /\ (Wrapper.received (Wrapper.run (Wrapper.construct false) (map Wrapper.Post after))
      = after
      /\ Wrapper.replyTimers
           (Wrapper.run (Wrapper.construct false) (map Wrapper.Post after))
         = filter (Uci.startsWith "position") after).
Proof.
  set (st := Wrapper.run (Wrapper.construct true) (map Wrapper.Post before)).
  assert (Q : Wrapper.received st = [] /\ Wrapper.replyTimers st = []
              /\ Wrapper.messageQueue st = before).
  { destruct (queued_posts before (Wrapper.construct true) eq_refl)
      as (Q1 & Q2 & Q3 & _).
    unfold st. rewrite Q1, Q2, Q3. now repeat split. }
  destruct Q as (Q1 & Q2 & Q3).
  split; [|split].
  - rewrite run_app. fold st.
    change (Wrapper.run st (Wrapper.Fetched :: map Wrapper.Post after))
      with (Wrapper.run (Wrapper.fetched st) (map Wrapper.Post after)).
    assert (F : Wrapper.received (Wrapper.fetched st) = "uci" :: before
                /\ Wrapper.isReady (Wrapper.fetched st) = true
                /\ Wrapper.engine (Wrapper.fetched st) = Some Wrapper.WasmEngine
                /\ Wrapper.messageQueue (Wrapper.fetched st) = []).
    { unfold Wrapper.fetched. cbn [Wrapper.received Wrapper.replyTimers Wrapper.isReady
                                   Wrapper.engine Wrapper.messageQueue].
      match goal with |- context [fold_left ?f ?q ?s] =>
        destruct (flush_queue q s) as (-> & _ & -> & ->) end.
      cbn [Wrapper.enginePost Wrapper.received Wrapper.replyTimers Wrapper.isReady
           Wrapper.engine Wrapper.messageQueue].
      rewrite Q1, Q3. now repeat split. }
    destruct F as (F1 & F3 & F4 & F5).
    destruct (wasm_posts after (Wrapper.fetched st) F3 F4) as (-> & _ & ->).
    rewrite F1, F5. now split.
  - rewrite run_app. fold st.
    change (Wrapper.run st (Wrapper.FetchFailed :: map Wrapper.Post after))
      with (Wrapper.run (Wrapper.createFallbackEngine st) (map Wrapper.Post after)).
    destruct (fallback_posts after (Wrapper.createFallbackEngine st) eq_refl eq_refl)
      as (-> & -> & ->).
    cbn [Wrapper.createFallbackEngine Wrapper.received Wrapper.replyTimers
         Wrapper.messageQueue].
    rewrite Q1, Q2, Q3. now repeat split.
  - destruct (fallback_posts after (Wrapper.construct false) eq_refl eq_refl)
      as (-> & -> & _).
    now split.
Qed.


(** * The further properties at concrete runs *)

Lemma openingBook_turnLaws : @Click.turnLaws OpeningBook.engine.
Proof.
  repeat split.
  - intros g r g' m. destruct g; simpl;
      try (destruct (String.eqb _ _ && String.eqb _ _); intros H; inversion H; reflexivity);
      discriminate.
  - intros g. now destruct g.
Qed.

(** The turn flag after 1. e4 and after the engine's answer. *)
Lemma turn_flag_witness :
  Click.turnConsistent
    (stored (@onDrop OpeningBook.engine (App.board Scenario.seated) "e2" "e4" "wP"))
  /\ Click.turnConsistent
       (@makeBotMove OpeningBook.engine (App.board Scenario.awaiting) "e7e5").
Proof.
  split.
  - apply (@turn_flag_follows_side_to_move OpeningBook.engine
             (App.board Scenario.seated) "e2" "e4" "wP" "e7e5"
             openingBook_turnLaws eq_refl).
    split; reflexivity.
  - apply (@turn_flag_follows_side_to_move OpeningBook.engine
             (App.board Scenario.awaiting) "e2" "e4" "wP" "e7e5"
             openingBook_turnLaws eq_refl);
      try reflexivity; split; intros H; discriminate H.
Defined.

(** After the time-out: two drops, the late answer of the engine and a
    scheduled request coming due change nothing. *)
Lemma failed_engine_turn_witness :
  gamePosition
    (App.board (App.run Scenario2.timedOut
                  [ App.Drop "d2" "d4" "wP";
                    App.Engine (Hook.Message (Hook.bestmove "e7e5"));
                    App.RequestDue;
                    App.Drop "e7" "e5" "bP" ]))
  = OpeningBook.e4_fen
  /\ isPlayerTurn
       (App.board (App.run Scenario2.timedOut
                     [ App.Drop "d2" "d4" "wP";
                       App.Engine (Hook.Message (Hook.bestmove "e7e5"));
                       App.RequestDue;
                       App.Drop "e7" "e5" "bP" ]))
     = false.
Proof.
  destruct (@failed_engine_turn_blocks_the_game OpeningBook.engine Scenario2.timedOut
              [ App.Drop "d2" "d4" "wP";
                App.Engine (Hook.Message (Hook.bestmove "e7e5"));
                App.RequestDue;
                App.Drop "e7" "e5" "bP" ] eq_refl eq_refl eq_refl eq_refl)
    as (H1 & _ & _ & H4).
  split; [exact H1 | exact H4].
Defined.

(** The engine was asked for the first move; the player resets; the
    engine's e2e4 lands on the new board. *)
Lemma move_after_reset_witness :
  moveHistory
    (App.board (App.run Scenario2.engineOpens
                  [ App.Reset; App.Engine (Hook.Message (Hook.bestmove "e2e4")) ]))
  = [ "e4" ]
  /\ gameStarted
       (App.board (App.run Scenario2.engineOpens
                     [ App.Reset; App.Engine (Hook.Message (Hook.bestmove "e2e4")) ]))
     = false.
Proof.
  destruct (@move_after_reset_is_played_on_the_new_board OpeningBook.engine
              Scenario2.engineOpens 0 "e2e4" OpeningBook.AfterE4
              {| san := "e4"; mfrom := "e2"; mto := "e4" |} eq_refl eq_refl)
    as (_ & H2 & H3).
  split; [exact H3 | exact H2].
Defined.

(** "Ann" starts as black before the worker has reported ready. *)
Lemma request_before_ready_witness :
  Hook.isReady (App.hook Scenario2.startedEarly) = true
  /\ Hook.outbox (App.hook Scenario2.startedEarly) = []
  /\ isPlayerTurn (App.board Scenario2.startedEarly) = false
  /\ botThinking (App.board Scenario2.startedEarly) = false.
Proof.
  destruct (@request_scheduled_before_ready_is_refused OpeningBook.engine
              (App.run App.fresh [ App.Details "Ann" female black ])
              eq_refl eq_refl eq_refl eq_refl)
    as (H1 & H2 & _ & _ & _ & H6 & H7).
  split; [exact H1 | split; [exact H2 | split; [exact H6 | exact H7]]].
Defined.

(** A name made of a no-break space (U+00A0) and a space starts
    nothing; "Ann" playing black starts a game in which the engine
    moves first. *)
Lemma startGame_witness :
  startGame (enterDetails (utf8 [194; 160; 32]) female white
               (@initialState OpeningBook.engine))
  = enterDetails (utf8 [194; 160; 32]) female white initialState
  /\ gameStarted
       (startGame (enterDetails "Ann" female black (@initialState OpeningBook.engine)))
     = true
  /\ isPlayerTurn
       (startGame (enterDetails "Ann" female black (@initialState OpeningBook.engine)))
     = false.
Proof.
  destruct (@startGame_needs_a_name_and_a_gender OpeningBook.engine
              initialState (utf8 [194; 160; 32]) female white) as (H1 & _).
  destruct (@startGame_needs_a_name_and_a_gender OpeningBook.engine
              initialState "Ann" female black) as (_ & _ & H3).
  assert (B : Traces.blank (utf8 [194; 160; 32])).
  { apply (Traces.blank_more (utf8 [194; 160]) (utf8 [32])).
    - unfold whiteSpace. cbn [map In]. do 6 right. left. reflexivity.
    - apply (Traces.blank_more (utf8 [32]) EmptyString).
      + unfold whiteSpace. cbn [map In]. do 5 right. left. reflexivity.
      + constructor. }
  assert (N : ~ Traces.blank "Ann").
  { intros H. apply trimmedNonEmpty_blank in H. discriminate H. }
  destruct (H3 N) as (G1 & _ & _ & _ & _ & _ & _ & _ & _ & _ & _ & G12);
    [discriminate|].
  split; [exact (H1 B) | split; [exact G1|]].
  destruct (isPlayerTurn _) eqn:E; [|reflexivity].
  destruct G12 as [G _]. discriminate (G eq_refl).
Defined.

(** A promotion and a plain move. *)
Lemma botRequest_witness :
  @botRequest "e7e8q" = {| from := "e7"; to := "e8"; promotion := Some "q" |}
  /\ @botRequest "g1f3" = {| from := "g1"; to := "f3"; promotion := None |}.
Proof.
  split.
  - exact (botRequest_reads_uci_move "e7" "e8" "q" eq_refl eq_refl).
  - exact (botRequest_reads_uci_move "g1" "f3" EmptyString eq_refl eq_refl).
Defined.

(** While the engine is to move after 1. e4. *)
Lemma engine_turn_blocks_witness :
  Click.onPieceDragBegin (App.board Scenario.awaiting) "wP" "d2" = false
  /\ @onDrop OpeningBook.engine (App.board Scenario.awaiting) "d2" "d4" "wP"
     = refused (App.board Scenario.awaiting)
  /\ Click.onSquareClick (R := OpeningBook.engine) Scenario2.bookGet Scenario2.bookTargets
       (App.board Scenario.awaiting) "d4"
     = (App.board Scenario.awaiting, None).
Proof.
  apply (@engine_turn_blocks_all_input OpeningBook.engine
           Scenario2.bookGet Scenario2.bookTargets
           (App.board Scenario.awaiting) "wP" "d2" "d4").
  left. reflexivity.
Defined.

(** The pawn on e2 selected, then a click on e4. *)
Lemma click_moves_witness :
  exists source rest g m,
    selectedSquares Scenario2.pawnSelected = source :: rest
    /\ existsb (String.eqb "e4") (selectedSquares Scenario2.pawnSelected) = true
    /\ isPlayerTurn Scenario2.pawnSelected = true
    /\ botThinking Scenario2.pawnSelected = false
    /\ @move OpeningBook.engine (loadFen (gamePosition Scenario2.pawnSelected))
             {| from := source; to := "e4"; promotion := None |} = Moved g m
    /\ fst (Click.onSquareClick (R := OpeningBook.engine)
              Scenario2.bookGet Scenario2.bookTargets Scenario2.pawnSelected "e4")
       = afterMove Scenario2.pawnSelected g m false false
    /\ selectedSquares
         (fst (Click.onSquareClick (R := OpeningBook.engine)
                 Scenario2.bookGet Scenario2.bookTargets Scenario2.pawnSelected "e4"))
       = []
    /\ isPlayerTurn
         (fst (Click.onSquareClick (R := OpeningBook.engine)
                 Scenario2.bookGet Scenario2.bookTargets Scenario2.pawnSelected "e4"))
       = false.
Proof.
  apply (@click_moves_through_the_drop_gate OpeningBook.engine
           Scenario2.bookGet Scenario2.bookTargets Scenario2.pawnSelected "e4").
  intros H. discriminate H.
Defined.


(** Three requests, a late timer and a move before the worker is
    ready. *)
Lemma requests_before_ready_witness :
  Hook.invoked Hook.Shipped Hook.mounted
    [ Hook.Request OpeningBook.start_fen 1 (Some 1);
      Hook.Request OpeningBook.start_fen 2 None;
      Hook.TimerFires 0;
      Hook.Message (Hook.bestmove "e2e4");
      Hook.Request OpeningBook.start_fen 3 (Some 3) ]
  = [ Hook.onError 1; Hook.onError 3 ].
Proof.
  destruct (requests_before_ready_are_refused Hook.Shipped
              [ Hook.Request OpeningBook.start_fen 1 (Some 1);
                Hook.Request OpeningBook.start_fen 2 None;
                Hook.TimerFires 0;
                Hook.Message (Hook.bestmove "e2e4");
                Hook.Request OpeningBook.start_fen 3 (Some 3) ] eq_refl) as (H & _).
  exact H.
Defined.

(** A request made after [terminate], even after a stray ready
    message. *)
Lemma terminate_witness :
  In (Hook.onError 7)
     (Hook.invoked Hook.Shipped (Hook.terminate Hook.readyHook)
        [ Hook.Message Hook.ready; Hook.Request OpeningBook.start_fen 7 (Some 7) ]).
Proof.
  destruct (terminate_is_final Hook.Shipped Hook.readyHook
              [ Hook.Message Hook.ready; Hook.Request OpeningBook.start_fen 7 (Some 7) ])
    as (_ & _ & _ & _ & H).
  apply (H OpeningBook.start_fen 7 7). right. left. reflexivity.
Defined.

(** The timer of the first of two requests survives the answer to the
    second, an error, a third request and [terminate]. *)
Lemma superseded_timer_witness :
  Hook.armed 0
    (fst (Hook.run Hook.Shipped Scenario2.twoRequests
            [ Hook.Message (Hook.bestmove "e7e5");
              Hook.Message (Hook.error "Move timeout");
              Hook.Request OpeningBook.e4_fen 3 (Some 3);
              Hook.TimerFires 1;
              Hook.Terminate ]))
  = true.
Proof.
  apply (superseded_timer_stays_armed Hook.Shipped Scenario2.twoRequests 0).
  - reflexivity.
  - discriminate.
  - unfold Scenario2.twoRequests. simpl. lia.
  - simpl. intros [H | [H | [H | [H | [H | H]]]]]; try discriminate H. exact H.
Defined.

(** A line with a ponder move, and the line of a position without
    move. *)
Lemma bestmove_line_answered_witness :
  (exists mv,
      snd (Uci.stockfish_onmessage Hook.Shipped Hook.running "bestmove e7e5 ponder g1f3")
      = [ Hook.post (Hook.bestmove mv) ]
      /\ mv <> EmptyString /\ mv <> "(none)" /\ Uci.spaceFree mv = true)
  \/ snd (Uci.stockfish_onmessage Hook.Shipped Hook.running "bestmove e7e5 ponder g1f3")
     = [ Uci.noValidMove ].
Proof.
  exact (proj2 (bestmove_line_is_answered Hook.Shipped Hook.running
                  "bestmove e7e5 ponder g1f3" eq_refl eq_refl)).
Defined.

Lemma bestmove_round_trip_witness :
  snd (Uci.stockfish_onmessage Hook.Shipped Hook.running
         ("bestmove " ++ "e7e8q" ++ " ponder g1f3"))
  = [ Hook.post (Hook.bestmove "e7e8q") ].
Proof.
  apply (proj2 (bestmove_line_round_trip Hook.Shipped Hook.running
                  "e7e8q" " ponder g1f3"
                  ltac:(discriminate) ltac:(discriminate) eq_refl
                  (or_intror eq_refl) eq_refl)).
Defined.

Lemma depth_round_trip_witness :
  snd (Uci.stockfish_onmessage Hook.Shipped Hook.running
         ("info depth " ++ NilEmpty.string_of_uint (Nat.to_uint 12)
            ++ " seldepth 18 score cp 31"))
  = [ Hook.post (Hook.analysis (Some 12)) ].
Proof.
  apply (depth_line_round_trip Hook.Shipped Hook.running 12 " seldepth 18 score cp 31").
  - discriminate.
  - discriminate.
  - right. exists " "%char, "seldepth 18 score cp 31". split; reflexivity.
  - reflexivity.
Defined.

(** The engine's answer to the request pending after 1. e4. *)
Lemma bestmove_callback_witness :
  snd (Uci.relay Hook.Shipped Hook.running (App.hook Scenario.awaiting)
         ("bestmove " ++ "e7e5" ++ " ponder g1f3"))
  = [ Hook.onMove 0 "e7e5" ]
  /\ snd (Uci.relay Hook.Shipped Hook.running (App.hook Scenario.awaiting)
            "bestmove (none)")
     = [ Hook.onError 0 ].
Proof.
  apply (bestmove_line_reaches_the_callback Hook.Shipped Hook.running
           (App.hook Scenario.awaiting) 0 "e7e5" " ponder g1f3").
  - reflexivity.
  - discriminate.
  - discriminate.
  - reflexivity.
  - right. reflexivity.
  - reflexivity.
Defined.

(** 1. e4 on a ready session: the engine is asked for the position after
    the move. *)
Lemma accepted_drop_witness :
  Hook.outbox
    (App.hook (App.run Scenario.seated [ App.Drop "e2" "e4" "wP"; App.RequestDue ]))
  = [ Hook.position OpeningBook.e4_fen ]
  /\ botThinking
       (App.board (App.run Scenario.seated [ App.Drop "e2" "e4" "wP"; App.RequestDue ]))
     = true.
Proof.
  destruct (@accepted_drop_asks_for_the_new_position OpeningBook.engine
              Scenario.seated "e2" "e4" "wP" eq_refl eq_refl eq_refl eq_refl)
    as (H & _).
  destruct (H eq_refl) as (H1 & H2 & _).
  split; [exact H1 | exact H2].
Defined.
